(** * Log analyzer: the format detection and parsing engine

    A shallow embedding of [log_parser.py], [utils.py] and [config.py],
    and the properties of the parsing engine checked against it.

    Conventions.  A Python [str] is a [string] whose characters are read
    as code points below 256 (the character classes below are the ones
    CPython gives to those code points); [bytes] is [list byte].  A
    [dict] is an association list in insertion order without duplicate
    keys.  Library code that the repository only calls (codecs,
    decompressors, [json], [xml.etree], [pandas.to_numeric], the
    [DataFrame] constructor on JSON documents, [time.localtime],
    [datetime.strptime]) is the interface [Runtime];
    the functions of the repository are written over it. *)

From Stdlib Require Import Bool Arith NArith ZArith Lia List Ascii String.
From Stdlib.Strings Require Import Byte.
Import ListNotations.
Local Open Scope string_scope.
Set Warnings "-register-all,-abstract-large-number".

(* ================================================================= *)
(** ** Python string methods used by the source *)

Module PyStr.

Definition ord (c : ascii) : N := N_of_ascii c.

Definition in_range (lo hi : N) (c : ascii) : bool :=
  ((lo <=? ord c) && (ord c <=? hi))%N.

(** [str.isspace] on one character. *)
Definition isspace (c : ascii) : bool :=
  in_range 9 13 c || in_range 28 32 c || (ord c =? 133)%N || (ord c =? 160)%N.

(** ASCII decimal digit, [0-9]. *)
Definition is_dec (c : ascii) : bool := in_range 48 57 c.

(** [str.isdigit] on one character: the decimal digits and the
    superscripts 2, 3 and 1 (U+00B2, U+00B3, U+00B9). *)
Definition isdigit_char (c : ascii) : bool :=
  is_dec c || (ord c =? 178)%N || (ord c =? 179)%N || (ord c =? 185)%N.

Fixpoint all_chars (p : ascii -> bool) (s : string) : bool :=
  match s with
  | EmptyString => true
  | String c s' => p c && all_chars p s'
  end.

(** [s.isdigit()]: every character is a digit and there is at least one. *)
Definition isdigit (s : string) : bool :=
  match s with
  | EmptyString => false
  | _ => all_chars isdigit_char s
  end.

Definition is_empty (s : string) : bool :=
  match s with EmptyString => true | _ => false end.

Fixpoint lstrip (s : string) : string :=
  match s with
  | EmptyString => EmptyString
  | String c s' => if isspace c then lstrip s' else s
  end.

Fixpoint rstrip (s : string) : string :=
  match s with
  | EmptyString => EmptyString
  | String c s' =>
      match rstrip s' with
      | EmptyString => if isspace c then EmptyString else String c EmptyString
      | r => String c r
      end
  end.

(** [s.strip()] *)
Definition strip (s : string) : string := rstrip (lstrip s).

(** The longest prefix without whitespace, and what follows it. *)
Fixpoint word_end (s : string) : string * string :=
  match s with
  | EmptyString => (EmptyString, EmptyString)
  | String c s' =>
      if isspace c then (EmptyString, s)
      else let (w, r) := word_end s' in (String c w, r)
  end.

(** [s.split(maxsplit=k)]: split on runs of whitespace, at most [k]
    times; what is left after the [k]-th word, without its leading
    whitespace, is the last element when it is not empty. *)
Fixpoint split_maxsplit (k : nat) (s : string) : list string :=
  match lstrip s with
  | EmptyString => []
  | r =>
      match k with
      | O => [r]
      | S k' => let (w, rest) := word_end r in w :: split_maxsplit k' rest
      end
  end.

(** [s.split()]: no bound on the number of splits. *)
Definition split (s : string) : list string := split_maxsplit (length s) s.

(** [s.startswith(p)] *)
Definition startswith (p s : string) : bool := prefix p s.

(** [p in s] *)
Fixpoint contains (p s : string) : bool :=
  prefix p s ||
  match s with
  | EmptyString => false
  | String _ s' => contains p s'
  end.

Fixpoint drop (n : nat) (s : string) : string :=
  match n, s with
  | O, _ => s
  | S n', String _ s' => drop n' s'
  | S _, EmptyString => EmptyString
  end.

(** [s.split(sep)] for a separator that is not empty: the pieces between
    the occurrences of [sep], found from left to right. *)
Fixpoint split_on (fuel : nat) (sep : string) (cur : string) (s : string) : list string :=
  match fuel with
  | O => [cur ++ s]
  | S fuel' =>
      match s with
      | EmptyString => [cur]
      | String c s' =>
          if prefix sep s then cur :: split_on fuel' sep EmptyString (drop (length sep) s)
          else split_on fuel' sep (cur ++ String c EmptyString) s'
      end
  end.

(** [s.split(sep)]; an empty separator raises [ValueError]. *)
Definition split_sep (sep s : string) : option (list string) :=
  match sep with
  | EmptyString => None
  | _ => Some (split_on (S (length s)) sep EmptyString s)
  end.

(** [str.lower] on one character (code points below 256). *)
Definition lower_char (c : ascii) : ascii :=
  if in_range 65 90 c || (in_range 192 222 c && negb (ord c =? 215)%N)
  then ascii_of_N (ord c + 32) else c.

Fixpoint lower (s : string) : string :=
  match s with
  | EmptyString => EmptyString
  | String c s' => String (lower_char c) (lower s')
  end.

(** [sep.join(parts)] *)
Fixpoint join (sep : string) (parts : list string) : string :=
  match parts with
  | [] => EmptyString
  | [p] => p
  | p :: ps => p ++ sep ++ join sep ps
  end.

End PyStr.

(* ================================================================= *)
(** ** Regular expressions: a backtracking matcher in the manner of [re]

    Alternatives are tried from left to right and repetitions are greedy,
    so the captured groups are the ones Python reports.  [prev] is the
    character before the current position (for [^] and [\b]). *)

Module Re.

Inductive re : Type :=
| Eps
| Chr (p : ascii -> bool)
| Cat (r1 r2 : re)
| Alt (r1 r2 : re)
| Star (r : re)
| Grp (n : nat) (r : re)
| Bol
| Eol
| WordB.

Definition caps := list (nat * string).

(** [\w] *)
Definition is_word (c : ascii) : bool :=
  PyStr.in_range 48 57 c || PyStr.in_range 65 90 c || PyStr.in_range 97 122 c
  || (PyStr.ord c =? 95)%N || (PyStr.ord c =? 170)%N || (PyStr.ord c =? 178)%N
  || (PyStr.ord c =? 179)%N || (PyStr.ord c =? 181)%N || (PyStr.ord c =? 185)%N
  || (PyStr.ord c =? 186)%N || PyStr.in_range 188 190 c || PyStr.in_range 192 214 c
  || PyStr.in_range 216 246 c || PyStr.in_range 248 255 c.

Definition word_at (c : option ascii) : bool :=
  match c with Some x => is_word x | None => false end.

Definition first_char (s : string) : option ascii :=
  match s with String c _ => Some c | EmptyString => None end.

Definition newline : ascii := ascii_of_N 10.
Definition dquote : ascii := ascii_of_N 34.

Fixpoint run (r : re) (prev : option ascii) (s : string) (cs : caps)
    (k : option ascii -> string -> caps -> option caps) {struct r} : option caps :=
  match r with
  | Eps => k prev s cs
  | Chr p =>
      match s with
      | String c s' => if p c then k (Some c) s' cs else None
      | EmptyString => None
      end
  | Cat r1 r2 => run r1 prev s cs (fun prev' s' cs' => run r2 prev' s' cs' k)
  | Alt r1 r2 =>
      match run r1 prev s cs k with
      | Some c => Some c
      | None => run r2 prev s cs k
      end
  | Star r1 =>
      (fix loop (n : nat) (prev0 : option ascii) (s0 : string) (cs0 : caps) : option caps :=
         match n with
         | O => k prev0 s0 cs0
         | S n' =>
             match run r1 prev0 s0 cs0
                     (fun prev' s' cs' =>
                        if Nat.ltb (length s') (length s0) then loop n' prev' s' cs' else None) with
             | Some c => Some c
             | None => k prev0 s0 cs0
             end
         end) (length s) prev s cs
  | Grp n r1 =>
      run r1 prev s cs
        (fun prev' s' cs' => k prev' s' ((n, substring 0 (length s - length s') s) :: cs'))
  | Bol => match prev with None => k prev s cs | Some _ => None end
  | Eol =>
      match s with
      | EmptyString => k prev s cs
      | String c EmptyString => if Ascii.eqb c newline then k prev s cs else None
      | _ => None
      end
  | WordB => if xorb (word_at prev) (word_at (first_char s)) then k prev s cs else None
  end.

Definition accept : option ascii -> string -> caps -> option caps :=
  fun _ _ cs => Some cs.

(** [re.match(r, s)]: a match that starts at the beginning of [s]. *)
Definition re_match (r : re) (s : string) : option caps := run r None s [] accept.

Fixpoint search_from (r : re) (prev : option ascii) (s : string) : option caps :=
  match run r prev s [] accept with
  | Some cs => Some cs
  | None =>
      match s with
      | EmptyString => None
      | String c s' => search_from r (Some c) s'
      end
  end.

(** [re.search(r, s)]: the leftmost match. *)
Definition re_search (r : re) (s : string) : option caps := search_from r None s.

Definition matches (r : re) (s : string) : bool :=
  match re_match r s with Some _ => true | None => false end.

Definition found (r : re) (s : string) : bool :=
  match re_search r s with Some _ => true | None => false end.

(** [m.group(n)]; [None] when the group took no part in the match. *)
Fixpoint group (n : nat) (cs : caps) : option string :=
  match cs with
  | [] => None
  | (m, v) :: cs' => if Nat.eqb m n then Some v else group n cs'
  end.

(** *** Pattern syntax *)

Definition chr (c : ascii) : re := Chr (Ascii.eqb c).

(** A literal character under [re.IGNORECASE]. *)
Definition chr_i (c : ascii) : re :=
  Chr (fun x => Ascii.eqb (PyStr.lower_char x) (PyStr.lower_char c)).

Fixpoint lit (s : string) : re :=
  match s with
  | EmptyString => Eps
  | String c EmptyString => chr c
  | String c s' => Cat (chr c) (lit s')
  end.

Fixpoint lit_i (s : string) : re :=
  match s with
  | EmptyString => Eps
  | String c EmptyString => chr_i c
  | String c s' => Cat (chr_i c) (lit_i s')
  end.

Definition plus (r : re) : re := Cat r (Star r).
Definition opt (r : re) : re := Alt r Eps.

Fixpoint rep (n : nat) (r : re) : re :=
  match n with
  | O => Eps
  | 1 => r
  | S n' => Cat r (rep n' r)
  end.

Fixpoint seq (rs : list re) : re :=
  match rs with
  | [] => Eps
  | [r] => r
  | r :: rs' => Cat r (seq rs')
  end.

Fixpoint alts (rs : list re) : re :=
  match rs with
  | [] => Chr (fun _ => false)
  | [r] => r
  | r :: rs' => Alt r (alts rs')
  end.

Definition d : re := Chr PyStr.is_dec.                       (* \d *)
Definition w : re := Chr is_word.                            (* \w *)
Definition S_ : re := Chr (fun c => negb (PyStr.isspace c)). (* \S *)
Definition dot : re := Chr (fun c => negb (Ascii.eqb c newline)). (* . *)
Definition sp : re := chr " ".
Definition range (lo hi : N) : re := Chr (PyStr.in_range lo hi).
Definition none_of (c : ascii) : re := Chr (fun x => negb (Ascii.eqb x c)).

End Re.

(* ================================================================= *)
(** ** Integers and calendar dates *)

Module PyNum.

Local Open Scope Z_scope.

Definition digit_char (n : Z) : ascii := ascii_of_N (Z.to_N (48 + n)).

Fixpoint pos_digits (fuel : nat) (n : Z) (acc : string) : string :=
  match fuel with
  | O => acc
  | S fuel' =>
      let acc' := String (digit_char (n mod 10)) acc in
      if n / 10 =? 0 then acc' else pos_digits fuel' (n / 10) acc'
  end.

(** [str(n)] for an [int]. *)
Definition str_of_int (n : Z) : string :=
  if n <? 0 then String "-" (pos_digits (S (Z.to_nat (Z.log2 (- n)))) (- n) EmptyString)
  else pos_digits (S (Z.to_nat (Z.log2 n))) n EmptyString.

(** A decimal number on at least [width] digits, as [%02d] prints it. *)
Definition zero_pad (width : nat) (n : Z) : string :=
  let s := str_of_int n in
  PyStr.join EmptyString (repeat "0" (width - length s)) ++ s.

Definition digit_val (c : ascii) : Z := Z.of_N (PyStr.ord c) - 48.

(** The digits of an integer literal: decimal digits, with single
    underscores allowed between two digits. *)
Fixpoint int_digits (s : string) (acc : Z) (after_digit : bool) : option Z :=
  match s with
  | EmptyString => if after_digit then Some acc else None
  | String c s' =>
      if PyStr.is_dec c then int_digits s' (10 * acc + digit_val c) true
      else if Ascii.eqb c "_" then (if after_digit then int_digits s' acc false else None)
      else None
  end.

Fixpoint count_digits (s : string) : N :=
  match s with
  | EmptyString => 0%N
  | String c s' => ((if PyStr.is_dec c then 1 else 0) + count_digits s')%N
  end.

(** [sys.int_info.default_max_str_digits] *)
Definition max_str_digits : N := 4300.

(** [int(s)] for a [str]: surrounding whitespace is dropped, a sign may
    come first; [None] stands for [ValueError]. *)
Definition py_int (s : string) : option Z :=
  let t := PyStr.strip s in
  if (max_str_digits <? count_digits t)%N then None
  else
    match t with
    | String "-" t' => option_map Z.opp (int_digits t' 0 false)
    | String "+" t' => int_digits t' 0 false
    | _ => int_digits t 0 false
    end.

(** A calendar date and time of day, the fields of a naive [datetime]. *)
Record datetime : Type := mk_datetime {
  year : Z; month : Z; day : Z; hour : Z; minute : Z; second : Z
}.

(** Days since 1970-01-01 to the proleptic Gregorian date. *)
Definition civil_from_days (days : Z) : Z * Z * Z :=
  let z := days + 719468 in
  let era := z / 146097 in
  let doe := z - era * 146097 in
  let yoe := (doe - doe / 1460 + doe / 36524 - doe / 146096) / 365 in
  let y := yoe + era * 400 in
  let doy := doe - (365 * yoe + yoe / 4 - yoe / 100) in
  let mp := (5 * doy + 2) / 153 in
  let d := doy - (153 * mp + 2) / 5 + 1 in
  let m := if mp <? 10 then mp + 3 else mp - 9 in
  (if m <=? 2 then y + 1 else y, m, d).

(** The broken-down time of [secs] seconds since the epoch, in UTC. *)
Definition gmtime (secs : Z) : datetime :=
  let '(y, m, d) := civil_from_days (secs / 86400) in
  let r := secs mod 86400 in
  mk_datetime y m d (r / 3600) ((r mod 3600) / 60) (r mod 60).

Definition MINYEAR : Z := 1.
Definition MAXYEAR : Z := 9999.

Definition year_ok (dt : datetime) : bool :=
  (MINYEAR <=? year dt) && (year dt <=? MAXYEAR).

(** [dt.strftime("%Y-%m-%d %H:%M:%S")]; the C library prints [%Y]
    without padding. *)
Definition strftime (dt : datetime) : string :=
  str_of_int (year dt) ++ "-" ++ zero_pad 2 (month dt) ++ "-" ++ zero_pad 2 (day dt)
  ++ " " ++ zero_pad 2 (hour dt) ++ ":" ++ zero_pad 2 (minute dt) ++ ":"
  ++ zero_pad 2 (second dt).

Definition INT64_MIN : Z := - 2 ^ 63.
Definition INT64_MAX : Z := 2 ^ 63 - 1.

End PyNum.

(* ================================================================= *)
(** ** Floating-point numbers

    A finite [float] is kept as the exact number it stands for, a
    significand of at most 53 bits times a power of two.  Only what the
    source does with floats is here: the conversion of an [int], the
    division by 1024, the comparison with an [int] and the format
    [.2f]. *)

Module PyFloat.

Local Open Scope Z_scope.











End PyFloat.

(* ================================================================= *)
(** ** config.py *)

Module Config.

Record LogTypeSpec : Type := mk_spec {
  columns : list string;
  datetime_format : string;
  separator : string;
  description : string
}.

Definition LOG_TYPES : list (string * LogTypeSpec) :=
  [ ("browsing",
     mk_spec ["timestamp"; "ip_address"; "username"; "url"; "bandwidth";
              "status_code"; "content_type"; "category"; "device_info"]
       "%Y%m%d%H%M%S" " " "Web browsing logs with URLs and HTTP status codes");
    ("virus",
     mk_spec ["timestamp"; "ip_address"; "username"; "virus_name"; "file_path";
              "action_taken"; "scan_engine"; "severity"]
       "%Y%m%d%H%M%S" " " "Antivirus detection logs with virus information");
    ("mail",
     mk_spec ["timestamp"; "sender"; "recipient"; "subject"; "size"; "status";
              "attachment_count"; "spam_score"]
       "%Y%m%d%H%M%S" " " "Email server logs with message details");
    ("firewall",
     mk_spec ["timestamp"; "action"; "protocol"; "src_ip"; "src_port"; "dst_ip";
              "dst_port"; "interface"; "rule_id"; "description"]
       "%Y%m%d%H%M%S" " " "Firewall logs with connection information");
    ("auth",
     mk_spec ["timestamp"; "username"; "source_ip"; "service"; "status";
              "auth_method"; "details"]
       "%Y%m%d%H%M%S" " " "Authentication logs with login attempts");
    ("system",
     mk_spec ["timestamp"; "hostname"; "service"; "pid"; "level"; "message"]
       "%Y%m%d%H%M%S" " " "System logs with service information");
    ("application",
     mk_spec ["timestamp"; "app_name"; "level"; "component"; "thread_id";
              "request_id"; "message"]
       "%Y%m%d%H%M%S" " " "Application logs with debug information");
    ("ids",
     mk_spec ["timestamp"; "alert_id"; "severity"; "category"; "src_ip"; "dst_ip";
              "protocol"; "signature"; "description"]
       "%Y%m%d%H%M%S" " " "Intrusion detection system logs");
    ("vpn",
     mk_spec ["timestamp"; "username"; "client_ip"; "session_id"; "event_type";
              "duration"; "bytes_in"; "bytes_out"]
       "%Y%m%d%H%M%S" " " "VPN connection logs with session details");
    ("syslog",
     mk_spec ["timestamp"; "hostname"; "process"; "pid"; "message"]
       "%b %d %H:%M:%S" " " "Standard syslog format logs");
    ("clf",
     mk_spec ["host"; "ident"; "authuser"; "timestamp"; "method"; "path";
              "protocol"; "status"; "bytes_sent"; "url"]
       "%d/%b/%Y:%H:%M:%S %z" " " "Common Log Format (CLF) web server logs");
    ("elf", mk_spec [] "%Y-%m-%d %H:%M:%S" " " "Extended Log Format (ELF) web server logs");
    ("json", mk_spec [] "%Y-%m-%d %H:%M:%S" EmptyString "JSON structured logs");
    ("xml", mk_spec [] "%Y-%m-%d %H:%M:%S" EmptyString "XML structured logs");
    ("csv", mk_spec [] "%Y-%m-%d %H:%M:%S" "," "CSV structured logs") ].

Definition DEFAULT_LOG_TYPE : string := "browsing".

(** [LOG_TYPES.get(name)] *)
Fixpoint lookup (name : string) (table : list (string * LogTypeSpec)) : option LogTypeSpec :=
  match table with
  | [] => None
  | (k, v) :: rest => if String.eqb k name then Some v else lookup name rest
  end.

(** [LOG_TYPES.get(log_type, {}).get("columns", [])] and its two companions. *)
Definition get_columns (log_type : string) : list string :=
  match lookup log_type LOG_TYPES with Some sp => columns sp | None => [] end.

Definition get_separator (log_type : string) : string :=
  match lookup log_type LOG_TYPES with Some sp => separator sp | None => " " end.

Definition get_datetime_format (log_type : string) : string :=
  match lookup log_type LOG_TYPES with
  | Some sp => datetime_format sp
  | None => "%Y%m%d%H%M%S"
  end.

End Config.

(* ================================================================= *)
(** ** Exceptions *)

Inductive exn : Type :=
| ValueError      (* also a failed tuple unpacking *)
| OverflowError
| CsvError          (* [_csv.Error] *)
| JSONDecodeError   (* [json.JSONDecodeError] *)
| ParseError        (* [xml.etree.ElementTree.ParseError] *)
| OtherError.       (* any other subclass of [Exception] *)

Inductive result (A : Type) : Type :=
| Ok (a : A)
| Raise (e : exn).

Arguments Ok {A} a.
Arguments Raise {A} e.

Definition bind {A B : Type} (m : result A) (f : A -> result B) : result B :=
  match m with
  | Ok a => f a
  | Raise e => Raise e
  end.

Notation "x <- m ;; k" := (bind m (fun x => k))
  (at level 61, m at next level, right associativity).

(** [try: m  except Exception: h] *)
Definition try_except {A : Type} (m : result A) (h : exn -> A) : A :=
  match m with
  | Ok a => a
  | Raise e => h e
  end.

(* ================================================================= *)
(** ** The library functions the repository calls *)

Class Runtime : Type := {
  (** [bytes.decode('utf-8', errors='ignore')], also the decoding of a
      file opened with [encoding='utf-8', errors='ignore'] *)
  decode_utf8 : list byte -> string;
  (** the decoding of a file opened with [open(path, 'r', errors='ignore')],
      in the locale's encoding *)
  decode_locale : list byte -> string;
  (** [open(path, 'r')] followed by [n] calls of [readline()]; [None]
      when decoding raises *)
  readlines_strict : list byte -> nat -> option (list string);
  (** the decompressed stream; [None] when reading it raises *)
  gzip_decompress : list byte -> option (list byte);
  bz2_decompress : list byte -> option (list byte);
  (** the content of the member [namelist()[0]] of a zip archive; [None]
      when opening the archive or the member raises *)
  zip_first_member : list byte -> option (list byte);
  (** a parsed JSON document *)
  json : Type;
  (** [json.loads] *)
  json_loads : string -> result json;
  json_dumps : json -> string;
  (** the elements when the document is a [list] *)
  json_items : json -> option (list json);
  (** the exception [pd.DataFrame(docs)] raises on a list of parsed
      documents, when it raises: after a [dict], a document that is no
      [dict] has no keys to give *)
  frame_error : list json -> option exn;
  (** [[ET.tostring(e, encoding='unicode') for e in ET.fromstring(s).findall('.//*')]];
      [None] when parsing raises *)
  xml_descendants : string -> option (list string);
  (** [[(child.tag, child.text) for child in ET.fromstring(s)]] *)
  xml_children : string -> result (list (string * option string));
  (** a number of a numeric column *)
  number : Type;
  (** [pd.to_numeric(..., errors='coerce')] on one value; [None] is NaN *)
  to_numeric : string -> option number;
  (** [datetime.fromtimestamp(t)], in local time; [None] when it raises *)
  fromtimestamp : Z -> option PyNum.datetime;
  (** [datetime.strptime(s, fmt)]; [None] when it raises *)
  strptime : string -> string -> option PyNum.datetime
}.

(* ================================================================= *)
(** ** Records and tables *)

Section Tables.

Context {R : Runtime}.

(** A value of a record. *)
Inductive cell : Type :=
| Str (s : string)
| PyNone
| Num (x : option number)   (* after [pd.to_numeric]; [None] is NaN *)
| Datetime (t : option Z).  (* seconds since the epoch; [None] is NaT *)

(** A [dict] from column names to values, in insertion order. *)
Definition LogRecord : Type := list (string * cell).

(** An element of the list handed to [pd.DataFrame]: a [dict], or
    whatever [json.loads] returned. *)
Inductive item : Type :=
| Row (r : LogRecord)
| Obj (j : json).

(** A [DataFrame], by the arguments of its constructor: the [columns=]
    argument when there is one, and the rows.  What pandas makes of the
    rows (the union of their keys as columns, the types of the columns)
    is left to the reader of the table. *)
Record DataFrame : Type := mk_frame {
  frame_columns : option (list string);
  frame_data : list item
}.

(** [pd.DataFrame(data)] *)
Definition DataFrame_of (data : list item) : DataFrame := mk_frame None data.

(** [pd.DataFrame(columns=cols)] *)
Definition DataFrame_columns (cols : list string) : DataFrame := mk_frame (Some cols) [].

(** [pd.DataFrame()] *)
Definition DataFrame_empty : DataFrame := mk_frame None [].

(** [len(df)] *)
Definition frame_len (df : DataFrame) : nat := List.length (frame_data df).

End Tables.

(** [d[k] = v] *)
Fixpoint dict_set {V : Type} (k : string) (v : V) (d : list (string * V)) : list (string * V) :=
  match d with
  | [] => [(k, v)]
  | (k', v') :: d' => if String.eqb k' k then (k, v) :: d' else (k', v') :: dict_set k v d'
  end.

(** [d.get(k)] *)
Fixpoint dict_get {V : Type} (k : string) (d : list (string * V)) : option V :=
  match d with
  | [] => None
  | (k', v') :: d' => if String.eqb k' k then Some v' else dict_get k d'
  end.

(* ================================================================= *)
(** ** utils.py *)

Module Utils.
Section Utils.

Context {R : Runtime}.

(** The files a path can name: the content, or [None] when opening the
    path raises. *)
Definition FileSystem : Type := string -> option (list byte).

(** The patterns of the keyword checks. *)
Definition browsing_url_re : Re.re :=
  Re.alts [ Re.seq [Re.lit "http"; Re.opt (Re.chr "s"); Re.lit "://"];
            Re.lit "www.";
            Re.Cat (Re.chr ".")
              (Re.Grp 1 (Re.alts [Re.lit "com"; Re.lit "org"; Re.lit "net";
                                  Re.lit "edu"; Re.lit "gov"])) ].

Definition status_code_re : Re.re :=
  Re.seq [Re.WordB; Re.range 49 53; Re.rep 2 (Re.range 48 57); Re.WordB].

(** An alternation of keywords under [re.IGNORECASE]. *)
Definition keywords (ws : list string) : Re.re := Re.alts (map Re.lit_i ws).

Definition virus_re : Re.re :=
  keywords ["virus"; "malware"; "trojan"; "infected"; "quarantine"].
Definition mail_re : Re.re :=
  keywords ["@"; "sender"; "recipient"; "subject"; "spam"; "mail"].

Definition is_browsing (line : string) : bool :=
  Re.found browsing_url_re line && Re.found status_code_re line.

(** The loop of [detect_log_type] over the sample lines. *)
Fixpoint detect_in (sample_lines : list string) : string :=
  match sample_lines with
  | [] => Config.DEFAULT_LOG_TYPE
  | line :: rest =>
      if is_browsing line then "browsing"
      else if Re.found virus_re line then "virus"
      else if Re.found mail_re line then "mail"
      else detect_in rest
  end.

Definition detect_log_type (fs : FileSystem) (file_path : string) : string :=
  match fs file_path with
  | None => Config.DEFAULT_LOG_TYPE
  | Some content =>
      match readlines_strict content 5 with
      | None => Config.DEFAULT_LOG_TYPE
      | Some sample_lines => detect_in sample_lines
      end
  end.

(** The argument of [format_timestamp], [Union[int, str]]. *)
Inductive timestamp_arg : Type :=
| TInt (n : Z)
| TStr (s : string).

Definition format_epoch (n : Z) : string :=
  match fromtimestamp n with
  | Some dt => PyNum.strftime dt
  | None => PyNum.str_of_int n       (* except: [str(timestamp)], by now an int *)
  end.

Definition format_timestamp (timestamp : timestamp_arg) (log_type : string) : string :=
  match timestamp with
  | TInt n => format_epoch n
  | TStr s =>
      if PyStr.isdigit s then
        match PyNum.py_int s with
        | Some n => format_epoch n
        | None => s                  (* [int] raised: [timestamp] is still the str *)
        end
      else
        match strptime s (Config.get_datetime_format log_type) with
        | Some dt => PyNum.strftime dt
        | None => s
        end
  end.









(** The pattern of [extract_domain_from_url]: the scheme, an optional
    [www.] and, in group 1, the characters up to the next slash. *)
Definition domain_re : Re.re :=
  Re.seq [Re.lit "http"; Re.opt (Re.chr "s"); Re.lit "://"; Re.opt (Re.lit "www.");
          Re.Grp 1 (Re.plus (Re.none_of "/"))].

Definition extract_domain_from_url (url : string) : string :=
  match Re.re_search domain_re url with
  | Some domain_match =>
      match Re.group 1 domain_match with
      | Some domain => domain
      | None => EmptyString       (* group 1 takes part in every match *)
      end
  | None => "unknown"
  end.

End Utils.
End Utils.

(* ================================================================= *)
(** ** Lines of text *)

Module PyIO.

Definition LF : ascii := ascii_of_N 10.
Definition CR : ascii := ascii_of_N 13.

(** The newline translation of a file opened in text mode: [\r\n] and
    [\r] become [\n]. *)
Fixpoint universal_newlines (s : string) : string :=
  match s with
  | EmptyString => EmptyString
  | String c s' =>
      if Ascii.eqb c CR then
        match s' with
        | String c' s'' =>
            if Ascii.eqb c' LF then String LF (universal_newlines s'')
            else String LF (universal_newlines s')
        | EmptyString => String LF EmptyString
        end
      else String c (universal_newlines s')
  end.

(** The lines of a text, each with the [\n] that ends it. *)
Fixpoint keep_ends (cur : string) (s : string) : list string :=
  match s with
  | EmptyString => if PyStr.is_empty cur then [] else [cur]
  | String c s' =>
      if Ascii.eqb c LF then (cur ++ String c EmptyString) :: keep_ends EmptyString s'
      else keep_ends (cur ++ String c EmptyString) s'
  end.

(** [f.readlines()] of a file opened in text mode. *)
Definition readlines (text : string) : list string :=
  keep_ends EmptyString (universal_newlines text).

(** [f.readline()] at the start of the file; empty at the end of file. *)
Definition readline (text : string) : string := hd EmptyString (readlines text).

(** The lines of an [io.StringIO]: split after [\n], nothing translated. *)
Definition stringio_lines (text : string) : list string := keep_ends EmptyString text.

(** A line boundary of [str.splitlines]. *)
Definition is_linebreak (c : ascii) : bool :=
  PyStr.in_range 10 13 c || PyStr.in_range 28 30 c || (PyStr.ord c =? 133)%N.

Fixpoint split_lines (cur : string) (s : string) : list string :=
  match s with
  | EmptyString => if PyStr.is_empty cur then [] else [cur]
  | String c s' =>
      if Ascii.eqb c CR then
        match s' with
        | String c' s'' =>
            if Ascii.eqb c' LF then cur :: split_lines EmptyString s''
            else cur :: split_lines EmptyString s'
        | EmptyString => [cur]
        end
      else if is_linebreak c then cur :: split_lines EmptyString s'
      else split_lines (cur ++ String c EmptyString) s'
  end.

(** [s.splitlines()] *)
Definition splitlines (s : string) : list string := split_lines EmptyString s.

Definition byte_LF : byte := x0a.

(** [f.readlines()] of a file opened in binary mode. *)
Fixpoint bytes_keep_ends (cur : list byte) (b : list byte) : list (list byte) :=
  match b with
  | [] => match cur with [] => [] | _ => [cur] end
  | c :: b' =>
      if Byte.eqb c byte_LF then (cur ++ [c])%list :: bytes_keep_ends [] b'
      else bytes_keep_ends (cur ++ [c])%list b'
  end.

Definition bytes_readlines (b : list byte) : list (list byte) := bytes_keep_ends [] b.

(** [b.startswith(p)] *)
Fixpoint bytes_startswith (p b : list byte) : bool :=
  match p, b with
  | [], _ => true
  | x :: p', y :: b' => Byte.eqb x y && bytes_startswith p' b'
  | _ :: _, [] => false
  end.

End PyIO.

(* ================================================================= *)
(** ** The reader of the [csv] module, in its default dialect

    The delimiter is the comma, the quote character is the double quote
    and a doubled quote inside a quoted field stands for one quote. *)

Module PyCsv.

Inductive state : Type :=
| START_RECORD
| START_FIELD
| IN_FIELD
| IN_QUOTED_FIELD
| QUOTE_IN_QUOTED_FIELD
| EAT_CRNL.

Record reader : Type := mk_reader {
  st : state;
  field : string;            (* the characters of the field being read *)
  fields : list string       (* the fields read so far, in order *)
}.

(** [parse_reset] *)
Definition reset : reader := mk_reader START_RECORD EmptyString [].

Definition field_limit : N := 131072.

Definition is_start (s : state) : bool :=
  match s with START_RECORD => true | _ => false end.

Definition is_in_quoted (s : state) : bool :=
  match s with IN_QUOTED_FIELD => true | _ => false end.

(** [parse_add_char] *)
Definition add_char (r : reader) (c : ascii) (next : state) : result reader :=
  if (field_limit <=? N.of_nat (length (field r)))%N then Raise CsvError
  else Ok (mk_reader next (field r ++ String c EmptyString) (fields r)).

(** [parse_save_field] *)
Definition save_field (r : reader) (next : state) : reader :=
  mk_reader next EmptyString (fields r ++ [field r])%list.

Definition set_state (r : reader) (next : state) : reader :=
  mk_reader next (field r) (fields r).

Definition is_newline (c : ascii) : bool :=
  Ascii.eqb c PyIO.LF || Ascii.eqb c PyIO.CR.

Definition delimiter : ascii := ",".
Definition quotechar : ascii := Re.dquote.

(** [parse_process_char]; [None] is the end of a line. *)
Definition process_char (r : reader) (c : option ascii) : result reader :=
  let start_field (r : reader) :=
    match c with
    | None => Ok (save_field r START_RECORD)
    | Some x =>
        if is_newline x then Ok (save_field r EAT_CRNL)
        else if Ascii.eqb x quotechar then Ok (set_state r IN_QUOTED_FIELD)
        else if Ascii.eqb x delimiter then Ok (save_field r START_FIELD)
        else add_char r x IN_FIELD
    end in
  match st r with
  | START_RECORD =>
      match c with
      | None => Ok r
      | Some x => if is_newline x then Ok (set_state r EAT_CRNL) else start_field r
      end
  | START_FIELD => start_field r
  | IN_FIELD =>
      match c with
      | None => Ok (save_field r START_RECORD)
      | Some x =>
          if is_newline x then Ok (save_field r EAT_CRNL)
          else if Ascii.eqb x delimiter then Ok (save_field r START_FIELD)
          else add_char r x IN_FIELD
      end
  | IN_QUOTED_FIELD =>
      match c with
      | None => Ok r
      | Some x =>
          if Ascii.eqb x quotechar then Ok (set_state r QUOTE_IN_QUOTED_FIELD)
          else add_char r x IN_QUOTED_FIELD
      end
  | QUOTE_IN_QUOTED_FIELD =>
      match c with
      | None => Ok (save_field r START_RECORD)
      | Some x =>
          if Ascii.eqb x quotechar then add_char r x IN_QUOTED_FIELD
          else if Ascii.eqb x delimiter then Ok (save_field r START_FIELD)
          else if is_newline x then Ok (save_field r EAT_CRNL)
          else add_char r x IN_FIELD
      end
  | EAT_CRNL =>
      match c with
      | None => Ok (set_state r START_RECORD)
      | Some x => if is_newline x then Ok r else Raise CsvError
      end
  end.

(** The characters of one line, then the end of the line. *)
Fixpoint feed (r : reader) (line : string) : result reader :=
  match line with
  | EmptyString => process_char r None
  | String c line' => r' <- process_char r (Some c) ;; feed r' line'
  end.

(** What iterating a reader yields: rows, until the input ends or an
    error is raised. *)
Inductive rows : Type :=
| Stop
| Next (row : list string) (rest : rows)
| Fail (e : exn).

Fixpoint read (r : reader) (lines : list string) : rows :=
  match lines with
  | [] =>
      if negb (PyStr.is_empty (field r)) || is_in_quoted (st r)
      then Next (fields (save_field r START_RECORD)) Stop
      else Stop
  | line :: rest =>
      match feed r line with
      | Raise e => Fail e
      | Ok r' => if is_start (st r') then Next (fields r') (read reset rest) else read r' rest
      end
  end.

(** [csv.reader(lines)] *)
Definition csv_reader (lines : list string) : rows := read reset lines.

(** [list(reader)] *)
Fixpoint to_list (rs : rows) : result (list (list string)) :=
  match rs with
  | Stop => Ok []
  | Fail e => Raise e
  | Next row rest => tl <- to_list rest ;; Ok (row :: tl)
  end.

End PyCsv.

(* ================================================================= *)
(** ** log_parser.py: the fixed-field parsers *)

Module LogParser.
Section LogParser.

Context {R : Runtime}.

(** The attributes of a [LogParser] object. *)
Record parser : Type := mk_parser {
  log_type : string;
  columns : list string;
  separator : string;
  datetime_format : string
}.

(** The three assignments that follow the choice of a log type. *)
Definition configure (t : string) : parser :=
  mk_parser t (Config.get_columns t) (Config.get_separator t)
    (Config.get_datetime_format t).

(** [LogParser(log_type)]; [log_type or DEFAULT_LOG_TYPE] also replaces
    an empty name. *)
Definition __init__ (declared : option string) : parser :=
  configure
    match declared with
    | Some t => if PyStr.is_empty t then Config.DEFAULT_LOG_TYPE else t
    | None => Config.DEFAULT_LOG_TYPE
    end.

(** A row whose values are all [str]. *)
Definition str_row : Type := list (string * string).

Definition row_of (r : str_row) : item := Row (map (fun kv => (fst kv, Str (snd kv))) r).

(** The loop shared by the fixed-field parsers:
    [parts = line.strip().split(maxsplit=k)], and a row when
    [len(parts) >= n]. *)
Fixpoint fixed_rows (k n : nat) (mk : list string -> result str_row)
    (lines : list string) : result (list str_row) :=
  match lines with
  | [] => Ok []
  | line :: rest =>
      let parts := PyStr.split_maxsplit k (PyStr.strip line) in
      if Nat.leb n (List.length parts) then
        row <- mk parts ;;
        data <- fixed_rows k n mk rest ;;
        Ok (row :: data)
      else fixed_rows k n mk rest
  end.

Definition fmt (timestamp log_type : string) : string :=
  Utils.format_timestamp (Utils.TStr timestamp) log_type.

(** The tuple unpacking and the [dict] display of each parser. *)
Definition browsing_row (parts : list string) : result str_row :=
  match parts with
  | [timestamp; ip_address; username; url; bandwidth; status_code;
     content_type; category; device_info] =>
      Ok [ ("timestamp", fmt timestamp "browsing"); ("raw_timestamp", timestamp);
           ("ip_address", ip_address); ("username", username); ("url", url);
           ("bandwidth", bandwidth); ("status_code", status_code);
           ("content_type", content_type); ("category", category);
           ("device_info", device_info) ]
  | _ => Raise ValueError
  end.

Definition virus_row (parts : list string) : result str_row :=
  match parts with
  | [timestamp; ip_address; username; virus_name; file_path; action_taken;
     scan_engine; severity] =>
      Ok [ ("timestamp", fmt timestamp "virus"); ("raw_timestamp", timestamp);
           ("ip_address", ip_address); ("username", username);
           ("virus_name", virus_name); ("file_path", file_path);
           ("action_taken", action_taken); ("scan_engine", scan_engine);
           ("severity", severity) ]
  | _ => Raise ValueError
  end.

Definition mail_row (parts : list string) : result str_row :=
  match parts with
  | [timestamp; sender; recipient; subject; size; status; attachment_count;
     spam_score] =>
      Ok [ ("timestamp", fmt timestamp "mail"); ("raw_timestamp", timestamp);
           ("sender", sender); ("recipient", recipient); ("subject", subject);
           ("size", size); ("status", status);
           ("attachment_count", attachment_count); ("spam_score", spam_score) ]
  | _ => Raise ValueError
  end.

Definition firewall_row (parts : list string) : result str_row :=
  match parts with
  | [timestamp; action; protocol; src_ip; src_port; dst_ip; dst_port;
     interface; rule_id; description] =>
      Ok [ ("timestamp", fmt timestamp "firewall"); ("raw_timestamp", timestamp);
           ("action", action); ("protocol", protocol); ("src_ip", src_ip);
           ("src_port", src_port); ("dst_ip", dst_ip); ("dst_port", dst_port);
           ("interface", interface); ("rule_id", rule_id);
           ("description", description) ]
  | _ => Raise ValueError
  end.

Definition auth_row (parts : list string) : result str_row :=
  match parts with
  | [timestamp; username; source_ip; service; status; auth_method; details] =>
      Ok [ ("timestamp", fmt timestamp "auth"); ("raw_timestamp", timestamp);
           ("username", username); ("source_ip", source_ip); ("service", service);
           ("status", status); ("auth_method", auth_method); ("details", details) ]
  | _ => Raise ValueError
  end.

Definition system_row (parts : list string) : result str_row :=
  match parts with
  | [timestamp; hostname; service; pid; level; message] =>
      Ok [ ("timestamp", fmt timestamp "system"); ("raw_timestamp", timestamp);
           ("hostname", hostname); ("service", service); ("pid", pid);
           ("level", level); ("message", message) ]
  | _ => Raise ValueError
  end.

Definition application_row (parts : list string) : result str_row :=
  match parts with
  | [timestamp; app_name; level; component; thread_id; request_id; message] =>
      Ok [ ("timestamp", fmt timestamp "application"); ("raw_timestamp", timestamp);
           ("app_name", app_name); ("level", level); ("component", component);
           ("thread_id", thread_id); ("request_id", request_id);
           ("message", message) ]
  | _ => Raise ValueError
  end.

Definition ids_row (parts : list string) : result str_row :=
  match parts with
  | [timestamp; alert_id; severity; category; src_ip; dst_ip; protocol;
     signature; description] =>
      Ok [ ("timestamp", fmt timestamp "ids"); ("raw_timestamp", timestamp);
           ("alert_id", alert_id); ("severity", severity); ("category", category);
           ("src_ip", src_ip); ("dst_ip", dst_ip); ("protocol", protocol);
           ("signature", signature); ("description", description) ]
  | _ => Raise ValueError
  end.

Definition vpn_row (parts : list string) : result str_row :=
  match parts with
  | [timestamp; username; client_ip; session_id; event_type; duration;
     bytes_in; bytes_out] =>
      Ok [ ("timestamp", fmt timestamp "vpn"); ("raw_timestamp", timestamp);
           ("username", username); ("client_ip", client_ip);
           ("session_id", session_id); ("event_type", event_type);
           ("duration", duration); ("bytes_in", bytes_in); ("bytes_out", bytes_out) ]
  | _ => Raise ValueError
  end.

(** The rows each parser collects in [data]. *)
Definition browsing_data := fixed_rows 8 9 browsing_row.
Definition virus_data := fixed_rows 7 8 virus_row.
Definition mail_data := fixed_rows 7 8 mail_row.
Definition firewall_data := fixed_rows 9 10 firewall_row.
Definition auth_data := fixed_rows 6 7 auth_row.
Definition system_data := fixed_rows 5 6 system_row.
Definition application_data := fixed_rows 6 7 application_row.
Definition ids_data := fixed_rows 8 9 ids_row.
Definition vpn_data := fixed_rows 7 8 vpn_row.

(** [pd.DataFrame(data)] for rows of strings. *)
Definition frame_of_rows (data : list str_row) : DataFrame :=
  DataFrame_of (map row_of data).

Definition str_at (k : string) (r : str_row) : string :=
  match dict_get k r with Some s => s | None => EmptyString end.

(** [Series.astype(int)] on one value: [int(s)], which must fit 64 bits. *)
Definition astype_int (s : string) : result Z :=
  match PyNum.py_int s with
  | None => Raise ValueError
  | Some n =>
      if ((PyNum.INT64_MIN <=? n) && (n <=? PyNum.INT64_MAX))%Z then Ok n
      else Raise OverflowError
  end.

(** [pd.to_datetime(n, unit='s', errors='coerce')] on one value: NaT
    outside the range of nanosecond timestamps. *)
Definition to_datetime_s (n : Z) : option Z :=
  if ((-9223372036 <=? n) && (n <=? 9223372036))%Z then Some n else None.

(** The three column assignments of [_parse_browsing_logs], on one row. *)
Definition browsing_convert (r : str_row) : result LogRecord :=
  n <- astype_int (str_at "raw_timestamp" r) ;;
  Ok (dict_set "datetime" (Datetime (to_datetime_s n))
        (dict_set "status_code" (Num (to_numeric (str_at "status_code" r)))
           (dict_set "bandwidth" (Num (to_numeric (str_at "bandwidth" r)))
              (map (fun kv => (fst kv, Str (snd kv))) r)))).

Fixpoint convert_all (data : list str_row) : result (list item) :=
  match data with
  | [] => Ok []
  | r :: rest =>
      r' <- browsing_convert r ;;
      rest' <- convert_all rest ;;
      Ok (Row r' :: rest')
  end.

Definition _parse_browsing_logs (lines : list string) : result DataFrame :=
  data <- browsing_data lines ;;
  match data with
  | [] => Ok (DataFrame_of [])          (* [df.empty] *)
  | _ => rows <- convert_all data ;; Ok (DataFrame_of rows)
  end.

Definition _parse_virus_logs (lines : list string) : result DataFrame :=
  data <- virus_data lines ;; Ok (frame_of_rows data).
Definition _parse_mail_logs (lines : list string) : result DataFrame :=
  data <- mail_data lines ;; Ok (frame_of_rows data).
Definition _parse_firewall_logs (lines : list string) : result DataFrame :=
  data <- firewall_data lines ;; Ok (frame_of_rows data).
Definition _parse_auth_logs (lines : list string) : result DataFrame :=
  data <- auth_data lines ;; Ok (frame_of_rows data).
Definition _parse_system_logs (lines : list string) : result DataFrame :=
  data <- system_data lines ;; Ok (frame_of_rows data).
Definition _parse_application_logs (lines : list string) : result DataFrame :=
  data <- application_data lines ;; Ok (frame_of_rows data).
Definition _parse_ids_logs (lines : list string) : result DataFrame :=
  data <- ids_data lines ;; Ok (frame_of_rows data).
Definition _parse_vpn_logs (lines : list string) : result DataFrame :=
  data <- vpn_data lines ;; Ok (frame_of_rows data).

(* ----------------------------------------------------------------- *)
(** *** The structured parsers *)

Definition group_or_empty (n : nat) (cs : Re.caps) : string :=
  match Re.group n cs with Some v => v | None => EmptyString end.

(** [[ 0-9]] *)
Definition space_or_digit : Re.re :=
  Re.Chr (fun c => Ascii.eqb c " " || PyStr.is_dec c).

(** [\w{3} [ 0-9]\d \d{2}:\d{2}:\d{2}] *)
Definition syslog_date : Re.re :=
  Re.seq [Re.rep 3 Re.w; Re.sp; space_or_digit; Re.d; Re.sp; Re.rep 2 Re.d;
          Re.chr ":"; Re.rep 2 Re.d; Re.chr ":"; Re.rep 2 Re.d].

(** [syslog_pattern]: the date in group 1, the host in group 2, the
    process in group 3, an optional bracketed pid in group 4 and, after
    a colon and a space, the rest of the line in group 5. *)
Definition syslog_pattern : Re.re :=
  Re.seq [Re.Bol; Re.Grp 1 syslog_date; Re.sp; Re.Grp 2 (Re.plus Re.S_); Re.sp;
          Re.Grp 3 (Re.plus Re.S_);
          Re.opt (Re.seq [Re.chr "["; Re.Grp 4 (Re.plus Re.d); Re.chr "]"]);
          Re.chr ":"; Re.sp; Re.Grp 5 (Re.Star Re.dot); Re.Eol].

Fixpoint syslog_data (lines : list string) : list str_row :=
  match lines with
  | [] => []
  | line :: rest =>
      match Re.re_match syslog_pattern (PyStr.strip line) with
      | Some m =>
          [ ("timestamp", group_or_empty 1 m); ("hostname", group_or_empty 2 m);
            ("process", group_or_empty 3 m); ("pid", group_or_empty 4 m);
            ("message", group_or_empty 5 m) ] :: syslog_data rest
      | None => syslog_data rest
      end
  end.

Definition _parse_syslog_format (lines : list string) : result DataFrame :=
  Ok (frame_of_rows (syslog_data lines)).

(** [clf_pattern]: host, ident and authuser, the bracketed date, the
    quoted request, the status and the size, in groups 1 to 7. *)
Definition clf_pattern : Re.re :=
  Re.seq [Re.Bol; Re.Grp 1 (Re.plus Re.S_); Re.sp; Re.Grp 2 (Re.plus Re.S_); Re.sp;
          Re.Grp 3 (Re.plus Re.S_); Re.sp; Re.chr "[";
          Re.Grp 4 (Re.plus (Re.none_of "]")); Re.chr "]"; Re.sp; Re.chr Re.dquote;
          Re.Grp 5 (Re.Star (Re.none_of Re.dquote)); Re.chr Re.dquote; Re.sp;
          Re.Grp 6 (Re.plus Re.d); Re.sp; Re.Grp 7 (Re.plus Re.d); Re.Eol].

(** [xs[i] if len(xs) > i], else the empty string *)
Definition nth_or_empty (i : nat) (xs : list string) : string := nth i xs EmptyString.

Fixpoint clf_data (lines : list string) : list str_row :=
  match lines with
  | [] => []
  | line :: rest =>
      match Re.re_match clf_pattern (PyStr.strip line) with
      | Some m =>
          let request_parts := PyStr.split (group_or_empty 5 m) in
          let method := nth_or_empty 0 request_parts in
          let path := nth_or_empty 1 request_parts in
          let protocol := nth_or_empty 2 request_parts in
          [ ("host", group_or_empty 1 m); ("ident", group_or_empty 2 m);
            ("authuser", group_or_empty 3 m); ("timestamp", group_or_empty 4 m);
            ("method", method); ("path", path); ("protocol", protocol);
            ("status", group_or_empty 6 m); ("bytes_sent", group_or_empty 7 m);
            ("url", path) ] :: clf_data rest
      | None => clf_data rest
      end
  end.

Definition _parse_common_log_format (lines : list string) : result DataFrame :=
  Ok (frame_of_rows (clf_data lines)).

(** The loop [for i, part in enumerate(parts)] of the ELF and the generic
    parser: a part goes to the column at its position, and a part beyond
    the last column is appended to the value of the last column. *)
Fixpoint fold_parts (cols : list string) (i : nat) (parts : list string)
    (row : str_row) : str_row :=
  match parts with
  | [] => row
  | part :: rest =>
      let row' :=
        match nth_error cols i with
        | Some col => dict_set col part row
        | None =>
            match cols with
            | [] => row
            | _ =>
                let last_col := last cols EmptyString in
                dict_set last_col
                  ((match dict_get last_col row with Some v => v | None => EmptyString end)
                   ++ " " ++ part) row
            end
        end in
      fold_parts cols (S i) rest row'
  end.

Definition is_nil {A : Type} (l : list A) : bool :=
  match l with [] => true | _ => false end.

(** The loop of [_parse_extended_log_format], with its variable [fields]. *)
Fixpoint elf_data (fields : list string) (lines : list string) : list str_row :=
  match lines with
  | [] => []
  | line0 :: rest =>
      let line := PyStr.strip line0 in
      if PyStr.is_empty line then elf_data fields rest
      else if PyStr.startswith "#" line then
        if PyStr.startswith "#Fields:" line
        then elf_data (PyStr.split (PyStr.strip (PyStr.drop 8 line))) rest
        else elf_data fields rest
      else if is_nil fields then elf_data fields rest
      else
        let row := fold_parts fields 0 (PyStr.split line) [] in
        match row with
        | [] => elf_data fields rest
        | _ =>
            match dict_get "cs-uri-stem" row with
            | Some v => dict_set "url" v row :: elf_data fields rest
            | None => row :: elf_data fields rest
            end
        end
  end.

Definition _parse_extended_log_format (lines : list string) : result DataFrame :=
  Ok (frame_of_rows (elf_data [] lines)).

Fixpoint json_data (lines : list string) : result (list json) :=
  match lines with
  | [] => Ok []
  | line :: rest =>
      match json_loads (PyStr.strip line) with
      | Ok json_obj => data <- json_data rest ;; Ok (json_obj :: data)
      | Raise JSONDecodeError => json_data rest
      | Raise e => Raise e
      end
  end.

(** [pd.DataFrame(data)] on the documents may raise, unlike the
    constructor on rows of strings. *)
Definition _parse_json_format (lines : list string) : result DataFrame :=
  data <- json_data lines ;;
  match frame_error data with
  | Some e => Raise e
  | None => Ok (DataFrame_of (map Obj data))
  end.

Definition text_cell (t : option string) : cell :=
  match t with Some s => Str s | None => PyNone end.

Fixpoint xml_row (children : list (string * option string)) (row : LogRecord) : LogRecord :=
  match children with
  | [] => row
  | (tag, text) :: rest => xml_row rest (dict_set tag (text_cell text) row)
  end.

Fixpoint xml_data (lines : list string) : result (list item) :=
  match lines with
  | [] => Ok []
  | line :: rest =>
      match xml_children (PyStr.strip line) with
      | Ok children =>
          data <- xml_data rest ;;
          match xml_row children [] with
          | [] => Ok data
          | row => Ok (Row row :: data)
          end
      | Raise ParseError => xml_data rest
      | Raise e => Raise e
      end
  end.

Definition _parse_xml_format (lines : list string) : result DataFrame :=
  data <- xml_data lines ;; Ok (DataFrame_of data).

(** [_parse_generic_logs], with the parser's [separator] and [columns]. *)
Fixpoint generic_data (self : parser) (lines : list string) : result (list str_row) :=
  match lines with
  | [] => Ok []
  | line :: rest =>
      match PyStr.split_sep (separator self) (PyStr.strip line) with
      | None => Raise ValueError
      | Some parts =>
          data <- generic_data self rest ;;
          match fold_parts (columns self) 0 parts [] with
          | [] => Ok data
          | row => Ok (row :: data)
          end
      end
  end.

Definition _parse_generic_logs (self : parser) (lines : list string) : result DataFrame :=
  data <- generic_data self lines ;; Ok (frame_of_rows data).

Definition header_of (rs : PyCsv.rows) : result (option (list string)) :=
  match rs with
  | PyCsv.Stop => Ok None
  | PyCsv.Fail e => Raise e
  | PyCsv.Next row _ => Ok (Some row)
  end.

(** The inner loop of [_parse_csv_format]: [row_dict[header[i]] = value]
    while [i < len(header)]. *)
Fixpoint csv_row_dict (header : list string) (i : nat) (row : list string)
    (row_dict : str_row) : str_row :=
  match row with
  | [] => row_dict
  | value :: rest =>
      match nth_error header i with
      | Some name => csv_row_dict header (S i) rest (dict_set name value row_dict)
      | None => csv_row_dict header (S i) rest row_dict
      end
  end.

(** The loop over the rows that follow the header. *)
Fixpoint csv_data (header : list string) (rs : PyCsv.rows) : result (list str_row) :=
  match rs with
  | PyCsv.Stop => Ok []
  | PyCsv.Fail e => Raise e
  | PyCsv.Next row rest =>
      data <- csv_data header rest ;;
      match csv_row_dict header 0 row [] with
      | [] => Ok data
      | row_dict => Ok (row_dict :: data)
      end
  end.

Definition _parse_csv_format (lines : list string) : result DataFrame :=
  match PyCsv.csv_reader lines with
  | PyCsv.Stop => Ok DataFrame_empty
  | PyCsv.Fail e => Raise e
  | PyCsv.Next header rest =>
      match header with
      | [] => Ok DataFrame_empty
      | _ => data <- csv_data header rest ;; Ok (frame_of_rows data)
      end
  end.

(* ----------------------------------------------------------------- *)
(** *** The container sniffer *)

(** The suffix of [s] after the last occurrence of [c]. *)
Fixpoint after_last (c : ascii) (s : string) : option string :=
  match s with
  | EmptyString => None
  | String x s' =>
      match after_last c s' with
      | Some r => Some r
      | None => if Ascii.eqb x c then Some s' else None
      end
  end.

(** [os.path.splitext(p)[1]]: from the last dot of the last component
    of the path, unless only dots come before it in that component. *)
Definition splitext_ext (p : string) : string :=
  let base := match after_last "/" p with Some b => b | None => p end in
  match after_last "." base with
  | None => EmptyString
  | Some e =>
      let stem := substring 0 (length base - length e - 1) base in
      if PyStr.all_chars (Ascii.eqb ".") stem then EmptyString else String "." e
  end.

Definition mem (x : string) (xs : list string) : bool := existsb (String.eqb x) xs.

(** The chain of tests on the file extension. *)
Definition format_of_extension (file_ext : string) : option string :=
  if mem file_ext [".gz"; ".gzip"] then Some "gzip"
  else if mem file_ext [".bz2"; ".bzip2"] then Some "bz2"
  else if mem file_ext [".zip"] then Some "zip"
  else if mem file_ext [".json"] then Some "json"
  else if mem file_ext [".xml"] then Some "xml"
  else if mem file_ext [".csv"] then Some "csv"
  else None.

Definition gzip_magic : list byte := [x1f; x8b].
Definition bz2_magic : list byte := [x42; x5a; x68].          (* BZh *)
Definition zip_magic : list byte := [x50; x4b; x03; x04].     (* PK 03 04 *)

Definition format_of_magic (header : list byte) : option string :=
  if PyIO.bytes_startswith gzip_magic header then Some "gzip"
  else if PyIO.bytes_startswith bz2_magic header then Some "bz2"
  else if PyIO.bytes_startswith zip_magic header then Some "zip"
  else None.

(** Membership in [text_chars]: 7, 8, 9, 10, 12, 13, 27 and the bytes
    from 0x20 to 0xff except 0x7f. *)
Definition is_text_char (b : byte) : bool :=
  let n := Byte.to_N b in
  ((n =? 7) || (n =? 8) || (n =? 9) || (n =? 10) || (n =? 12) || (n =? 13)
   || (n =? 27) || ((32 <=? n) && (n <? 256) && negb (n =? 127)))%N.

(** [bool(header.translate(None, text_chars))] *)
Definition is_binary (header : list byte) : bool :=
  negb (forallb is_text_char header).

Definition json_ok (s : string) : bool :=
  match json_loads s with Ok _ => true | Raise _ => false end.

(** The tests of [_detect_file_format] on the first line of the file. *)
Definition format_of_first_line (first_line : string) : string :=
  if (PyStr.startswith "{" first_line || PyStr.startswith "[" first_line)
     && json_ok first_line then "json"
  else if PyStr.startswith "<?xml" first_line || PyStr.startswith "<" first_line then "xml"
  else if PyStr.contains "," first_line
          && match PyStr.split_sep "," first_line with
             | Some parts => Nat.ltb 1 (List.length parts)
             | None => false
             end then "csv"
  else "plain".

Definition _detect_file_format (fs : Utils.FileSystem) (file_path : string) : string :=
  let file_ext := PyStr.lower (splitext_ext file_path) in
  match format_of_extension file_ext with
  | Some f => f
  | None =>
      match fs file_path with
      | None => "plain"                       (* [open] raised *)
      | Some content =>
          let header := firstn 8 content in
          match format_of_magic header with
          | Some f => f
          | None =>
              if is_binary header then "binary"
              else format_of_first_line
                     (PyStr.strip (PyIO.readline (decode_locale content)))
          end
      end
  end.

(** An uploaded file: its name, its bytes and the position of the next
    read. *)
Record UploadedFile : Type := mk_upload {
  name : string;
  data : list byte;
  pos : nat
}.

(** [f.read(n)] *)
Definition read_n (f : UploadedFile) (n : nat) : list byte * UploadedFile :=
  let chunk := firstn n (skipn (pos f) (data f)) in
  (chunk, mk_upload (name f) (data f) (pos f + List.length chunk)).

(** [f.read()] *)
Definition read_all (f : UploadedFile) : list byte * UploadedFile :=
  let chunk := skipn (pos f) (data f) in
  (chunk, mk_upload (name f) (data f) (pos f + List.length chunk)).

(** [f.seek(0)] *)
Definition seek0 (f : UploadedFile) : UploadedFile := mk_upload (name f) (data f) 0.

Definition _detect_uploaded_file_format (f : UploadedFile) : string * UploadedFile :=
  let file_name := PyStr.lower (name f) in
  let file_ext := PyStr.lower (splitext_ext file_name) in
  match format_of_extension file_ext with
  | Some fmt => (fmt, f)
  | None =>
      let (header, f1) := read_n f 8 in
      let f2 := seek0 f1 in
      match format_of_magic header with
      | Some fmt => (fmt, f2)
      | None => if is_binary header then ("binary", f2) else ("plain", f2)
      end
  end.

(* ----------------------------------------------------------------- *)
(** *** The decoder *)

Definition lines_of_text (b : list byte) : list string := PyIO.readlines (decode_utf8 b).

Definition json_lines (text : string) : option (list string) :=
  match json_loads text with
  | Raise _ => None
  | Ok json_data =>
      match json_items json_data with
      | Some items => Some (map json_dumps items)
      | None => Some [json_dumps json_data]
      end
  end.

Definition csv_lines (lines : list string) : option (list string) :=
  match PyCsv.to_list (PyCsv.csv_reader lines) with
  | Ok rows => Some (map (PyStr.join ",") rows)
  | Raise _ => None
  end.

(** The [try] block of [_read_file_by_format] once the file is open;
    [None] when it raises. *)
Definition read_as (file_format : string) (content : list byte) : option (list string) :=
  if String.eqb file_format "gzip" then option_map lines_of_text (gzip_decompress content)
  else if String.eqb file_format "bz2" then option_map lines_of_text (bz2_decompress content)
  else if String.eqb file_format "zip" then
    option_map (fun b => map decode_utf8 (PyIO.bytes_readlines b)) (zip_first_member content)
  else if String.eqb file_format "json" then
    json_lines (PyIO.universal_newlines (decode_utf8 content))
  else if String.eqb file_format "xml" then
    xml_descendants (PyIO.universal_newlines (decode_utf8 content))
  else if String.eqb file_format "csv" then csv_lines (lines_of_text content)
  else if String.eqb file_format "binary" then Some (PyIO.splitlines (decode_utf8 content))
  else Some (lines_of_text content).

(** The plain-text read of the [except] branch; no lines when the file
    cannot be opened. *)
Definition read_plain (fs : Utils.FileSystem) (file_path : string) : list string :=
  match fs file_path with
  | Some content => lines_of_text content
  | None => []
  end.

Definition _read_file_by_format (fs : Utils.FileSystem) (file_path file_format : string)
    : list string :=
  match fs file_path with
  | None => read_plain fs file_path
  | Some content =>
      match read_as file_format content with
      | Some lines => lines
      | None => read_plain fs file_path
      end
  end.

(** The [try] block of [_read_uploaded_file_by_format] on the bytes that
    [uploaded_file.read()] returned. *)
Definition read_upload_as (file_format : string) (content : list byte) : option (list string) :=
  if String.eqb file_format "gzip" then option_map lines_of_text (gzip_decompress content)
  else if String.eqb file_format "bz2" then option_map lines_of_text (bz2_decompress content)
  else if String.eqb file_format "zip" then
    option_map (fun b => map decode_utf8 (PyIO.bytes_readlines b)) (zip_first_member content)
  else if String.eqb file_format "json" then json_lines (decode_utf8 content)
  else if String.eqb file_format "xml" then xml_descendants (decode_utf8 content)
  else if String.eqb file_format "csv" then
    csv_lines (PyIO.stringio_lines (decode_utf8 content))
  else Some (PyIO.splitlines (decode_utf8 content)).

Definition _read_uploaded_file_by_format (f : UploadedFile) (file_format : string)
    : list string * UploadedFile :=
  let (content, f1) := read_all f in
  match read_upload_as file_format content with
  | Some lines => (lines, f1)
  | None =>
      let (content', f2) := read_all (seek0 f1) in
      (PyIO.splitlines (decode_utf8 content'), f2)
  end.

(* ----------------------------------------------------------------- *)
(** *** The log-type classifier *)

(** The pattern of the Common Log Format check: three fields, a
    bracketed date with a zone, a quoted request of three words, the
    status and the size, up to the end of the line. *)
Definition clf_detect_pattern : Re.re :=
  Re.seq [Re.Bol; Re.plus Re.S_; Re.sp; Re.plus Re.S_; Re.sp; Re.plus Re.S_; Re.sp;
          Re.chr "["; Re.plus Re.d; Re.chr "/"; Re.plus Re.w; Re.chr "/"; Re.plus Re.d;
          Re.chr ":"; Re.plus Re.d; Re.chr ":"; Re.plus Re.d; Re.chr ":"; Re.plus Re.d;
          Re.sp; Re.Chr (fun c => Ascii.eqb c "+" || Ascii.eqb c "-"); Re.plus Re.d;
          Re.chr "]"; Re.sp; Re.chr Re.dquote; Re.plus Re.S_; Re.sp; Re.plus Re.S_;
          Re.sp; Re.plus Re.S_; Re.chr Re.dquote; Re.sp; Re.plus Re.d; Re.sp;
          Re.plus Re.d; Re.Eol].

(** The pattern of the syslog check: the date, the host, the process with
    an optional bracketed pid, and a colon. *)
Definition syslog_detect_pattern : Re.re :=
  Re.seq [Re.Bol; syslog_date; Re.sp; Re.plus Re.S_; Re.sp; Re.plus Re.S_;
          Re.opt (Re.Grp 1 (Re.seq [Re.chr "["; Re.plus Re.d; Re.chr "]"]));
          Re.chr ":"].

Definition firewall_re : Re.re :=
  Utils.keywords ["firewall"; "allow"; "deny"; "block"; "accept"; "drop"; "src"; "dst"; "port"].
Definition auth_re : Re.re :=
  Utils.keywords ["login"; "logout"; "auth"; "failed"; "success"; "user"; "password"; "session"].
Definition system_re : Re.re :=
  Utils.keywords ["system"; "kernel"; "daemon"; "cron"; "service"; "start"; "stop"; "restart"].
Definition application_re : Re.re :=
  Utils.keywords ["error"; "warning"; "info"; "debug"; "trace"; "exception"; "stack"].
Definition ids_re : Re.re :=
  Utils.keywords ["intrusion"; "detection"; "prevention"; "alert"; "signature"; "attack"].
Definition vpn_re : Re.re :=
  Utils.keywords ["vpn"; "tunnel"; "connect"; "disconnect"; "remote"; "client"].

(** The keyword checks on one line, in the order of the source. *)
Definition keyword_type (line : string) : option string :=
  if Utils.is_browsing line then Some "browsing"
  else if Re.found Utils.virus_re line then Some "virus"
  else if Re.found Utils.mail_re line then Some "mail"
  else if Re.found firewall_re line then Some "firewall"
  else if Re.found auth_re line then Some "auth"
  else if Re.found system_re line then Some "system"
  else if Re.found application_re line then Some "application"
  else if Re.found ids_re line then Some "ids"
  else if Re.found vpn_re line then Some "vpn"
  else None.

(** The loop over the sample lines, left at the first line that matches. *)
Fixpoint scan_keywords (sample_lines : list string) : option string :=
  match sample_lines with
  | [] => None
  | line :: rest =>
      match keyword_type line with
      | Some t => Some t
      | None => scan_keywords rest
      end
  end.

(** [self.log_type = t], the other attributes as they are. *)
Definition set_log_type (self : parser) (t : string) : parser :=
  mk_parser t (columns self) (separator self) (datetime_format self).

(** A test on [sample_lines[0]], false when there is no line. *)
Definition first_line (test : string -> bool) (sample_lines : list string) : bool :=
  match sample_lines with
  | [] => false
  | line :: _ => test line
  end.

Definition _detect_log_format_from_content (self : parser) (sample_lines : list string)
    : parser :=
  if first_line (fun l => PyStr.startswith "{" (PyStr.strip l) && json_ok l) sample_lines
  then set_log_type self "json"
  else if first_line (fun l => Re.matches clf_detect_pattern (PyStr.strip l)) sample_lines
  then set_log_type self "clf"
  else if first_line (fun l => PyStr.startswith "#Fields:" (PyStr.strip l)) sample_lines
  then set_log_type self "elf"
  else if first_line (fun l => Re.matches syslog_detect_pattern (PyStr.strip l)) sample_lines
  then set_log_type self "syslog"
  else
    configure
      match scan_keywords sample_lines with
      | Some t => t
      | None => log_type self
      end.

(** [_detect_log_type_from_content]: the keyword loop alone, then the
    three assignments. *)
Definition _detect_log_type_from_content (self : parser) (sample_lines : list string)
    : parser :=
  configure
    match scan_keywords sample_lines with
    | Some t => t
    | None => log_type self
    end.

(* ----------------------------------------------------------------- *)
(** *** The two entry points *)

Definition is_type (self : parser) (t : string) : bool := String.eqb (log_type self) t.

(** The chain of [if]/[elif] of [parse_file]. *)
Definition dispatch_file (self : parser) (lines : list string) : result DataFrame :=
  if is_type self "browsing" then _parse_browsing_logs lines
  else if is_type self "virus" then _parse_virus_logs lines
  else if is_type self "mail" then _parse_mail_logs lines
  else if is_type self "firewall" then _parse_firewall_logs lines
  else if is_type self "auth" then _parse_auth_logs lines
  else if is_type self "system" then _parse_system_logs lines
  else if is_type self "ids" then _parse_ids_logs lines
  else if is_type self "vpn" then _parse_vpn_logs lines
  else if is_type self "syslog" then _parse_syslog_format lines
  else if is_type self "clf" then _parse_common_log_format lines
  else if is_type self "elf" then _parse_extended_log_format lines
  else if is_type self "json" then _parse_json_format lines
  else if is_type self "xml" then _parse_xml_format lines
  else if is_type self "csv" then _parse_csv_format lines
  else _parse_generic_logs self lines.

(** The chain of [parse_uploaded_file], which also knows [application]. *)
Definition dispatch_upload (self : parser) (lines : list string) : result DataFrame :=
  if is_type self "browsing" then _parse_browsing_logs lines
  else if is_type self "virus" then _parse_virus_logs lines
  else if is_type self "mail" then _parse_mail_logs lines
  else if is_type self "firewall" then _parse_firewall_logs lines
  else if is_type self "auth" then _parse_auth_logs lines
  else if is_type self "system" then _parse_system_logs lines
  else if is_type self "application" then _parse_application_logs lines
  else if is_type self "ids" then _parse_ids_logs lines
  else if is_type self "vpn" then _parse_vpn_logs lines
  else if is_type self "syslog" then _parse_syslog_format lines
  else if is_type self "clf" then _parse_common_log_format lines
  else if is_type self "elf" then _parse_extended_log_format lines
  else if is_type self "json" then _parse_json_format lines
  else if is_type self "xml" then _parse_xml_format lines
  else if is_type self "csv" then _parse_csv_format lines
  else _parse_generic_logs self lines.

(** The first step of [parse_file]: the detection on the file when the
    parser has the default type. *)
Definition detect_by_file (self : parser) (fs : Utils.FileSystem) (file_path : string)
    : parser :=
  if is_type self Config.DEFAULT_LOG_TYPE then
    let detected_type := Utils.detect_log_type fs file_path in
    if negb (String.eqb detected_type (log_type self)) then configure detected_type
    else self
  else self.

(** The third step: the classifier on the first ten lines, again only
    when the parser has the default type. *)
Definition detect_by_content (self : parser) (lines : list string) : parser :=
  if is_type self Config.DEFAULT_LOG_TYPE
  then _detect_log_format_from_content self (firstn 10 lines)
  else self.

(** What a call returns, were it not for the [except] clause: the table
    or the exception, and the parser as the call leaves it. *)
Definition parse_file_body (self : parser) (fs : Utils.FileSystem) (file_path : string)
    : result DataFrame * parser :=
  let self1 := detect_by_file self fs file_path in
  let file_format := _detect_file_format fs file_path in
  let lines := _read_file_by_format fs file_path file_format in
  let self2 := detect_by_content self1 lines in
  (dispatch_file self2 lines, self2).

(** [parser.parse_file(file_path)]: the table it returns and the parser
    afterwards. *)
Definition parse_file (self : parser) (fs : Utils.FileSystem) (file_path : string)
    : DataFrame * parser :=
  let (r, self') := parse_file_body self fs file_path in
  (try_except r (fun _ => DataFrame_columns (columns self')), self').

Definition parse_uploaded_file_body (self : parser) (uploaded_file : UploadedFile)
    : result DataFrame * parser * UploadedFile :=
  let (file_format, f1) := _detect_uploaded_file_format uploaded_file in
  let (lines, f2) := _read_uploaded_file_by_format f1 file_format in
  let self1 := _detect_log_format_from_content self (firstn 10 lines) in
  (dispatch_upload self1 lines, self1, f2).

(** [parser.parse_uploaded_file(uploaded_file)]: the table, the parser
    and the uploaded file afterwards. *)
Definition parse_uploaded_file (self : parser) (uploaded_file : UploadedFile)
    : DataFrame * parser * UploadedFile :=
  let '(r, self', f') := parse_uploaded_file_body self uploaded_file in
  (try_except r (fun _ => DataFrame_columns (columns self')), self', f').

End LogParser.
End LogParser.

(* ================================================================= *)
(** ** A reference runtime

    An instance of [Runtime] on which the definitions can be run: a
    process in the UTC time zone that reads ASCII text.  Bytes above 127
    are left out by the codecs (and make the strict reader fail), the
    input is never a compressed stream, an archive or an XML document,
    and numbers are decimal integers; JSON documents are parsed, and a
    table is built from them unless [frame_error_of] says otherwise. *)

Module Reference.

(** A parsed JSON document; numbers and strings keep their source text. *)
Inductive jvalue : Type :=
| JNull
| JBool (b : bool)
| JNumber (literal : string)
| JString (raw : string)
| JList (items : list jvalue)
| JDict (members : list (string * jvalue)).

Definition is_json_space (c : ascii) : bool :=
  Ascii.eqb c " " || (PyStr.ord c =? 9)%N || (PyStr.ord c =? 10)%N || (PyStr.ord c =? 13)%N.

Fixpoint skip_space (s : string) : string :=
  match s with
  | String c s' => if is_json_space c then skip_space s' else s
  | EmptyString => s
  end.

Definition is_hex (c : ascii) : bool :=
  PyStr.is_dec c || PyStr.in_range 65 70 c || PyStr.in_range 97 102 c.

Definition backslash : ascii := ascii_of_N 92.

(** The characters of a string literal after its opening quote, and what
    follows the closing quote. *)
Fixpoint string_body (s : string) : option (string * string) :=
  match s with
  | EmptyString => None
  | String c s' =>
      if Ascii.eqb c Re.dquote then Some (EmptyString, s')
      else if (PyStr.ord c <? 32)%N then None
      else if Ascii.eqb c backslash then
        match s' with
        | String e s'' =>
            if Ascii.eqb e "u" then
              match s'' with
              | String h1 (String h2 (String h3 (String h4 r))) =>
                  if is_hex h1 && is_hex h2 && is_hex h3 && is_hex h4 then
                    match string_body r with
                    | Some (body, rest) =>
                        Some (String c (String e (String h1 (String h2 (String h3
                                 (String h4 body))))), rest)
                    | None => None
                    end
                  else None
              | _ => None
              end
            else if existsb (Ascii.eqb e) [Re.dquote; backslash; "/"%char; "b"%char;
                                          "f"%char; "n"%char; "r"%char; "t"%char] then
              match string_body s'' with
              | Some (body, rest) => Some (String c (String e body), rest)
              | None => None
              end
            else None
        | EmptyString => None
        end
      else
        match string_body s' with
        | Some (body, rest) => Some (String c body, rest)
        | None => None
        end
  end.

(** An optional minus sign, an integer part without leading zeros, an
    optional fraction and an optional exponent. *)
Definition number_re : Re.re :=
  Re.Grp 1
    (Re.seq [ Re.opt (Re.chr "-");
              Re.Alt (Re.chr "0") (Re.Cat (Re.range 49 57) (Re.Star Re.d));
              Re.opt (Re.Cat (Re.chr ".") (Re.plus Re.d));
              Re.opt (Re.seq [Re.Chr (fun c => Ascii.eqb c "e" || Ascii.eqb c "E");
                              Re.opt (Re.Chr (fun c => Ascii.eqb c "-" || Ascii.eqb c "+"));
                              Re.plus Re.d]) ]).

Definition keyword (k : string) (v : jvalue) (s : string) : option (jvalue * string) :=
  if PyStr.startswith k s then Some (v, PyStr.drop (length k) s) else None.

Definition scalar (s : string) : option (jvalue * string) :=
  match s with
  | String c s' =>
      if Ascii.eqb c Re.dquote then
        match string_body s' with
        | Some (body, rest) => Some (JString body, rest)
        | None => None
        end
      else if Ascii.eqb c "n" then keyword "null" JNull s
      else if Ascii.eqb c "t" then keyword "true" (JBool true) s
      else if Ascii.eqb c "f" then keyword "false" (JBool false) s
      else
        match Re.re_match number_re s with
        | Some m =>
            let lit := match Re.group 1 m with Some v => v | None => EmptyString end in
            Some (JNumber lit, PyStr.drop (length lit) s)
        | None =>
            if Ascii.eqb c "N" then keyword "NaN" (JNumber "NaN") s
            else if Ascii.eqb c "I" then keyword "Infinity" (JNumber "Infinity") s
            else if Ascii.eqb c "-" then keyword "-Infinity" (JNumber "-Infinity") s
            else None
        end
  | EmptyString => None
  end.

Fixpoint value (fuel : nat) (s : string) : option (jvalue * string) :=
  match fuel with
  | O => None
  | S fuel' =>
      match s with
      | String "[" r =>
          match skip_space r with
          | String "]" r' => Some (JList [], r')
          | r1 => elements fuel' r1 []
          end
      | String "{" r =>
          match skip_space r with
          | String "}" r' => Some (JDict [], r')
          | r1 => members fuel' r1 []
          end
      | _ => scalar s
      end
  end
with elements (fuel : nat) (s : string) (acc : list jvalue) : option (jvalue * string) :=
  match fuel with
  | O => None
  | S fuel' =>
      match value fuel' s with
      | Some (v, r) =>
          match skip_space r with
          | String "," r' => elements fuel' (skip_space r') (acc ++ [v])%list
          | String "]" r' => Some (JList (acc ++ [v])%list, r')
          | _ => None
          end
      | None => None
      end
  end
with members (fuel : nat) (s : string) (acc : list (string * jvalue))
    : option (jvalue * string) :=
  match fuel with
  | O => None
  | S fuel' =>
      match s with
      | String c s' =>
          if Ascii.eqb c Re.dquote then
            match string_body s' with
            | Some (key, r) =>
                match skip_space r with
                | String ":" r' =>
                    match value fuel' (skip_space r') with
                    | Some (v, r2) =>
                        match skip_space r2 with
                        | String "," r3 => members fuel' (skip_space r3) (dict_set key v acc)
                        | String "}" r3 => Some (JDict (dict_set key v acc), r3)
                        | _ => None
                        end
                    | None => None
                    end
                | _ => None
                end
            | None => None
            end
          else None
      | EmptyString => None
      end
  end.

Definition loads (s : string) : result jvalue :=
  match value (2 * length s + 2) (skip_space s) with
  | Some (v, rest) =>
      match skip_space rest with
      | EmptyString => Ok v
      | _ => Raise JSONDecodeError
      end
  | None => Raise JSONDecodeError
  end.

Definition quoted (s : string) : string :=
  String Re.dquote (s ++ String Re.dquote EmptyString).

Fixpoint dumps (v : jvalue) : string :=
  match v with
  | JNull => "null"
  | JBool true => "true"
  | JBool false => "false"
  | JNumber lit => lit
  | JString raw => quoted raw
  | JList items => "[" ++ PyStr.join ", " (map dumps items) ++ "]"
  | JDict ms =>
      "{" ++ PyStr.join ", " (map (fun kv => quoted (fst kv) ++ ": " ++ dumps (snd kv)) ms)
      ++ "}"
  end.

Definition items_of (v : jvalue) : option (list jvalue) :=
  match v with JList items => Some items | _ => None end.

Definition is_dict (v : jvalue) : bool :=
  match v with JDict _ => true | _ => false end.

(** A document that has a length: a string, a list or a [dict]. *)
Definition is_sized (v : jvalue) : bool :=
  match v with JString _ | JList _ | JDict _ => true | _ => false end.

(** [pd.DataFrame(docs)]: when the first document is a [dict], the keys
    of every document are asked for, and a document that is no [dict]
    raises [AttributeError]; when it is a list, the length of every
    document is asked for, and a number, a truth value or [None] raises
    [TypeError]; otherwise the documents are the values of one column. *)
Definition frame_error_of (docs : list jvalue) : option exn :=
  match docs with
  | JDict _ :: _ => if forallb is_dict docs then None else Some OtherError
  | JList _ :: _ => if forallb is_sized docs then None else Some OtherError
  | _ => None
  end.

Definition is_ascii_byte (b : byte) : bool := (Byte.to_N b <? 128)%N.

Fixpoint decode_ascii (b : list byte) : string :=
  match b with
  | [] => EmptyString
  | x :: b' =>
      if is_ascii_byte x then String (ascii_of_byte x) (decode_ascii b')
      else decode_ascii b'
  end.

(** [n] calls of [readline()]: the lines, then empty strings. *)
Definition head_lines (b : list byte) (n : nat) : option (list string) :=
  if forallb is_ascii_byte b then
    let ls := PyIO.readlines (decode_ascii b) in
    Some (firstn n (ls ++ repeat EmptyString n)%list)
  else None.

Definition integer (s : string) : option Z :=
  match s with
  | String "-" t => if PyStr.isdigit t && PyStr.all_chars PyStr.is_dec t
                    then option_map Z.opp (PyNum.int_digits t 0 false) else None
  | _ => if PyStr.all_chars PyStr.is_dec s then PyNum.int_digits s 0 false else None
  end.

Definition utc_fromtimestamp (t : Z) : option PyNum.datetime :=
  let dt := PyNum.gmtime t in
  if PyNum.year_ok dt && PyNum.year_ok (PyNum.gmtime (t - 86400)) then Some dt else None.

(** The pattern [_strptime] builds for [%Y%m%d%H%M%S]. *)
Definition compact_re : Re.re :=
  Re.seq
    [ Re.Grp 1 (Re.rep 4 Re.d);
      Re.Grp 2 (Re.alts [Re.Cat (Re.chr "1") (Re.range 48 50);
                         Re.Cat (Re.chr "0") (Re.range 49 57); Re.range 49 57]);
      Re.Grp 3 (Re.alts [Re.Cat (Re.chr "3") (Re.range 48 49);
                         Re.Cat (Re.range 49 50) Re.d;
                         Re.Cat (Re.chr "0") (Re.range 49 57); Re.range 49 57;
                         Re.Cat Re.sp (Re.range 49 57)]);
      Re.Grp 4 (Re.alts [Re.Cat (Re.chr "2") (Re.range 48 51);
                         Re.Cat (Re.range 48 49) Re.d; Re.d]);
      Re.Grp 5 (Re.alts [Re.Cat (Re.range 48 53) Re.d; Re.d]);
      Re.Grp 6 (Re.alts [Re.Cat (Re.chr "6") (Re.range 48 49);
                         Re.Cat (Re.range 48 53) Re.d; Re.d]) ].

Definition is_leap (y : Z) : bool :=
  ((y mod 4 =? 0) && (negb (y mod 100 =? 0) || (y mod 400 =? 0)))%Z.

Definition days_in_month (y m : Z) : Z :=
  (if m =? 2 then (if is_leap y then 29 else 28)
   else if (m =? 4) || (m =? 6) || (m =? 9) || (m =? 11) then 30 else 31)%Z.

Definition field_value (n : nat) (m : Re.caps) : Z :=
  match Re.group n m with
  | Some v => match PyNum.py_int v with Some z => z | None => 0%Z end
  | None => 0%Z
  end.

(** [datetime.strptime(s, fmt)] for the format of the fixed-field log
    types; every other format is refused. *)
Definition strptime_compact (s fmt : string) : option PyNum.datetime :=
  if String.eqb fmt "%Y%m%d%H%M%S" then
    match Re.run compact_re None s []
            (fun _ rest cs => if PyStr.is_empty rest then Some cs else Some ((0, rest) :: cs)) with
    | Some m =>
        match Re.group 0 m with
        | Some _ => None                      (* unconverted data remains *)
        | None =>
            let y := field_value 1 m in
            let mo := field_value 2 m in
            let d := field_value 3 m in
            let sec := field_value 6 m in
            if ((1 <=? y) && (d <=? days_in_month y mo) && (sec <=? 59))%Z
            then Some (PyNum.mk_datetime y mo d (field_value 4 m) (field_value 5 m) sec)
            else None
        end
    | None => None
    end
  else None.

#[export] Instance runtime : Runtime := {
  decode_utf8 := decode_ascii;
  decode_locale := decode_ascii;
  readlines_strict := head_lines;
  gzip_decompress := fun _ => None;
  bz2_decompress := fun _ => None;
  zip_first_member := fun _ => None;
  json := jvalue;
  json_loads := loads;
  json_dumps := dumps;
  json_items := items_of;
  frame_error := frame_error_of;
  xml_descendants := fun _ => None;
  xml_children := fun _ => Raise ParseError;
  number := Z;
  to_numeric := integer;
  fromtimestamp := utc_fromtimestamp;
  strptime := strptime_compact
}.

(** The bytes of an ASCII text. *)
Definition bytes_of (s : string) : list byte := list_byte_of_string s.

(** A file system with one file. *)
Definition one_file (path : string) (content : string) : Utils.FileSystem :=
  fun p => if String.eqb p path then Some (bytes_of content) else None.

End Reference.

(* ================================================================= *)
(** * Properties *)

(** ** The library models on sample inputs

    Each equation below is what CPython 3.11 answers on the same input. *)

Module ModelChecks.

Definition lf : string := String PyIO.LF EmptyString.
Definition cr : string := String PyIO.CR EmptyString.
Definition dq : string := String Re.dquote EmptyString.

Definition clf_line : string :=
  "127.0.0.1 - - [10/Oct/2023:13:55:36 -0700] " ++ dq ++ "GET /index.html HTTP/1.1" ++ dq
  ++ " 200 2326".

Example split_maxsplit_two :
  PyStr.split_maxsplit 2 "  a  b   c d  e" = ["a"; "b"; "c d  e"].
Proof. vm_compute. reflexivity. Qed.

Example split_maxsplit_zero :
  PyStr.split_maxsplit 0 (PyStr.strip ("   a b " ++ lf)) = ["a b"].
Proof. vm_compute. reflexivity. Qed.

Example split_sep_empty_pieces : PyStr.split_sep "," "a,,b," = Some ["a"; ""; "b"; ""].
Proof. vm_compute. reflexivity. Qed.

Example split_sep_space : PyStr.split_sep " " "a  b" = Some ["a"; ""; "b"].
Proof. vm_compute. reflexivity. Qed.

Example isdigit_cases :
  map PyStr.isdigit ["1704067200"; "12a"; EmptyString] = [true; false; false].
Proof. vm_compute. reflexivity. Qed.

Example int_cases :
  map PyNum.py_int [" -1_000 "; "007"; "1__0"; "_1"; "1_"; "+5"; "2024-01-01"]
  = [Some (-1000)%Z; Some 7%Z; None; None; None; Some 5%Z; None].
Proof. vm_compute. reflexivity. Qed.

Example strftime_leap_day :
  PyNum.strftime (PyNum.gmtime 951782400) = "2000-02-29 00:00:00"
  /\ PyNum.strftime (PyNum.gmtime (-1)) = "1969-12-31 23:59:59".
Proof. split; vm_compute; reflexivity. Qed.

Example fromtimestamp_range :
  map (fun t => match Reference.utc_fromtimestamp t with Some _ => true | None => false end)
    [-62135596800; -62135510401; -62135510400; 253402300799; 253402300800]%Z
  = [false; false; true; true; false].
Proof. vm_compute. reflexivity. Qed.

Example strptime_cases :
  map (fun s => option_map PyNum.strftime (Reference.strptime_compact s "%Y%m%d%H%M%S"))
    ["20241 1000"; "202411000"; "20240230000000"; "20240101000000x"; "20240101000060"]
  = [Some "2024-01-01 00:00:00"; Some "2024-01-01 00:00:00"; None; None; None].
Proof. vm_compute. reflexivity. Qed.

Example splitext_cases :
  map LogParser.splitext_ext ["/a.b/c"; "/a/.bashrc"; "x.tar.GZ"; "..a.b"; "a."; "..."]
  = [""; ""; ".GZ"; ".b"; "."; ""].
Proof. vm_compute. reflexivity. Qed.

Example readlines_universal :
  PyIO.readlines ("a" ++ cr ++ lf ++ "b" ++ cr ++ "c" ++ lf ++ lf ++ "d")
  = ["a" ++ lf; "b" ++ lf; "c" ++ lf; lf; "d"].
Proof. vm_compute. reflexivity. Qed.

Example splitlines_mixed :
  PyIO.splitlines ("a" ++ cr ++ lf ++ "b" ++ cr ++ "c" ++ lf ++ lf ++ "d" ++ lf)
  = ["a"; "b"; "c"; ""; "d"].
Proof. vm_compute. reflexivity. Qed.

Example syslog_groups :
  option_map (fun m => map (fun n => Re.group n m) [1; 2; 3; 4; 5])
    (Re.re_match LogParser.syslog_pattern "Jan  1 00:00:00 host sshd[123]: hello world")
  = Some [Some "Jan  1 00:00:00"; Some "host"; Some "sshd[123]"; None; Some "hello world"].
Proof. vm_compute. reflexivity. Qed.

Example clf_groups :
  option_map (fun m => map (fun n => LogParser.group_or_empty n m) [1; 2; 3; 4; 5; 6; 7])
    (Re.re_match LogParser.clf_pattern clf_line)
  = Some ["127.0.0.1"; "-"; "-"; "10/Oct/2023:13:55:36 -0700"; "GET /index.html HTTP/1.1";
          "200"; "2326"].
Proof. vm_compute. reflexivity. Qed.

Example detect_patterns :
  Re.matches LogParser.clf_detect_pattern clf_line = true
  /\ Re.matches LogParser.syslog_detect_pattern "Jan  1 00:00:00 host sshd[123]: hello" = true
  /\ map (Re.found Utils.status_code_re) ["a 2048 x"; "code=200;"; "x_200"; "10.512.1"]
     = [false; true; false; true]
  /\ Re.found Utils.browsing_url_re "alice@example.com" = true
  /\ Re.found Utils.virus_re "ANTIVIRUS ok" = true.
Proof. repeat apply conj; vm_compute; reflexivity. Qed.

Example csv_rows :
  map (fun ls => PyCsv.to_list (PyCsv.csv_reader ls))
    [ ["a,b" ++ lf; "1,2" ++ lf]; [lf; "a,b" ++ lf]; [dq ++ "a"; "b" ++ dq ++ ",c"];
      ["a" ++ dq ++ "b,c"]; [dq ++ "a" ++ dq ++ dq ++ "b" ++ dq ++ ",c"]; ["a" ++ cr ++ "b"];
      ["a," ++ lf]; [dq ++ "abc"] ]
  = [ Ok [["a"; "b"]; ["1"; "2"]]; Ok [[]; ["a"; "b"]]; Ok [["ab"; "c"]];
      Ok [["a" ++ dq ++ "b"; "c"]]; Ok [["a" ++ dq ++ "b"; "c"]]; Raise CsvError;
      Ok [["a"; ""]]; Ok [["abc"]] ].
Proof. vm_compute. reflexivity. Qed.

Example json_cases :
  map (fun s => match Reference.loads s with Ok _ => true | Raise _ => false end)
    ["[1, 2]"; "{}"; "[1, 2,]"; "01"; "{"; "-"; "[NaN, -Infinity, true]"; " null "]
  = [true; true; false; false; false; false; true; true].
Proof. vm_compute. reflexivity. Qed.

End ModelChecks.

(** ** Observing results and tables *)

(** The exception of a result, if it is one. *)
Definition raised {A : Type} (r : result A) : option exn :=
  match r with
  | Ok _ => None
  | Raise e => Some e
  end.

Lemma raised_inv {A : Type} (r : result A) (e : exn) : raised r = Some e -> r = Raise e.
Proof. destruct r; simpl; congruence. Qed.

(** A table without rows is known by its [columns=] argument. *)
Lemma empty_frame_inv {R : Runtime} (df : DataFrame) (cols : option (list string)) :
  frame_columns df = cols -> frame_len df = 0 -> df = mk_frame cols [].
Proof.
  destruct df as [c d]; unfold frame_len; simpl.
  intros -> H. destruct d; [reflexivity | discriminate H].
Qed.

(** ** Splitting on whitespace *)

Module SplitFacts.
Import PyStr.

(** What is left of a line after its first [k] words. *)
Fixpoint after_words (k : nat) (s : string) : string :=
  match k with
  | O => lstrip s
  | S k' => after_words k' (snd (word_end (lstrip s)))
  end.

Lemma lstrip_length (s : string) : length (lstrip s) <= length s.
Proof.
  induction s as [|c s IH]; simpl; [lia|].
  destruct (isspace c); simpl; lia.
Qed.

Lemma lstrip_head (s : string) (c : ascii) (r : string) :
  lstrip s = String c r -> isspace c = false.
Proof.
  induction s as [|x s IH]; simpl; [discriminate|].
  destruct (isspace x) eqn:E; [exact IH|].
  intros H; injection H as -> _; exact E.
Qed.

Lemma lstrip_idem (s : string) : lstrip (lstrip s) = lstrip s.
Proof.
  induction s as [|x s IH]; simpl; [reflexivity|].
  destruct (isspace x) eqn:E; [exact IH|].
  simpl; rewrite E; reflexivity.
Qed.

Lemma word_end_length (s w r : string) :
  word_end s = (w, r) -> length s = length w + length r.
Proof.
  revert w r; induction s as [|c s IH]; simpl; intros w r H.
  - injection H as <- <-; reflexivity.
  - destruct (isspace c).
    + injection H as <- <-; reflexivity.
    + destruct (word_end s) as [w' r'] eqn:E.
      injection H as <- <-. simpl. rewrite (IH w' r' eq_refl). reflexivity.
Qed.

(** After a word that starts at a character that is no whitespace, less
    is left. *)
Lemma word_end_shorter (c : ascii) (s w r : string) :
  isspace c = false -> word_end (String c s) = (w, r) -> length r <= length s.
Proof.
  intros Hc H; simpl in H; rewrite Hc in H.
  destruct (word_end s) as [w' r'] eqn:E.
  injection H as <- <-.
  apply word_end_length in E; lia.
Qed.

(** One step of [split_maxsplit] on a string that has a word. *)
Lemma split_maxsplit_step (k : nat) (s : string) (c : ascii) (r w rest : string) :
  lstrip s = String c r -> word_end (String c r) = (w, rest) ->
  split_maxsplit (S k) s = w :: split_maxsplit k rest.
Proof.
  intros Hl Hw. cbn [split_maxsplit]. rewrite Hl, Hw. reflexivity.
Qed.

Lemma split_maxsplit_blank (k : nat) (s : string) :
  lstrip s = EmptyString -> split_maxsplit k s = [].
Proof.
  intros Hl; destruct k; cbn [split_maxsplit]; rewrite Hl; reflexivity.
Qed.

(** Past the length of the string, the bound on the splits is not felt. *)
Lemma split_maxsplit_enough (m1 m2 : nat) (s : string) :
  length s <= m1 -> length s <= m2 -> split_maxsplit m1 s = split_maxsplit m2 s.
Proof.
  revert m2 s; induction m1 as [|m1 IH]; intros m2 s H1 H2.
  - destruct s; [|simpl in H1; lia].
    destruct m2; reflexivity.
  - destruct (lstrip s) as [|c r] eqn:Hl.
    + rewrite !split_maxsplit_blank by assumption; reflexivity.
    + pose proof (lstrip_length s) as Hlen; rewrite Hl in Hlen; simpl in Hlen.
      destruct m2 as [|m2]; [lia|].
      destruct (word_end (String c r)) as [w rest] eqn:Hw.
      rewrite (split_maxsplit_step m1 s c r w rest Hl Hw).
      rewrite (split_maxsplit_step m2 s c r w rest Hl Hw).
      f_equal. pose proof (word_end_shorter c r w rest (lstrip_head s c r Hl) Hw).
      apply IH; lia.
Qed.

Lemma split_blank (s : string) : lstrip s = EmptyString -> split s = [].
Proof. intros; unfold split; apply split_maxsplit_blank; assumption. Qed.

Lemma split_cons (s : string) (c : ascii) (r w rest : string) :
  lstrip s = String c r -> word_end (String c r) = (w, rest) ->
  split s = w :: split rest.
Proof.
  intros Hl Hw. unfold split.
  pose proof (lstrip_length s) as Hlen; rewrite Hl in Hlen; simpl in Hlen.
  destruct (length s) as [|n] eqn:En; [lia|].
  rewrite (split_maxsplit_step n s c r w rest Hl Hw). f_equal.
  pose proof (word_end_shorter c r w rest (lstrip_head s c r Hl) Hw).
  apply split_maxsplit_enough; lia.
Qed.

Lemma split_lstrip (s : string) : split (lstrip s) = split s.
Proof.
  destruct (lstrip s) as [|c r] eqn:Hl.
  - rewrite (split_blank s Hl); reflexivity.
  - destruct (word_end (String c r)) as [w rest] eqn:Hw.
    rewrite (split_cons s c r w rest Hl Hw).
    apply (split_cons (String c r) c r w rest); [|exact Hw].
    rewrite <- Hl; apply lstrip_idem.
Qed.

(** A bounded split returns the first [k] words and, when words are
    left, the rest of the string as one last element. *)
Lemma split_maxsplit_words (k : nat) (s : string) :
  split_maxsplit k s =
  if Nat.leb (List.length (split s)) k then split s
  else (firstn k (split s) ++ [after_words k s])%list.
Proof.
  revert s; induction k as [|k IH]; intros s.
  - destruct (lstrip s) as [|c r] eqn:Hl.
    + rewrite split_maxsplit_blank by assumption.
      rewrite (split_blank s Hl); reflexivity.
    + destruct (word_end (String c r)) as [w rest] eqn:Hw.
      rewrite (split_cons s c r w rest Hl Hw).
      simpl. rewrite Hl. reflexivity.
  - destruct (lstrip s) as [|c r] eqn:Hl.
    + rewrite split_maxsplit_blank by assumption.
      rewrite (split_blank s Hl); reflexivity.
    + destruct (word_end (String c r)) as [w rest] eqn:Hw.
      rewrite (split_maxsplit_step k s c r w rest Hl Hw).
      rewrite (split_cons s c r w rest Hl Hw).
      rewrite IH. simpl List.length. simpl Nat.leb.
      simpl after_words. rewrite Hl, Hw. simpl snd.
      destruct (Nat.leb (List.length (split rest)) k); reflexivity.
Qed.

(** The words of what is left after [k] words are the words from the
    [k]-th on: nothing is lost. *)
Lemma split_after_words (k : nat) (s : string) :
  split (after_words k s) = skipn k (split s).
Proof.
  revert s; induction k as [|k IH]; intros s.
  - simpl. apply split_lstrip.
  - simpl after_words. rewrite IH.
    destruct (lstrip s) as [|c r] eqn:Hl.
    + rewrite (split_blank s Hl). simpl. destruct k; reflexivity.
    + destruct (word_end (String c r)) as [w rest] eqn:Hw.
      rewrite (split_cons s c r w rest Hl Hw). reflexivity.
Qed.

(** The words of a string, read character by character; [cur] is the
    word being read. *)
Fixpoint words_from (cur : string) (s : string) : list string :=
  match s with
  | EmptyString => if is_empty cur then [] else [cur]
  | String c s' =>
      if isspace c
      then (if is_empty cur then words_from EmptyString s' else cur :: words_from EmptyString s')
      else words_from (cur ++ String c EmptyString) s'
  end.

Lemma append_empty (s : string) : s ++ EmptyString = s.
Proof. induction s as [|c s IH]; simpl; [reflexivity | rewrite IH; reflexivity]. Qed.

Lemma append_assoc (a b c : string) : (a ++ b) ++ c = a ++ (b ++ c).
Proof. induction a as [|x a IH]; simpl; [reflexivity | rewrite IH; reflexivity]. Qed.

Lemma snoc_not_empty (s : string) (c : ascii) : is_empty (s ++ String c EmptyString) = false.
Proof. destruct s; reflexivity. Qed.

Lemma words_from_word (s : string) : forall (cur w rest : string),
  is_empty cur = false -> word_end s = (w, rest) ->
  words_from cur s = (cur ++ w) :: words_from EmptyString rest.
Proof.
  induction s as [|c s IH]; intros cur w rest Hcur Hw.
  - injection Hw as <- <-. simpl. rewrite Hcur, append_empty. reflexivity.
  - simpl in Hw. cbn [words_from]. destruct (isspace c) eqn:Ec.
    + injection Hw as <- <-. rewrite Hcur, append_empty.
      cbn [words_from]. rewrite Ec. reflexivity.
    + destruct (word_end s) as [w' rest'] eqn:E. injection Hw as <- <-.
      rewrite (IH _ w' rest' (snoc_not_empty cur c) eq_refl).
      rewrite append_assoc. reflexivity.
Qed.

Lemma split_space (c : ascii) (s : string) : isspace c = true -> split (String c s) = split s.
Proof.
  intros Hc. rewrite <- (split_lstrip (String c s)), <- (split_lstrip s).
  simpl. rewrite Hc. reflexivity.
Qed.

Lemma split_words_bounded (n : nat) : forall s, length s <= n -> split s = words_from EmptyString s.
Proof.
  induction n as [|n IH]; intros s Hlen.
  - destruct s; [reflexivity | simpl in Hlen; lia].
  - destruct s as [|c s]; [reflexivity|]. simpl in Hlen.
    destruct (isspace c) eqn:Ec.
    + rewrite (split_space c s Ec). cbn [words_from]. rewrite Ec. cbn [is_empty].
      apply IH. lia.
    + destruct (word_end (String c s)) as [w rest] eqn:Hw.
      assert (Hl : lstrip (String c s) = String c s) by (simpl; rewrite Ec; reflexivity).
      rewrite (split_cons (String c s) c s w rest Hl Hw).
      pose proof (word_end_shorter c s w rest Ec Hw) as Hshort.
      cbn [words_from]. rewrite Ec. cbn [append].
      simpl in Hw. rewrite Ec in Hw. destruct (word_end s) as [w' rest'] eqn:E.
      injection Hw as <- <-.
      rewrite (words_from_word s (String c EmptyString) w' rest' eq_refl E).
      cbn [append]. f_equal. apply IH. lia.
Qed.

Lemma split_words (s : string) : split s = words_from EmptyString s.
Proof. apply (split_words_bounded (length s)). lia. Qed.

Lemma words_from_rstrip (s : string) : forall cur,
  words_from cur (rstrip s) = words_from cur s.
Proof.
  induction s as [|c s IH]; intros cur; [reflexivity|].
  cbn [rstrip]. destruct (rstrip s) as [|x r] eqn:E.
  - destruct (isspace c) eqn:Ec.
    + cbn [words_from]. rewrite Ec, <- (IH EmptyString). cbn [words_from is_empty].
      destruct (is_empty cur); reflexivity.
    + cbn [words_from]. rewrite Ec, <- IH. reflexivity.
  - cbn [words_from]. rewrite <- !IH. reflexivity.
Qed.

Lemma split_rstrip (s : string) : split (rstrip s) = split s.
Proof. rewrite !split_words. apply words_from_rstrip. Qed.

(** Stripping a line does not change its words. *)
Lemma split_strip (s : string) : split (strip s) = split s.
Proof. unfold strip. rewrite split_rstrip. apply split_lstrip. Qed.

End SplitFacts.

(* ================================================================= *)
(** ** Splitting at commas *)

Module CommaFacts.
Import PyStr PyCsv.

(** The fields of a line without quotes: the pieces between the commas. *)
Fixpoint cut (cur : string) (s : string) : list string :=
  match s with
  | EmptyString => [cur]
  | String c s' =>
      if Ascii.eqb c delimiter then cur :: cut EmptyString s'
      else cut (cur ++ String c EmptyString) s'
  end.

Lemma length_snoc (s : string) (c : ascii) :
  length (s ++ String c EmptyString) = S (length s).
Proof. induction s as [|x s IH]; simpl; [reflexivity | rewrite IH; reflexivity]. Qed.

Lemma prefix_empty (s : string) : prefix EmptyString s = true.
Proof. destruct s; reflexivity. Qed.

(** [s.split(",")] is [cut]. *)
Lemma split_on_comma (fuel : nat) (cur s : string) :
  length s < fuel -> split_on fuel "," cur s = cut cur s.
Proof.
  revert cur s; induction fuel as [|fuel IH]; intros cur s Hlen; [lia|].
  destruct s as [|c s]; [reflexivity|].
  cbn [split_on cut prefix]. unfold delimiter.
  destruct (ascii_dec "," c) as [<-|Hne].
  - rewrite prefix_empty. cbn [Ascii.eqb Bool.eqb andb]. cbn [length drop].
    f_equal. apply IH. simpl in Hlen. lia.
  - assert (E : Ascii.eqb c "," = false) by (apply Ascii.eqb_neq; congruence).
    rewrite E. apply IH. simpl in Hlen. lia.
Qed.

Lemma split_sep_comma (s : string) : split_sep "," s = Some (cut EmptyString s).
Proof. unfold split_sep. rewrite split_on_comma by lia. reflexivity. Qed.

Lemma cut_not_nil (cur s : string) : cut cur s <> [].
Proof.
  revert cur; induction s as [|c s IH]; intros cur; cbn [cut]; [discriminate|].
  destruct (Ascii.eqb c delimiter); [discriminate | apply IH].
Qed.

Lemma contains_comma_cons (c : ascii) (s : string) :
  contains "," (String c s) = Ascii.eqb c delimiter || contains "," s.
Proof.
  cbn [contains prefix]. unfold delimiter.
  destruct (ascii_dec "," c) as [<-|Hne].
  - rewrite prefix_empty. reflexivity.
  - assert (E : Ascii.eqb c "," = false) by (apply Ascii.eqb_neq; congruence).
    rewrite E. reflexivity.
Qed.

(** A string with a comma has at least two pieces. *)
Lemma cut_two (s : string) : forall cur,
  contains "," s = true -> 1 < List.length (cut cur s).
Proof.
  induction s as [|c s IH]; intros cur H; [discriminate H|].
  rewrite contains_comma_cons in H. cbn [cut].
  destruct (Ascii.eqb c delimiter).
  - pose proof (cut_not_nil EmptyString s) as Hne.
    destruct (cut EmptyString s); [contradiction | simpl; lia].
  - apply IH. exact H.
Qed.

Lemma split_sep_two (s : string) :
  contains "," s = true ->
  match split_sep "," s with
  | Some parts => Nat.ltb 1 (List.length parts)
  | None => false
  end = true.
Proof.
  intros H. rewrite split_sep_comma. apply Nat.ltb_lt. apply cut_two. exact H.
Qed.

End CommaFacts.

(* ================================================================= *)
(** ** The fixed-field parsers: field count, folding and dropping *)

Module FixedFieldFacts.
Import PyStr SplitFacts LogParser.

(** The line of the specification's example. *)
Definition example_line : string :=
  "2024-01-01 00:00:00 10.0.0.1 alice http://a.com/x?y=1 2048 200 text/html News Mozilla/5 extra tokens here".

Section WithRuntime.

Context {R : Runtime}.

(** The record built from the values of the columns of log type [t]:
    the first value under [timestamp] (formatted) and [raw_timestamp],
    the others under the remaining column names. *)
Definition record_of (t : string) (vals : list string) : str_row :=
  ("timestamp", fmt (hd EmptyString vals) t)
  :: ("raw_timestamp", hd EmptyString vals)
  :: combine (tl (Config.get_columns t)) (tl vals).

(** The records one line contributes: one when the line has as many
    words as the log type has columns, the words beyond folded into the
    last value; none otherwise. *)
Definition rows_for (t : string) (line : string) : list str_row :=
  let n := List.length (Config.get_columns t) in
  let words := split (strip line) in
  if Nat.leb n (List.length words)
  then [record_of t (firstn (n - 1) words ++ [after_words (n - 1) (strip line)])%list]
  else [].

(** The eight parsers of the fixed-field family, by log type. *)
Definition fixed_field_parsers : list (string * (list string -> result (list str_row))) :=
  [ ("browsing", browsing_data); ("virus", virus_data); ("mail", mail_data);
    ("firewall", firewall_data); ("auth", auth_data); ("system", system_data);
    ("ids", ids_data); ("vpn", vpn_data) ].

(** The parsers that return the rows as they were collected, by log
    type (the browsing parser converts three columns first). *)
Definition fixed_field_tables : list (string * (list string -> result DataFrame)) :=
  [ ("virus", _parse_virus_logs); ("mail", _parse_mail_logs);
    ("firewall", _parse_firewall_logs); ("auth", _parse_auth_logs);
    ("system", _parse_system_logs); ("ids", _parse_ids_logs);
    ("vpn", _parse_vpn_logs) ].

Lemma fixed_rows_spec (k n : nat) (mk : list string -> result str_row) (t : string) :
  n = S k -> n = List.length (Config.get_columns t) ->
  (forall vals, List.length vals = n -> mk vals = Ok (record_of t vals)) ->
  forall lines, fixed_rows k n mk lines = Ok (flat_map (rows_for t) lines).
Proof.
  intros Hn Hcols Hmk lines.
  induction lines as [|line rest IH]; [reflexivity|].
  cbn [fixed_rows flat_map]. unfold rows_for at 1. rewrite <- Hcols.
  rewrite split_maxsplit_words.
  set (words := split (strip line)).
  destruct (Nat.leb (List.length words) k) eqn:E.
  - apply Nat.leb_le in E.
    assert (Hlt : Nat.leb n (List.length words) = false) by (apply Nat.leb_gt; lia).
    rewrite Hlt. exact IH.
  - apply Nat.leb_gt in E.
    assert (Hlen : List.length (firstn k words ++ [after_words k (strip line)])%list = n).
    { rewrite length_app, length_firstn. simpl. lia. }
    assert (Hge : Nat.leb n (List.length words) = true) by (apply Nat.leb_le; lia).
    rewrite Hlen, Nat.leb_refl, Hge, (Hmk _ Hlen), IH.
    replace (n - 1) with k by lia. reflexivity.
Qed.

Tactic Notation "unpack" integer(n) ident(vals) hyp(H) :=
  do n (destruct vals as [|? vals]; [discriminate H|]);
  destruct vals; [|discriminate H].

Lemma browsing_data_spec (lines : list string) :
  browsing_data lines = Ok (flat_map (rows_for "browsing") lines).
Proof.
  apply fixed_rows_spec; [reflexivity | reflexivity |].
  intros vals H. unpack 9 vals H. reflexivity.
Qed.

Lemma virus_data_spec (lines : list string) :
  virus_data lines = Ok (flat_map (rows_for "virus") lines).
Proof.
  apply fixed_rows_spec; [reflexivity | reflexivity |].
  intros vals H. unpack 8 vals H. reflexivity.
Qed.

Lemma mail_data_spec (lines : list string) :
  mail_data lines = Ok (flat_map (rows_for "mail") lines).
Proof.
  apply fixed_rows_spec; [reflexivity | reflexivity |].
  intros vals H. unpack 8 vals H. reflexivity.
Qed.

Lemma firewall_data_spec (lines : list string) :
  firewall_data lines = Ok (flat_map (rows_for "firewall") lines).
Proof.
  apply fixed_rows_spec; [reflexivity | reflexivity |].
  intros vals H. unpack 10 vals H. reflexivity.
Qed.

Lemma auth_data_spec (lines : list string) :
  auth_data lines = Ok (flat_map (rows_for "auth") lines).
Proof.
  apply fixed_rows_spec; [reflexivity | reflexivity |].
  intros vals H. unpack 7 vals H. reflexivity.
Qed.

Lemma system_data_spec (lines : list string) :
  system_data lines = Ok (flat_map (rows_for "system") lines).
Proof.
  apply fixed_rows_spec; [reflexivity | reflexivity |].
  intros vals H. unpack 6 vals H. reflexivity.
Qed.

Lemma application_data_spec (lines : list string) :
  application_data lines = Ok (flat_map (rows_for "application") lines).
Proof.
  apply fixed_rows_spec; [reflexivity | reflexivity |].
  intros vals H. unpack 7 vals H. reflexivity.
Qed.

Lemma ids_data_spec (lines : list string) :
  ids_data lines = Ok (flat_map (rows_for "ids") lines).
Proof.
  apply fixed_rows_spec; [reflexivity | reflexivity |].
  intros vals H. unpack 9 vals H. reflexivity.
Qed.

Lemma vpn_data_spec (lines : list string) :
  vpn_data lines = Ok (flat_map (rows_for "vpn") lines).
Proof.
  apply fixed_rows_spec; [reflexivity | reflexivity |].
  intros vals H. unpack 8 vals H. reflexivity.
Qed.

(** A record has one field per column and the raw timestamp besides. *)
Lemma record_of_length (t : string) (vals : list string) :
  List.length vals = List.length (Config.get_columns t) -> 0 < List.length vals ->
  List.length (record_of t vals) = S (List.length vals).
Proof.
  intros H Hpos. unfold record_of. cbn [List.length].
  rewrite length_combine.
  destruct vals as [|v vals], (Config.get_columns t) as [|c cols]; simpl in *; lia.
Qed.

Lemma rows_for_length (t : string) (line : string) (row : str_row) :
  0 < List.length (Config.get_columns t) -> In row (rows_for t line) ->
  List.length row = S (List.length (Config.get_columns t)).
Proof.
  intros Hpos Hin. unfold rows_for in Hin.
  destruct (Nat.leb (List.length (Config.get_columns t))
              (List.length (split (strip line)))) eqn:E; [|contradiction].
  apply Nat.leb_le in E.
  destruct Hin as [<- | []].
  set (vals := (firstn _ _ ++ [_])%list).
  assert (Hlen : List.length vals = List.length (Config.get_columns t)).
  { unfold vals. rewrite length_app, length_firstn. simpl. lia. }
  rewrite record_of_length; lia.
Qed.

(** C3, as amended.  For each of the eight fixed-field parsers, the rows
    collected from the lines are, line by line and in order: no row for a
    line with fewer words than the log type has columns, and otherwise
    one row that holds the first word under [timestamp] (formatted) and
    [raw_timestamp], the next words under the next column names, and
    under the last column name everything that follows, whose words are
    all the remaining words of the line (stripping the line does not
    change its words).  Such a row has one field per column and
    [raw_timestamp].  Seven of the parsers return these rows as their
    table.  On the example line the date and the time are two
    words, so [device_info] starts at [News]. *)
Theorem fixed_field_records :
  Forall (fun p => forall lines, snd p lines = Ok (flat_map (rows_for (fst p)) lines))
    fixed_field_parsers
  /\ Forall (fun p => forall lines,
               snd p lines = Ok (frame_of_rows (flat_map (rows_for (fst p)) lines)))
       fixed_field_tables
  /\ Forall (fun p => forall line row, In row (rows_for (fst p) line) ->
               List.length row = S (List.length (Config.get_columns (fst p))))
       fixed_field_parsers
  /\ (forall k s, split (after_words k s) = skipn k (split s))
  /\ (forall line, split (strip line) = split line)
  /\ (exists row,
        browsing_data [example_line] = Ok [row]
        /\ dict_get "raw_timestamp" row = Some "2024-01-01"
        /\ dict_get "device_info" row = Some "News Mozilla/5 extra tokens here").
Proof.
  split; [|split; [|split; [|split; [|split]]]].
  - repeat constructor; intros lines; cbn [fst snd].
    + apply browsing_data_spec.
    + apply virus_data_spec.
    + apply mail_data_spec.
    + apply firewall_data_spec.
    + apply auth_data_spec.
    + apply system_data_spec.
    + apply ids_data_spec.
    + apply vpn_data_spec.
  - repeat constructor; intros lines; cbn [fst snd].
    + unfold _parse_virus_logs. rewrite virus_data_spec. reflexivity.
    + unfold _parse_mail_logs. rewrite mail_data_spec. reflexivity.
    + unfold _parse_firewall_logs. rewrite firewall_data_spec. reflexivity.
    + unfold _parse_auth_logs. rewrite auth_data_spec. reflexivity.
    + unfold _parse_system_logs. rewrite system_data_spec. reflexivity.
    + unfold _parse_ids_logs. rewrite ids_data_spec. reflexivity.
    + unfold _parse_vpn_logs. rewrite vpn_data_spec. reflexivity.
  - repeat constructor; intros line row; cbn [fst];
      apply rows_for_length; cbn; lia.
  - exact split_after_words.
  - exact split_strip.
  - rewrite browsing_data_spec. eexists. split; [reflexivity|].
    split; reflexivity.
Qed.

End WithRuntime.

(** C3, the example as the specification states it: the last field of
    the example line is not the user agent alone, and the record has ten
    fields for nine columns. *)
Lemma example_line_device_info :
  exists row,
    browsing_data (R := Reference.runtime) [example_line] = Ok [row]
    /\ dict_get "device_info" row = Some "News Mozilla/5 extra tokens here"
    /\ dict_get "device_info" row <> Some "Mozilla/5 extra tokens here"
    /\ List.length row = 10
    /\ List.length (Config.get_columns "browsing") = 9.
Proof.
  eexists. split; [vm_compute; reflexivity|].
  split; [reflexivity|]. split; [discriminate|]. split; reflexivity.
Qed.

(** The amended statement at the example line, in the reference runtime:
    a row of ten fields. *)
Lemma fixed_field_records_witness :
  exists row,
    In row (rows_for (R := Reference.runtime) "browsing" example_line)
    /\ List.length row = 10.
Proof.
  destruct (fixed_field_records (R := Reference.runtime)) as (_ & _ & Hlen & _).
  pose proof (Forall_inv Hlen) as H. cbn [fst] in H.
  eexists. split.
  - vm_compute. left. reflexivity.
  - apply (H example_line). vm_compute. left. reflexivity.
Defined.

End FixedFieldFacts.

(* ================================================================= *)
(** ** Timestamps *)

Module TimestampFacts.
Import PyStr PyNum Utils LogParser.

(** The number a string of decimal digits denotes. *)
Fixpoint decimal (acc : Z) (s : string) : Z :=
  match s with
  | EmptyString => acc
  | String c s' => decimal (10 * acc + digit_val c) s'
  end.

Definition line_feed : string := String PyIO.LF EmptyString.

(** Two browsing lines: the first with an epoch timestamp, the second
    with a timestamp that is neither epoch seconds nor in the declared
    format. *)
Definition good_line : string :=
  "1704067200 10.0.0.1 alice http://a.com/x 2048 200 text/html News Mozilla/5".
Definition bad_line : string :=
  "notatime 10.0.0.2 bob http://b.com/y 1024 404 text/html News Mozilla/5".

Definition access_log : Utils.FileSystem :=
  Reference.one_file "access.log" (good_line ++ line_feed ++ bad_line ++ line_feed).

Lemma is_dec_not_space (c : ascii) : is_dec c = true -> isspace c = false.
Proof.
  destruct c as [[] [] [] [] [] [] [] []]; intros H;
    solve [reflexivity | discriminate H].
Qed.

Lemma is_dec_isdigit (c : ascii) : is_dec c = true -> isdigit_char c = true.
Proof. intros H; unfold isdigit_char; rewrite H; reflexivity. Qed.

Lemma is_dec_not_sign (c : ascii) :
  is_dec c = true -> c <> "-"%char /\ c <> "+"%char.
Proof. intros H; split; intros ->; discriminate H. Qed.

Lemma all_dec_isdigit (s : string) :
  all_chars is_dec s = true -> all_chars isdigit_char s = true.
Proof.
  induction s as [|c s IH]; simpl; [reflexivity|].
  intros H; apply andb_true_iff in H as [Hc Hs].
  rewrite (is_dec_isdigit c Hc), (IH Hs); reflexivity.
Qed.

Lemma rstrip_digits (s : string) : all_chars is_dec s = true -> rstrip s = s.
Proof.
  induction s as [|c s IH]; simpl; [reflexivity|].
  intros H; apply andb_true_iff in H as [Hc Hs].
  rewrite (IH Hs). destruct s; [|reflexivity].
  rewrite (is_dec_not_space c Hc); reflexivity.
Qed.

Lemma strip_digits (s : string) : all_chars is_dec s = true -> strip s = s.
Proof.
  intros H. unfold strip.
  assert (Hl : lstrip s = s).
  { destruct s as [|c s]; [reflexivity|]. simpl in *.
    apply andb_true_iff in H as [Hc _].
    rewrite (is_dec_not_space c Hc); reflexivity. }
  rewrite Hl. apply rstrip_digits; exact H.
Qed.

Lemma int_digits_dec (s : string) (acc : Z) :
  all_chars is_dec s = true -> int_digits s acc true = Some (decimal acc s).
Proof.
  revert acc; induction s as [|c s IH]; intros acc H; simpl; [reflexivity|].
  simpl in H; apply andb_true_iff in H as [Hc Hs].
  rewrite Hc. apply IH; exact Hs.
Qed.

Lemma count_digits_dec (s : string) :
  all_chars is_dec s = true -> count_digits s = N.of_nat (length s).
Proof.
  induction s as [|c s IH]; simpl; [reflexivity|].
  intros H; apply andb_true_iff in H as [Hc Hs].
  rewrite Hc, (IH Hs). lia.
Qed.

(** [int] of a string of decimal digits, whatever its length up to the
    limit of the interpreter. *)
Lemma py_int_digits (s : string) :
  all_chars is_dec s = true -> s <> EmptyString ->
  (N.of_nat (length s) <= max_str_digits)%N ->
  py_int s = Some (decimal 0 s).
Proof.
  intros H Hne Hlen. unfold py_int.
  rewrite (strip_digits s H), (count_digits_dec s H).
  destruct (max_str_digits <? N.of_nat (length s))%N eqn:E;
    [apply N.ltb_lt in E; lia|].
  destruct s as [|c s]; [contradiction|].
  pose proof H as H'. simpl in H'. apply andb_true_iff in H' as [Hc Hs].
  destruct (is_dec_not_sign c Hc) as [Hm Hp].
  assert (Hgo : int_digits (String c s) 0 false = Some (decimal 0 (String c s))).
  { simpl. rewrite Hc. apply int_digits_dec; exact Hs. }
  destruct c as [[] [] [] [] [] [] [] []]; try exact Hgo; congruence.
Qed.

Section WithRuntime.

Context {R : Runtime}.

(** When a record of the batch has a raw timestamp that [int] refuses,
    the conversion of the batch raises. *)
Lemma convert_all_raises (data : list str_row) (row : str_row) :
  In row data -> py_int (str_at "raw_timestamp" row) = None ->
  exists e, convert_all data = Raise e.
Proof.
  induction data as [|r data IH]; intros Hin Hbad; [contradiction|].
  cbn [convert_all]. destruct Hin as [-> | Hin].
  - unfold browsing_convert, astype_int. rewrite Hbad. eexists; reflexivity.
  - destruct (browsing_convert r) as [r'|e]; [|eexists; reflexivity].
    cbn [bind]. destruct (IH Hin Hbad) as [e He]. rewrite He.
    eexists; reflexivity.
Qed.

(** When a line of the batch yields a record whose raw timestamp [int]
    refuses, [_parse_browsing_logs] raises: no record of the batch is
    returned. *)
Lemma browsing_bad_timestamp_raises (lines : list string) (row : str_row) :
  In row (flat_map (FixedFieldFacts.rows_for "browsing") lines) ->
  py_int (str_at "raw_timestamp" row) = None ->
  exists e, _parse_browsing_logs lines = Raise e.
Proof.
  intros Hin Hbad. unfold _parse_browsing_logs.
  rewrite FixedFieldFacts.browsing_data_spec. cbn [bind].
  destruct (convert_all_raises _ row Hin Hbad) as [e He].
  destruct (flat_map _ lines); [contradiction|].
  rewrite He. eexists; reflexivity.
Qed.

End WithRuntime.

(** The test before the epoch path is [isdigit], whatever the length:
    every string of decimal digits, up to the interpreter's limit, is
    read as epoch seconds, and [strptime] is not asked. *)
Lemma digits_take_the_epoch_path (R : Runtime) (s t : string) :
  all_chars is_dec s = true -> s <> EmptyString ->
  (N.of_nat (length s) <= max_str_digits)%N ->
  format_timestamp (TStr s) t = format_epoch (decimal 0 s).
Proof.
  intros H Hne Hlen. unfold format_timestamp.
  assert (Hd : isdigit s = true).
  { destruct s; [contradiction|]. apply all_dec_isdigit; exact H. }
  rewrite Hd, (py_int_digits s H Hne Hlen). reflexivity.
Qed.

(** C2 at its failing input.  The format of the browsing logs is
    [%Y%m%d%H%M%S], and [strptime] reads 20240101000000 under it as the
    first second of 2024, the instant that 1704067200 is formatted as.
    But [format_timestamp] does not ask [strptime]: the fourteen digits
    pass [isdigit], are read as epoch seconds, lie beyond the year 9999
    and come back unchanged, so that the value is not normalized; the
    derived [datetime] of a browsing record with that raw timestamp is
    null, where the one of 1704067200 is the instant.  The same holds of
    every string of digits: none reaches the branch of [strptime]. *)
Theorem compact_timestamp_is_read_as_epoch :
  Config.get_datetime_format "browsing" = "%Y%m%d%H%M%S"
  /\ Reference.strptime_compact "20240101000000" "%Y%m%d%H%M%S"
     = Some (mk_datetime 2024 1 1 0 0 0)
  /\ strftime (mk_datetime 2024 1 1 0 0 0) = "2024-01-01 00:00:00"
  /\ format_timestamp (R := Reference.runtime) (TStr "1704067200") "browsing"
     = "2024-01-01 00:00:00"
  /\ isdigit "20240101000000" = true
  /\ format_timestamp (R := Reference.runtime) (TStr "20240101000000") "browsing"
     = format_epoch (R := Reference.runtime) 20240101000000
  /\ format_timestamp (R := Reference.runtime) (TStr "20240101000000") "browsing"
     = "20240101000000"
  /\ (astype_int "1704067200" = Ok 1704067200%Z
      /\ to_datetime_s 1704067200 = Some 1704067200%Z
      /\ strftime (gmtime 1704067200) = "2024-01-01 00:00:00")
  /\ (astype_int "20240101000000" = Ok 20240101000000%Z
      /\ to_datetime_s 20240101000000 = None)
  /\ (forall (R : Runtime) (s t : string),
        all_chars is_dec s = true -> s <> EmptyString ->
        (N.of_nat (length s) <= max_str_digits)%N ->
        format_timestamp (TStr s) t = format_epoch (decimal 0 s)).
Proof.
  split; [reflexivity|].
  split; [vm_compute; reflexivity|].
  split; [vm_compute; reflexivity|].
  split; [vm_compute; reflexivity|].
  split; [vm_compute; reflexivity|].
  split.
  { apply (digits_take_the_epoch_path Reference.runtime "20240101000000" "browsing");
      [reflexivity | discriminate | vm_compute; discriminate]. }
  split; [vm_compute; reflexivity|].
  split; [split; [|split]; vm_compute; reflexivity|].
  split; [split; vm_compute; reflexivity|].
  exact digits_take_the_epoch_path.
Qed.

(** C1 at its failing input.  A file of two browsing lines, the second
    with the timestamp [notatime]: both lines yield a record,
    [format_timestamp] leaves [notatime] as it is, and then
    [astype(int)] raises, so that [parse_file] returns the empty table
    of the [except] clause: the good record is lost with the bad one. *)
Theorem bad_timestamp_empties_the_table :
  (exists row1 row2,
      browsing_data (R := Reference.runtime) [good_line; bad_line] = Ok [row1; row2]
      /\ dict_get "raw_timestamp" row2 = Some "notatime"
      /\ dict_get "timestamp" row2 = Some "notatime")
  /\ isdigit "notatime" = false
  /\ strptime (Runtime := Reference.runtime) "notatime"
       (Config.get_datetime_format "browsing") = None
  /\ _parse_browsing_logs (R := Reference.runtime) [good_line; bad_line] = Raise ValueError
  /\ option_map frame_len
       (match _parse_browsing_logs (R := Reference.runtime) [good_line] with
        | Ok df => Some df
        | Raise _ => None
        end) = Some 1
  /\ fst (parse_file (R := Reference.runtime) (__init__ None) access_log "access.log")
     = DataFrame_columns (Config.get_columns "browsing")
  /\ frame_len (fst (parse_file (R := Reference.runtime) (__init__ None) access_log
                       "access.log")) = 0.
Proof.
  split.
  { eexists; eexists. split; [vm_compute; reflexivity|]. split; reflexivity. }
  split; [vm_compute; reflexivity|].
  split; [vm_compute; reflexivity|].
  split; [apply raised_inv; vm_compute; reflexivity|].
  split; [vm_compute; reflexivity|].
  split; [|vm_compute; reflexivity].
  apply empty_frame_inv; vm_compute; reflexivity.
Qed.

End TimestampFacts.

(* ================================================================= *)
(** ** The log-type classifier *)

Module ClassifierFacts.
Import PyStr LogParser.

Section WithRuntime.

Context {R : Runtime}.

(** The four structured checks on the first sample line, as tests. *)
Definition looks_json (l : string) : bool := startswith "{" (strip l) && json_ok l.
Definition looks_clf (l : string) : bool := Re.matches clf_detect_pattern (strip l).
Definition looks_elf (l : string) : bool := startswith "#Fields:" (strip l).
Definition looks_syslog (l : string) : bool := Re.matches syslog_detect_pattern (strip l).

Lemma detect_unfold (self : parser) (first : string) (rest : list string) :
  _detect_log_format_from_content self (first :: rest) =
  if looks_json first then set_log_type self "json"
  else if looks_clf first then set_log_type self "clf"
  else if looks_elf first then set_log_type self "elf"
  else if looks_syslog first then set_log_type self "syslog"
  else configure match scan_keywords (first :: rest) with
                 | Some t => t
                 | None => log_type self
                 end.
Proof.
  unfold _detect_log_format_from_content, first_line,
    looks_json, looks_clf, looks_elf, looks_syslog.
  reflexivity.
Qed.

(** C5, as amended.  A sample whose first line, stripped, begins with an
    opening brace and parses as JSON is classified [json], whatever the
    later lines contain; then come, in this order, the Common Log Format
    pattern, the [#Fields:] directive and the syslog pattern, each on the
    first line only; the keywords are looked for only when none of the
    four applies, and when no line has a keyword the log type stays what
    it was.  (An opening bracket is not among the tests.) *)
Theorem structured_checks_first (self : parser) (first : string) (rest : list string) :
  (looks_json first = true ->
   log_type (_detect_log_format_from_content self (first :: rest)) = "json")
  /\ (looks_json first = false -> looks_clf first = true ->
      log_type (_detect_log_format_from_content self (first :: rest)) = "clf")
  /\ (looks_json first = false -> looks_clf first = false -> looks_elf first = true ->
      log_type (_detect_log_format_from_content self (first :: rest)) = "elf")
  /\ (looks_json first = false -> looks_clf first = false -> looks_elf first = false ->
      looks_syslog first = true ->
      log_type (_detect_log_format_from_content self (first :: rest)) = "syslog")
  /\ (looks_json first = false -> looks_clf first = false -> looks_elf first = false ->
      looks_syslog first = false ->
      log_type (_detect_log_format_from_content self (first :: rest)) =
      match scan_keywords (first :: rest) with
      | Some t => t
      | None => log_type self
      end).
Proof.
  rewrite detect_unfold.
  split; [intros -> | split; [intros -> -> | split; [intros -> -> -> |
    split; [intros -> -> -> -> | intros -> -> -> ->]]]]; reflexivity.
Qed.

End WithRuntime.

(** The amended statement at a sample whose first line is an empty JSON
    object and whose second line names a virus. *)
Lemma structured_checks_first_witness :
  log_type (_detect_log_format_from_content (R := Reference.runtime) (__init__ None)
              ["{}"; "virus found in file"]) = "json".
Proof.
  apply (proj1 (structured_checks_first (R := Reference.runtime) (__init__ None)
                  "{}" ["virus found in file"])).
  vm_compute. reflexivity.
Defined.

(** C5, as the specification states it: a first line that begins with an
    opening bracket and is valid JSON does not make the sample [json];
    the keyword of the second line decides. *)
Lemma json_array_not_classified_json :
  startswith "[" (strip "[1, 2]") = true
  /\ json_ok (R := Reference.runtime) "[1, 2]" = true
  /\ log_type (_detect_log_format_from_content (R := Reference.runtime) (__init__ None)
                 ["[1, 2]"; "virus found in file"]) = "virus".
Proof. repeat apply conj; vm_compute; reflexivity. Qed.

End ClassifierFacts.

(* ================================================================= *)
(** ** The container sniffer *)

Module SnifferFacts.
Import PyStr LogParser.

Section WithRuntime.

Context {R : Runtime}.

(** No test on the first line applies. *)
Definition no_first_line_trigger (l : string) : bool :=
  negb ((startswith "{" l || startswith "[" l) && json_ok l)
  && negb (startswith "<" l)
  && negb (contains "," l).

Lemma startswith_xml (l : string) : startswith "<" l = false -> startswith "<?xml" l = false.
Proof.
  unfold startswith. destruct l as [|c l]; [reflexivity|].
  cbn [prefix]. destruct (ascii_dec "<" c) as [Hc|Hc]; [|reflexivity].
  intros H; destruct l; discriminate H.
Qed.

Lemma plain_first_line (l : string) :
  no_first_line_trigger l = true -> format_of_first_line l = "plain".
Proof.
  unfold no_first_line_trigger, format_of_first_line. intros H.
  apply andb_true_iff in H as [H Hcomma]. apply andb_true_iff in H as [Hjson Hxml].
  apply negb_true_iff in Hjson, Hxml, Hcomma.
  rewrite Hjson, (startswith_xml l Hxml), Hxml, Hcomma. reflexivity.
Qed.

(** The tests on the first line, in their order. *)
Lemma first_line_cases (l : string) :
  let json_like := (startswith "{" l || startswith "[" l) && json_ok l in
  (json_like = true -> format_of_first_line l = "json")
  /\ (json_like = false -> startswith "<" l = true -> format_of_first_line l = "xml")
  /\ (json_like = false -> startswith "<" l = false -> contains "," l = true ->
      format_of_first_line l = "csv")
  /\ (json_like = false -> startswith "<" l = false -> contains "," l = false ->
      format_of_first_line l = "plain").
Proof.
  cbn zeta. unfold format_of_first_line.
  split; [intros ->; reflexivity|].
  split; [intros -> ->; rewrite orb_true_r; reflexivity|].
  split.
  - intros -> Hx Hc. rewrite (startswith_xml l Hx), Hx, Hc.
    rewrite CommaFacts.split_sep_two by exact Hc. reflexivity.
  - intros -> Hx Hc. rewrite (startswith_xml l Hx), Hx, Hc. reflexivity.
Qed.

(** C6, as amended.  For a path whose extension is none of the known
    ones and whose first eight bytes carry no magic number and no byte
    outside the text set, [_detect_file_format] goes on to the first
    line of the file, stripped: the answer is [json] when that line
    begins with an opening brace or bracket and parses as JSON, else
    [xml] when it begins with an angle bracket, else [csv] when it
    contains a comma, and [plain] when none of these applies.  For an
    uploaded buffer read from its start there is no test on the first
    line, and the answer is [plain]. *)
Theorem sniffer_default (fs : Utils.FileSystem) (file_path : string) (content : list byte)
    (f : UploadedFile) :
  (format_of_extension (lower (splitext_ext file_path)) = None ->
   fs file_path = Some content ->
   format_of_magic (firstn 8 content) = None ->
   is_binary (firstn 8 content) = false ->
   _detect_file_format fs file_path
   = format_of_first_line (strip (PyIO.readline (decode_locale content)))
   /\ (no_first_line_trigger (strip (PyIO.readline (decode_locale content))) = true ->
       _detect_file_format fs file_path = "plain"))
  /\ (forall l,
        let json_like := (startswith "{" l || startswith "[" l) && json_ok l in
        (json_like = true -> format_of_first_line l = "json")
        /\ (json_like = false -> startswith "<" l = true ->
            format_of_first_line l = "xml")
        /\ (json_like = false -> startswith "<" l = false -> contains "," l = true ->
            format_of_first_line l = "csv")
        /\ (json_like = false -> startswith "<" l = false -> contains "," l = false ->
            format_of_first_line l = "plain"))
  /\ (format_of_extension (lower (splitext_ext (lower (name f)))) = None ->
      pos f = 0 ->
      format_of_magic (firstn 8 (data f)) = None ->
      is_binary (firstn 8 (data f)) = false ->
      fst (_detect_uploaded_file_format f) = "plain").
Proof.
  split.
  2: split; [exact first_line_cases|].
  - intros Hext Hfs Hmagic Hbin.
    assert (E : _detect_file_format fs file_path
                = format_of_first_line (strip (PyIO.readline (decode_locale content)))).
    { unfold _detect_file_format. rewrite Hext, Hfs, Hmagic, Hbin. reflexivity. }
    split; [exact E|]. intros Hl. rewrite E. apply plain_first_line; exact Hl.
  - intros Hext Hpos Hmagic Hbin.
    unfold _detect_uploaded_file_format. rewrite Hext.
    unfold read_n. rewrite Hpos. cbn [skipn]. rewrite Hmagic, Hbin. reflexivity.
Qed.

End WithRuntime.

Definition words_log : Utils.FileSystem := Reference.one_file "access.log" "plain words".
Definition comma_log : Utils.FileSystem := Reference.one_file "access.log" "a,b".

(** The amended statement at a file of two words. *)
Lemma sniffer_default_witness :
  _detect_file_format (R := Reference.runtime) words_log "access.log" = "plain".
Proof.
  apply (proj1 (sniffer_default (R := Reference.runtime) words_log "access.log"
                  (Reference.bytes_of "plain words") (mk_upload "access.log" [] 0)));
    reflexivity.
Defined.

(** C6, as the specification states it: the extension is unknown, the
    header has no magic number and only text bytes, and yet the answer is
    not [plain], since the first line contains a comma. *)
Lemma comma_file_is_csv :
  format_of_extension (lower (splitext_ext "access.log")) = None
  /\ format_of_magic (firstn 8 (Reference.bytes_of "a,b")) = None
  /\ is_binary (firstn 8 (Reference.bytes_of "a,b")) = false
  /\ _detect_file_format (R := Reference.runtime) comma_log "access.log" = "csv".
Proof. repeat apply conj; vm_compute; reflexivity. Qed.

End SnifferFacts.

(* ================================================================= *)
(** ** The entry points: declared type, detection and the parser object *)

Module EntryPointFacts.
Import PyStr LogParser.

Section WithRuntime.

Context {R : Runtime}.

(** The lines [parse_file] hands to the parser. *)
Definition file_lines (fs : Utils.FileSystem) (file_path : string) : list string :=
  _read_file_by_format fs file_path (_detect_file_format fs file_path).

(** The parser object as a call of [parse_file] leaves it. *)
Definition settled (self : parser) (fs : Utils.FileSystem) (file_path : string) : parser :=
  detect_by_content (detect_by_file self fs file_path) (file_lines fs file_path).

Lemma parse_file_body_eq (self : parser) (fs : Utils.FileSystem) (file_path : string) :
  parse_file_body self fs file_path
  = (dispatch_file (settled self fs file_path) (file_lines fs file_path),
     settled self fs file_path).
Proof. reflexivity. Qed.

Lemma parse_file_eq (self : parser) (fs : Utils.FileSystem) (file_path : string) :
  parse_file self fs file_path
  = (try_except (dispatch_file (settled self fs file_path) (file_lines fs file_path))
       (fun _ => DataFrame_columns (columns (settled self fs file_path))),
     settled self fs file_path).
Proof. reflexivity. Qed.

Lemma is_type_configure (t u : string) : is_type (configure t) u = String.eqb t u.
Proof. reflexivity. Qed.

Lemma is_type_set (self : parser) (t u : string) :
  is_type (set_log_type self t) u = String.eqb t u.
Proof. reflexivity. Qed.

(** A parser whose type is not the default is left as it is. *)
Lemma settled_declared (self : parser) (fs : Utils.FileSystem) (file_path : string) :
  is_type self Config.DEFAULT_LOG_TYPE = false -> settled self fs file_path = self.
Proof.
  intros H. unfold settled, detect_by_file. rewrite H.
  unfold detect_by_content. rewrite H. reflexivity.
Qed.

(** The classifier run again on the parser it produced, over the same
    sample, changes nothing. *)
Lemma detect_idem (self : parser) (sample : list string) :
  _detect_log_format_from_content (_detect_log_format_from_content self sample) sample
  = _detect_log_format_from_content self sample.
Proof.
  destruct sample as [|first rest]; [reflexivity|].
  rewrite !ClassifierFacts.detect_unfold.
  destruct (ClassifierFacts.looks_json first); [reflexivity|].
  destruct (ClassifierFacts.looks_clf first); [reflexivity|].
  destruct (ClassifierFacts.looks_elf first); [reflexivity|].
  destruct (ClassifierFacts.looks_syslog first); [reflexivity|].
  destruct (scan_keywords (first :: rest)); reflexivity.
Qed.

Lemma settled_default (self : parser) (fs : Utils.FileSystem) (file_path : string) :
  is_type self Config.DEFAULT_LOG_TYPE = true ->
  String.eqb (Utils.detect_log_type fs file_path) (log_type self) = true ->
  settled self fs file_path
  = _detect_log_format_from_content self (firstn 10 (file_lines fs file_path)).
Proof.
  intros Hd Hdet. unfold settled, detect_by_file. rewrite Hd, Hdet. cbn [negb].
  unfold detect_by_content. rewrite Hd. reflexivity.
Qed.

Lemma settled_detected (self : parser) (fs : Utils.FileSystem) (file_path : string) :
  is_type self Config.DEFAULT_LOG_TYPE = true ->
  String.eqb (Utils.detect_log_type fs file_path) (log_type self) = false ->
  settled self fs file_path = configure (Utils.detect_log_type fs file_path)
  /\ is_type (configure (Utils.detect_log_type fs file_path)) Config.DEFAULT_LOG_TYPE = false.
Proof.
  intros Hd Hdet.
  assert (Hn : is_type (configure (Utils.detect_log_type fs file_path))
                 Config.DEFAULT_LOG_TYPE = false).
  { rewrite is_type_configure. apply String.eqb_neq. apply String.eqb_neq in Hdet.
    apply String.eqb_eq in Hd. congruence. }
  split; [|exact Hn].
  unfold settled, detect_by_file. rewrite Hd, Hdet. cbn [negb].
  unfold detect_by_content. rewrite Hn. reflexivity.
Qed.

(** A second call on the same file leaves the parser as the first call
    left it. *)
Lemma settled_again (self : parser) (fs : Utils.FileSystem) (file_path : string) :
  settled (settled self fs file_path) fs file_path = settled self fs file_path.
Proof.
  destruct (is_type self Config.DEFAULT_LOG_TYPE) eqn:Hd.
  2:{ rewrite !(settled_declared self) by exact Hd. reflexivity. }
  destruct (String.eqb (Utils.detect_log_type fs file_path) (log_type self)) eqn:Hdet.
  2:{ destruct (settled_detected self fs file_path Hd Hdet) as [-> Hn].
      apply settled_declared; exact Hn. }
  rewrite (settled_default self fs file_path Hd Hdet).
  set (sample := firstn 10 (file_lines fs file_path)).
  destruct (is_type (_detect_log_format_from_content self sample)
              Config.DEFAULT_LOG_TYPE) eqn:E.
  2:{ apply settled_declared; exact E. }
  rewrite settled_default; [apply detect_idem | exact E |].
  apply String.eqb_eq in Hdet, Hd, E. apply String.eqb_eq. congruence.
Qed.

(** Nothing is read from an unreadable path. *)
Lemma no_lines_when_unreadable (fs : Utils.FileSystem) (file_path file_format : string) :
  fs file_path = None -> _read_file_by_format fs file_path file_format = [].
Proof.
  intros H. unfold _read_file_by_format, read_plain. rewrite H. reflexivity.
Qed.

(** Without lines, the table of a call has no rows, whichever parser is
    chosen and whether it returns or raises. *)
Lemma dispatch_file_nil (self : parser) :
  frame_len (try_except (dispatch_file self [])
               (fun _ => DataFrame_columns (columns self))) = 0.
Proof.
  unfold dispatch_file.
  repeat match goal with
         | |- context [if is_type self ?t then _ else _] => destruct (is_type self t)
         end;
    try reflexivity.
  unfold _parse_json_format. cbn [json_data bind].
  destruct (frame_error []); reflexivity.
Qed.

Lemma fallback_to_plain_text (fs : Utils.FileSystem) (file_path file_format : string)
    (content : list byte) :
  fs file_path = Some content -> read_as file_format content = None ->
  _read_file_by_format fs file_path file_format = lines_of_text content.
Proof.
  intros Hfs Hfail. unfold _read_file_by_format, read_plain. rewrite Hfs, Hfail.
  reflexivity.
Qed.

Lemma upload_fallback_to_plain_text (f : UploadedFile) (file_format : string) :
  read_upload_as file_format (skipn (pos f) (data f)) = None ->
  fst (_read_uploaded_file_by_format f file_format)
  = PyIO.splitlines (decode_utf8 (data f)).
Proof.
  intros Hfail. unfold _read_uploaded_file_by_format, read_all.
  rewrite Hfail. reflexivity.
Qed.

(** C7.  [parse_file] returns a table for every parser, file system and
    path: the table of the chosen parser, or, when that parser raised,
    the table without rows of the [except] clause.  When reading the file
    in its detected format fails, the lines are those of the plain-text
    read of the same file; when the file cannot be opened there are no
    lines, and the table has no rows.  The same holds for
    [parse_uploaded_file], whose plain-text read starts again from the
    first byte. *)
Theorem parse_always_returns_a_table (self : parser) (fs : Utils.FileSystem)
    (file_path : string) (f : UploadedFile) :
  ((exists df, fst (parse_file_body self fs file_path) = Ok df
               /\ fst (parse_file self fs file_path) = df)
   \/ (exists e, fst (parse_file_body self fs file_path) = Raise e
                 /\ fst (parse_file self fs file_path)
                    = DataFrame_columns (columns (snd (parse_file self fs file_path)))
                 /\ frame_len (fst (parse_file self fs file_path)) = 0))
  /\ (forall file_format content,
        fs file_path = Some content -> read_as file_format content = None ->
        _read_file_by_format fs file_path file_format = lines_of_text content)
  /\ (fs file_path = None ->
      (forall file_format, _read_file_by_format fs file_path file_format = [])
      /\ frame_len (fst (parse_file self fs file_path)) = 0)
  /\ ((exists df, fst (fst (parse_uploaded_file_body self f)) = Ok df
                  /\ fst (fst (parse_uploaded_file self f)) = df)
      \/ (exists e, fst (fst (parse_uploaded_file_body self f)) = Raise e
                    /\ frame_len (fst (fst (parse_uploaded_file self f))) = 0))
  /\ (forall file_format,
        read_upload_as file_format (skipn (pos f) (data f)) = None ->
        fst (_read_uploaded_file_by_format f file_format)
        = PyIO.splitlines (decode_utf8 (data f))).
Proof.
  split; [|split; [|split; [|split]]].
  - rewrite parse_file_eq, parse_file_body_eq. cbn [fst snd].
    destruct (dispatch_file _ _) as [df|e].
    + left. exists df. split; reflexivity.
    + right. exists e. repeat split; reflexivity.
  - intros file_format content. apply fallback_to_plain_text.
  - intros Hfs. split; [intros; apply no_lines_when_unreadable; exact Hfs|].
    rewrite parse_file_eq. cbn [fst]. unfold file_lines.
    rewrite (no_lines_when_unreadable fs file_path _ Hfs).
    apply dispatch_file_nil.
  - unfold parse_uploaded_file, parse_uploaded_file_body.
    destruct (_detect_uploaded_file_format f) as [file_format f1].
    destruct (_read_uploaded_file_by_format f1 file_format) as [lines f2].
    cbn [fst snd]. destruct (dispatch_upload _ _) as [df|e].
    + left. exists df. split; reflexivity.
    + right. exists e. split; reflexivity.
  - intros file_format. apply upload_fallback_to_plain_text.
Qed.

(** C8, as amended.  A call of [parse_file] leaves the parser object as
    it found it when the log type of the object is not the default type;
    a second call on the same file leaves the object as the first call
    left it; and the table of a call comes from one parser, the one the
    object names once detection is over, applied to all the lines of the
    file. *)
Theorem parser_configuration (self : parser) (fs : Utils.FileSystem) (file_path : string) :
  (is_type self Config.DEFAULT_LOG_TYPE = false ->
   snd (parse_file self fs file_path) = self)
  /\ snd (parse_file (snd (parse_file self fs file_path)) fs file_path)
     = snd (parse_file self fs file_path)
  /\ fst (parse_file_body self fs file_path)
     = dispatch_file (snd (parse_file self fs file_path)) (file_lines fs file_path).
Proof.
  rewrite !parse_file_eq, parse_file_body_eq. cbn [fst snd].
  split; [apply settled_declared | split; [apply settled_again | reflexivity]].
Qed.

(** C9.  Parsing the same source twice gives the same table, also when
    the second call reuses the parser object of the first, whatever the
    first call wrote into it: for a parser made for any declared type
    (and for any parser object), for a path in the same file system and
    for an uploaded buffer with the same name and bytes, read from the
    same position.  (Two parser objects made for the same declared type
    are equal, and so are their tables.) *)
Theorem parse_twice_same_table (declared : option string) (self : parser)
    (fs : Utils.FileSystem) (file_path : string) (f : UploadedFile) :
  fst (parse_file (snd (parse_file (__init__ declared) fs file_path)) fs file_path)
  = fst (parse_file (__init__ declared) fs file_path)
  /\ fst (parse_file (snd (parse_file self fs file_path)) fs file_path)
     = fst (parse_file self fs file_path)
  /\ fst (fst (parse_uploaded_file (snd (fst (parse_uploaded_file self f))) f))
     = fst (fst (parse_uploaded_file self f)).
Proof.
  assert (Hfile : forall p, fst (parse_file (snd (parse_file p fs file_path)) fs file_path)
                            = fst (parse_file p fs file_path)).
  { intros p. rewrite !parse_file_eq. cbn [fst snd]. rewrite settled_again. reflexivity. }
  split; [apply Hfile|]. split; [apply Hfile|].
  unfold parse_uploaded_file, parse_uploaded_file_body.
  destruct (_detect_uploaded_file_format f) as [file_format f1].
  destruct (_read_uploaded_file_by_format f1 file_format) as [lines f2].
  cbn [fst snd]. rewrite detect_idem. reflexivity.
Qed.

End WithRuntime.

Definition mail_line : string :=
  "1704067200 alice@example.com bob@example.com hello 512 delivered 0 1".

Definition mail_upload : UploadedFile :=
  mk_upload "mail.log" (Reference.bytes_of (mail_line ++ TimestampFacts.line_feed)) 0.

Definition mail_log : Utils.FileSystem :=
  Reference.one_file "mail.log" (mail_line ++ TimestampFacts.line_feed).

Definition virus_log : Utils.FileSystem :=
  Reference.one_file "scan.log" "virus found in file".

(** C4 at its failing input.  A mail log uploaded to a parser made for
    the declared type [mail]: the classifier runs all the same, takes the
    line for a browsing line (an address ending in [.com] and the number
    512), and the browsing parser drops the line, which the mail parser
    reads.  [parse_file], given the same bytes and the same declared
    type, keeps [mail] and returns the record. *)
Theorem declared_type_overridden_on_upload :
  log_type (snd (fst (parse_uploaded_file (R := Reference.runtime)
                        (__init__ (Some "mail")) mail_upload))) = "browsing"
  /\ frame_len (fst (fst (parse_uploaded_file (R := Reference.runtime)
                            (__init__ (Some "mail")) mail_upload))) = 0
  /\ option_map frame_len
       (match _parse_mail_logs (R := Reference.runtime) [mail_line] with
        | Ok df => Some df
        | Raise _ => None
        end) = Some 1
  /\ log_type (snd (parse_file (R := Reference.runtime) (__init__ (Some "mail"))
                      mail_log "mail.log")) = "mail"
  /\ frame_len (fst (parse_file (R := Reference.runtime) (__init__ (Some "mail"))
                       mail_log "mail.log")) = 1.
Proof.
  split; [vm_compute; reflexivity|].
  split; [vm_compute; reflexivity|].
  split; [vm_compute; reflexivity|].
  split; vm_compute; reflexivity.
Qed.

Definition csv_upload : UploadedFile :=
  mk_upload "events.csv"
    (Reference.bytes_of ("h1,h2" ++ TimestampFacts.line_feed ++ "1,2"
                         ++ TimestampFacts.line_feed)) 0.

(** The file object and the parser object as the first call leaves them. *)
Definition csv_upload_after : UploadedFile :=
  snd (parse_uploaded_file (R := Reference.runtime) (__init__ (Some "csv")) csv_upload).
Definition csv_parser_after : parser :=
  snd (fst (parse_uploaded_file (R := Reference.runtime) (__init__ (Some "csv")) csv_upload)).

(** The position of an uploaded file is part of the source.  An uploaded
    file named [events.csv], a header and one row, parsed by a parser
    made for [csv]: the call returns the record and leaves the position
    of the file object at its end; a call on the file object as it then
    is keeps the format given by the extension, reads from that position,
    finds nothing and returns the empty table, and a call on it once it
    is rewound returns the record again. *)
Remark upload_position_matters :
  frame_len (fst (fst (parse_uploaded_file (R := Reference.runtime)
                         (__init__ (Some "csv")) csv_upload))) = 1
  /\ pos csv_upload_after = List.length (data csv_upload)
  /\ csv_parser_after = __init__ (Some "csv")
  /\ frame_len (fst (fst (parse_uploaded_file (R := Reference.runtime)
                            csv_parser_after csv_upload_after))) = 0
  /\ frame_len (fst (fst (parse_uploaded_file (R := Reference.runtime)
                            csv_parser_after (seek0 csv_upload_after)))) = 1.
Proof.
  split; [vm_compute; reflexivity|].
  split; [vm_compute; reflexivity|].
  split; [vm_compute; reflexivity|].
  split; vm_compute; reflexivity.
Qed.

(** The statement of C7 at a path that cannot be opened. *)
Lemma parse_always_returns_a_table_witness :
  frame_len (fst (parse_file (R := Reference.runtime) (__init__ None)
                    (fun _ => None) "missing.log")) = 0.
Proof.
  apply (proj1 (proj2 (proj2 (parse_always_returns_a_table (R := Reference.runtime)
                                (__init__ None) (fun _ => None) "missing.log"
                                mail_upload)))).
  reflexivity.
Defined.

(** The amended statement of C8 at a parser made for [mail]. *)
Lemma parser_configuration_witness :
  snd (parse_file (R := Reference.runtime) (__init__ (Some "mail")) mail_log "mail.log")
  = __init__ (Some "mail").
Proof.
  apply (proj1 (parser_configuration (R := Reference.runtime) (__init__ (Some "mail"))
                  mail_log "mail.log")).
  reflexivity.
Defined.

(** C8, as the specification states it: a parser made without a declared
    type starts its second call with another configuration than its
    first, the one detection wrote during the first call. *)
Lemma configuration_changes_between_calls :
  log_type (__init__ None) = "browsing"
  /\ log_type (snd (parse_file (R := Reference.runtime) (__init__ None)
                      virus_log "scan.log")) = "virus"
  /\ columns (snd (parse_file (R := Reference.runtime) (__init__ None)
                     virus_log "scan.log")) = Config.get_columns "virus"
  /\ snd (parse_file (R := Reference.runtime) (__init__ None) virus_log "scan.log")
     <> __init__ None.
Proof.
  split; [reflexivity|].
  split; [vm_compute; reflexivity|].
  split; [vm_compute; reflexivity|].
  vm_compute. discriminate.
Qed.

End EntryPointFacts.

(* ================================================================= *)
(** ** The CSV parser *)

Module CsvFacts.
Import PyStr PyCsv LogParser CommaFacts.

(** A character that is neither a quote nor a line end. *)
Definition plain_char (c : ascii) : bool := negb (Ascii.eqb c quotechar || is_newline c).

(** The line ends a row may carry: none, or one line feed. *)
Definition line_end (e : string) : Prop := e = EmptyString \/ e = String PyIO.LF EmptyString.

Lemma add_char_ok (r : reader) (c : ascii) (next : state) :
  (N.of_nat (length (field r)) < field_limit)%N ->
  add_char r c next = Ok (mk_reader next (field r ++ String c EmptyString) (fields r)).
Proof.
  intros H. unfold add_char.
  destruct (field_limit <=? N.of_nat (length (field r)))%N eqn:E; [|reflexivity].
  apply N.leb_le in E. lia.
Qed.

(** One plain character read in the middle of a row. *)
Lemma process_plain_char (st0 : state) (cur : string) (fs : list string) (c : ascii) :
  st0 = START_FIELD \/ st0 = IN_FIELD ->
  plain_char c = true ->
  (N.of_nat (length cur) < field_limit)%N ->
  process_char (mk_reader st0 cur fs) (Some c)
  = if Ascii.eqb c delimiter
    then Ok (mk_reader START_FIELD EmptyString (fs ++ [cur])%list)
    else Ok (mk_reader IN_FIELD (cur ++ String c EmptyString) fs).
Proof.
  intros Hst Hc Hlen. unfold plain_char in Hc.
  apply negb_true_iff, orb_false_iff in Hc as [Hq Hn].
  unfold process_char. destruct Hst as [-> | ->]; cbn [st]; rewrite Hn, ?Hq;
    destruct (Ascii.eqb c delimiter); try reflexivity;
    apply (add_char_ok (mk_reader _ cur fs)); exact Hlen.
Qed.

(** The end of a row read in the middle of a row. *)
Lemma feed_line_end (st0 : state) (cur : string) (fs : list string) (e : string) :
  st0 = START_FIELD \/ st0 = IN_FIELD -> line_end e ->
  feed (mk_reader st0 cur fs) e = Ok (mk_reader START_RECORD EmptyString (fs ++ [cur])%list).
Proof.
  intros [-> | ->] [-> | ->]; reflexivity.
Qed.

Lemma feed_plain (s : string) : forall (st0 : state) (cur : string) (fs : list string) (e : string),
  st0 = START_FIELD \/ st0 = IN_FIELD -> line_end e ->
  all_chars plain_char s = true ->
  (N.of_nat (length cur + length s) <= field_limit)%N ->
  feed (mk_reader st0 cur fs) (s ++ e)
  = Ok (mk_reader START_RECORD EmptyString (fs ++ cut cur s)%list).
Proof.
  induction s as [|c s IH]; intros st0 cur fs e Hst He Hall Hlen.
  - cbn [append cut]. apply feed_line_end; assumption.
  - cbn [all_chars] in Hall. apply andb_true_iff in Hall as [Hc Hs].
    cbn [append feed]. cbn [length] in Hlen.
    rewrite (process_plain_char st0 cur fs c Hst Hc) by lia.
    cbn [cut]. destruct (Ascii.eqb c delimiter); cbn [bind].
    + rewrite IH; [|left; reflexivity|exact He|exact Hs|cbn [length]; lia].
      rewrite <- app_assoc. reflexivity.
    + rewrite IH; [reflexivity|right; reflexivity|exact He|exact Hs|].
      rewrite length_snoc. lia.
Qed.

(** A first line without quotes is the header, and the rows are read
    from the lines that follow. *)
Lemma csv_reader_plain_line (first e : string) (rest : list string) :
  all_chars plain_char first = true -> first <> EmptyString -> line_end e ->
  (N.of_nat (length first) <= field_limit)%N ->
  csv_reader ((first ++ e) :: rest) = Next (cut EmptyString first) (csv_reader rest).
Proof.
  intros Hall Hne He Hlen. unfold csv_reader. cbn [read].
  assert (Hfeed : feed reset (first ++ e)
                  = Ok (mk_reader START_RECORD EmptyString (cut EmptyString first))).
  { destruct first as [|c s]; [contradiction|].
    cbn [all_chars] in Hall. apply andb_true_iff in Hall as [Hc Hs].
    cbn [append feed]. cbn [length] in Hlen.
    assert (Hstart : process_char reset (Some c)
                     = process_char (mk_reader START_FIELD EmptyString []) (Some c)).
    { unfold plain_char in Hc. apply negb_true_iff, orb_false_iff in Hc as [Hq Hn].
      unfold process_char, reset. cbn [st]. rewrite Hn. reflexivity. }
    rewrite Hstart, (process_plain_char START_FIELD EmptyString [] c) by
      (try (left; reflexivity); try exact Hc; cbn [length]; unfold field_limit; lia).
    cbn [cut]. destruct (Ascii.eqb c delimiter); cbn [bind].
    - rewrite feed_plain; [reflexivity|left; reflexivity|exact He|exact Hs|cbn [length]; lia].
    - rewrite feed_plain; [reflexivity|right; reflexivity|exact He|exact Hs|].
      cbn [append length]. lia. }
  rewrite Hfeed. reflexivity.
Qed.

(** A value at a position the header does not reach leaves the mapping
    as it is. *)
Lemma csv_row_dict_beyond (header : list string) (row : list string) :
  forall (i : nat) (d : str_row),
    List.length header <= i -> csv_row_dict header i row d = d.
Proof.
  induction row as [|v row IH]; intros i d Hi; [reflexivity|].
  cbn [csv_row_dict].
  assert (E : nth_error header i = None) by (apply nth_error_None; exact Hi).
  rewrite E. apply IH. lia.
Qed.

Lemma csv_row_dict_app (header : list string) (row extra : list string) :
  forall (i : nat) (d : str_row),
    csv_row_dict header i (row ++ extra)%list d
    = csv_row_dict header (i + List.length row) extra (csv_row_dict header i row d).
Proof.
  induction row as [|v row IH]; intros i d.
  - cbn [app csv_row_dict List.length]. rewrite Nat.add_0_r. reflexivity.
  - cbn [app csv_row_dict List.length].
    destruct (nth_error header i); rewrite IH; f_equal; lia.
Qed.

Lemma dict_set_in {V : Type} (k k' : string) (v v' : V) (d : list (string * V)) :
  In (k, v) (dict_set k' v' d) -> (k, v) = (k', v') \/ In (k, v) d.
Proof.
  induction d as [|[k0 v0] d IH]; cbn [dict_set].
  - intros [H | []]; left; symmetry; exact H.
  - destruct (String.eqb k0 k').
    + intros [H | H]; [left; symmetry; exact H | right; right; exact H].
    + intros [H | H]; [right; left; exact H|].
      destruct (IH H) as [E | E]; [left; exact E | right; right; exact E].
Qed.

(** Every entry of the mapping pairs a header name with the value at the
    same position of the row. *)
Lemma csv_row_dict_positional (header : list string) (row : list string) :
  forall (i : nat) (d : str_row) (k v : string),
    In (k, v) (csv_row_dict header i row d) ->
    In (k, v) d
    \/ exists j, nth_error header (i + j) = Some k /\ nth_error row j = Some v.
Proof.
  induction row as [|x row IH]; intros i d k v Hin; [left; exact Hin|].
  cbn [csv_row_dict] in Hin.
  destruct (nth_error header i) as [name|] eqn:E.
  - destruct (IH (S i) _ k v Hin) as [Hd | (j & Hk & Hv)].
    + destruct (dict_set_in _ _ _ _ _ Hd) as [Heq | Hd'].
      * injection Heq as -> ->. right. exists 0.
        rewrite Nat.add_0_r. split; [exact E | reflexivity].
      * left; exact Hd'.
    + right. exists (S j). rewrite Nat.add_succ_r. split; assumption.
  - destruct (IH (S i) _ k v Hin) as [Hd | (j & Hk & Hv)].
    + left; exact Hd.
    + right. exists (S j). rewrite Nat.add_succ_r. split; assumption.
Qed.

(** Once the first name of the header has its value, the values that
    follow are set as under the rest of the header, when the first name
    does not come again. *)
Lemma csv_row_dict_shift (h v : string) (hs : list string) (row : list string) :
  ~ In h hs ->
  forall (i : nat) (d : str_row),
    csv_row_dict (h :: hs) (S i) row ((h, v) :: d) = (h, v) :: csv_row_dict hs i row d.
Proof.
  intros Hh. induction row as [|x row IH]; intros i d; [reflexivity|].
  cbn [csv_row_dict nth_error].
  destruct (nth_error hs i) as [name|] eqn:E; [|apply IH].
  assert (Hne : String.eqb h name = false).
  { apply String.eqb_neq. intros ->. apply Hh. exact (nth_error_In _ _ E). }
  cbn [dict_set]. rewrite Hne. apply IH.
Qed.

(** Under a header of distinct names, the mapping of a row pairs the
    names with the values position by position, as far as both go. *)
Lemma csv_row_dict_combine (header : list string) :
  NoDup header -> forall row, csv_row_dict header 0 row [] = combine header row.
Proof.
  induction 1 as [|h hs Hh _ IH]; intros row.
  - apply csv_row_dict_beyond. apply Nat.le_refl.
  - destruct row as [|v row]; [reflexivity|].
    cbn [csv_row_dict nth_error dict_set combine].
    rewrite (csv_row_dict_shift h v hs row Hh 0 []), IH. reflexivity.
Qed.

(** A line without quotes, with its line end, of a length the reader
    accepts. *)
Definition unquoted (body e : string) : Prop :=
  all_chars plain_char body = true /\ line_end e
  /\ (N.of_nat (length body) <= field_limit)%N.

(** The fields of a line without quotes: none for an empty line. *)
Definition fields_of (body : string) : list string :=
  if is_empty body then [] else cut EmptyString body.

(** The rows a reader yields, one after the other. *)
Fixpoint rows_of (rs : list (list string)) : rows :=
  match rs with
  | [] => Stop
  | row :: rest => Next row (rows_of rest)
  end.

(** The records of the rows under a header: the mappings that are not
    empty, in the order of the rows. *)
Definition records_of (header : list string) (rs : list (list string)) : list str_row :=
  filter (fun d => negb (is_nil d)) (map (fun row => csv_row_dict header 0 row []) rs).

Lemma csv_reader_empty_line (e : string) (rest : list string) :
  line_end e -> csv_reader (e :: rest) = Next [] (csv_reader rest).
Proof. intros [-> | ->]; reflexivity. Qed.

(** The rows of lines without quotes. *)
Lemma csv_reader_unquoted (lines : list (string * string)) :
  Forall (fun be => unquoted (fst be) (snd be)) lines ->
  csv_reader (map (fun be => fst be ++ snd be) lines)
  = rows_of (map (fun be => fields_of (fst be)) lines).
Proof.
  induction 1 as [|[body e] lines (Hall & He & Hlen) _ IH]; [reflexivity|].
  cbn [map fst snd rows_of]. destruct body as [|c body].
  - cbn [append fields_of is_empty]. rewrite (csv_reader_empty_line e _ He), IH.
    reflexivity.
  - rewrite (csv_reader_plain_line (String c body) e _ Hall ltac:(discriminate) He Hlen), IH.
    reflexivity.
Qed.

(** The loop over the rows keeps every mapping that is not empty. *)
Lemma csv_data_rows_of (header : list string) (rs : list (list string)) :
  csv_data header (rows_of rs) = Ok (records_of header rs).
Proof.
  induction rs as [|row rs IH]; [reflexivity|].
  cbn [rows_of csv_data]. rewrite IH. cbn [bind].
  unfold records_of. cbn [map filter].
  destruct (csv_row_dict header 0 row []); reflexivity.
Qed.

Section WithRuntime.

Context {R : Runtime}.

(** C10.  In [_parse_csv_format]: no line gives the empty table, and so
    does a first row without fields; a first line without quotes is the
    header, split at its commas, and the rows come from the lines after
    it; a value at a position beyond the header's names is dropped, each
    entry of a record pairing a header name with the value at the same
    position (on a header of one name and a row of two values, where
    the generic parser appends the second value to the last column and a
    whitespace split bounded by the column count keeps both words in
    it); a row whose mapping is empty adds no record, and every other
    row adds its mapping as a record, after the records of the rows
    before it.  Under a header of distinct names the mapping of a row is
    the names paired with the values position by position, as far as
    both go; and the table of a header line and of data lines without
    quotes holds, in the order of the lines, the mapping of every line
    whose mapping is not empty. *)
Theorem csv_header_and_rows :
  _parse_csv_format [] = Ok DataFrame_empty
  /\ (forall lines rest,
        csv_reader lines = Next [] rest -> _parse_csv_format lines = Ok DataFrame_empty)
  /\ (forall first e rest,
        all_chars plain_char first = true -> first <> EmptyString -> line_end e ->
        (N.of_nat (length first) <= field_limit)%N ->
        split_sep "," first = Some (cut EmptyString first)
        /\ _parse_csv_format ((first ++ e) :: rest)
           = (data <- csv_data (cut EmptyString first) (csv_reader rest) ;;
              Ok (frame_of_rows data)))
  /\ (forall header row extra,
        List.length header <= List.length row ->
        csv_row_dict header 0 (row ++ extra)%list [] = csv_row_dict header 0 row [])
  /\ (forall header row k v,
        In (k, v) (csv_row_dict header 0 row []) ->
        exists j, nth_error header j = Some k /\ nth_error row j = Some v)
  /\ (csv_row_dict ["a"] 0 ["x"; "y"] [] = [("a", "x")]
      /\ fold_parts ["a"] 0 ["x"; "y"] [] = [("a", "x y")]
      /\ split_maxsplit 0 "x y" = ["x y"])
  /\ (forall header row rest,
        csv_row_dict header 0 row [] = [] ->
        csv_data header (Next row rest) = csv_data header rest)
  /\ (forall header row rest,
        csv_row_dict header 0 row [] <> [] ->
        csv_data header (Next row rest)
        = (data <- csv_data header rest ;; Ok (csv_row_dict header 0 row [] :: data)))
  /\ (forall header row,
        NoDup header -> csv_row_dict header 0 row [] = combine header row)
  /\ (forall first e lines,
        unquoted first e -> first <> EmptyString ->
        Forall (fun be => unquoted (fst be) (snd be)) lines ->
        _parse_csv_format ((first ++ e) :: map (fun be => fst be ++ snd be) lines)
        = Ok (frame_of_rows
                (records_of (cut EmptyString first)
                   (map (fun be => fields_of (fst be)) lines)))).
Proof.
  split; [reflexivity|].
  split; [intros lines rest H; unfold _parse_csv_format; rewrite H; reflexivity|].
  split.
  { intros first e rest Hall Hne He Hlen. split; [apply split_sep_comma|].
    unfold _parse_csv_format.
    rewrite (csv_reader_plain_line first e rest Hall Hne He Hlen).
    pose proof (cut_not_nil EmptyString first) as Hcut.
    destruct (cut EmptyString first); [contradiction | reflexivity]. }
  split.
  { intros header row extra Hlen. rewrite csv_row_dict_app.
    apply csv_row_dict_beyond. lia. }
  split.
  { intros header row k v Hin.
    destruct (csv_row_dict_positional header row 0 [] k v Hin) as [[] | H]. exact H. }
  split; [repeat apply conj; reflexivity|].
  split.
  { intros header row rest H. cbn [csv_data]. rewrite H.
    destruct (csv_data header rest); reflexivity. }
  split.
  { intros header row rest H. cbn [csv_data].
    destruct (csv_row_dict header 0 row []); [contradiction | reflexivity]. }
  split; [intros header row Hnd; apply csv_row_dict_combine; exact Hnd|].
  intros first e lines (Hall & He & Hlen) Hne Hlines.
  unfold _parse_csv_format.
  rewrite (csv_reader_plain_line first e _ Hall Hne He Hlen).
  pose proof (cut_not_nil EmptyString first) as Hcut.
  destruct (cut EmptyString first) as [|name names] eqn:Ecut; [contradiction|].
  rewrite (csv_reader_unquoted lines Hlines), csv_data_rows_of. reflexivity.
Qed.

End WithRuntime.

(** The statement of C10 at a header of two names followed by a row of
    three values, an empty line and a row of one value: the third value
    is dropped, the empty line adds no record, and the short row is
    kept. *)
Lemma csv_header_and_rows_witness :
  _parse_csv_format (R := Reference.runtime)
    [("h1,h2" ++ TimestampFacts.line_feed); "1,2,3"]
  = (data <- csv_data (cut EmptyString "h1,h2") (csv_reader ["1,2,3"]) ;;
     Ok (frame_of_rows data))
  /\ _parse_csv_format (R := Reference.runtime)
       [("h1,h2" ++ TimestampFacts.line_feed); ("1,2,3" ++ TimestampFacts.line_feed);
        TimestampFacts.line_feed; "4"]
     = Ok (frame_of_rows [[("h1", "1"); ("h2", "2")]; [("h1", "4")]]).
Proof.
  split.
  - apply (proj1 (proj2 (proj2 (csv_header_and_rows (R := Reference.runtime))))).
    + reflexivity.
    + discriminate.
    + right. reflexivity.
    + vm_compute. discriminate.
  - apply (proj2 (proj2 (proj2 (proj2 (proj2 (proj2 (proj2 (proj2 (proj2
             (csv_header_and_rows (R := Reference.runtime))))))))))
             "h1,h2" TimestampFacts.line_feed
             [("1,2,3", TimestampFacts.line_feed); (EmptyString, TimestampFacts.line_feed);
              ("4", EmptyString)]).
    + split; [reflexivity|]. split; [right; reflexivity | vm_compute; discriminate].
    + discriminate.
    + repeat apply Forall_cons; try apply Forall_nil;
        (split; [reflexivity | split; [| vm_compute; discriminate]]).
      * right. reflexivity.
      * right. reflexivity.
      * left. reflexivity.
Defined.

End CsvFacts.

(* ================================================================= *)
(** ** The matcher: what a match consumes and what it captures *)

Module RegexFacts.
Import PyStr Re.

Definition cont : Type := option ascii -> string -> caps -> option caps.

(** The loop of a repetition, with its fuel. *)
Definition star_loop (r1 : re) (k : cont) : nat -> cont :=
  fix loop (n : nat) (prev0 : option ascii) (s0 : string) (cs0 : caps) : option caps :=
    match n with
    | O => k prev0 s0 cs0
    | S n' =>
        match run r1 prev0 s0 cs0
                (fun prev' s' cs' =>
                   if Nat.ltb (length s') (length s0) then loop n' prev' s' cs' else None) with
        | Some c => Some c
        | None => k prev0 s0 cs0
        end
    end.

Lemma run_star (r1 : re) (prev : option ascii) (s : string) (cs : caps) (k : cont) :
  run (Star r1) prev s cs k = star_loop r1 k (length s) prev s cs.
Proof. reflexivity. Qed.

Lemma star_loop_S (r1 : re) (k : cont) (n : nat) (prev : option ascii) (s : string)
    (cs : caps) :
  star_loop r1 k (S n) prev s cs
  = match run r1 prev s cs
            (fun prev' s' cs' =>
               if Nat.ltb (length s') (length s) then star_loop r1 k n prev' s' cs' else None) with
    | Some c => Some c
    | None => k prev s cs
    end.
Proof. reflexivity. Qed.

(** *** Groups that a pattern does not have are not in its captures *)

Fixpoint has_group (n : nat) (r : re) : bool :=
  match r with
  | Grp m r1 => Nat.eqb m n || has_group n r1
  | Cat a b | Alt a b => has_group n a || has_group n b
  | Star a => has_group n a
  | _ => false
  end.

(** A continuation that does not bind group [n]. *)
Definition keeps (n : nat) (k : cont) : Prop :=
  forall p s cs m, group n cs = None -> k p s cs = Some m -> group n m = None.

Lemma keeps_accept (n : nat) : keeps n accept.
Proof. intros p s cs m H E. injection E as <-. exact H. Qed.

Lemma run_keeps (n : nat) (r : re) :
  has_group n r = false -> forall k, keeps n k -> keeps n (fun p s cs => run r p s cs k).
Proof.
  induction r as [|q|a IHa b IHb|a IHa b IHb|a IHa|g a IHa| | |]; cbn [has_group]; intros Hg k Hk.
  - exact Hk.
  - intros p s cs m Hcs E. cbn [run] in E. destruct s as [|c s]; [discriminate|].
    destruct (q c); [|discriminate]. exact (Hk _ _ _ _ Hcs E).
  - apply orb_false_iff in Hg as [Ha Hb].
    exact (IHa Ha _ (IHb Hb _ Hk)).
  - apply orb_false_iff in Hg as [Ha Hb].
    intros p s cs m Hcs E. cbn [run] in E.
    destruct (run a p s cs k) as [m'|] eqn:Ea.
    + injection E as <-. exact (IHa Ha _ Hk _ _ _ _ Hcs Ea).
    + exact (IHb Hb _ Hk _ _ _ _ Hcs E).
  - assert (Hloop : forall fuel, keeps n (star_loop a k fuel)).
    { induction fuel as [|fuel IHf]; [exact Hk|].
      intros p s cs m Hcs E. rewrite star_loop_S in E.
      match type of E with
      | match run a p s cs ?k' with _ => _ end = _ =>
          destruct (run a p s cs k') as [m'|] eqn:Ea
      end.
      - injection E as <-.
        refine (IHa Hg _ _ _ _ _ _ Hcs Ea).
        intros p' s' cs' m'' Hcs' E'.
        destruct (Nat.ltb (length s') (length s)); [|discriminate].
        exact (IHf _ _ _ _ Hcs' E').
      - exact (Hk _ _ _ _ Hcs E). }
    intros p s cs m Hcs E. rewrite run_star in E. exact (Hloop _ _ _ _ _ Hcs E).
  - apply orb_false_iff in Hg as [Hn Ha].
    intros p s cs m Hcs E. cbn [run] in E.
    refine (IHa Ha _ _ _ _ _ _ Hcs E).
    intros p' s' cs' m' Hcs' E'. refine (Hk _ _ _ _ _ E').
    cbn [group]. rewrite Hn. exact Hcs'.
  - intros p s cs m Hcs E. cbn [run] in E. destruct p; [discriminate|].
    exact (Hk _ _ _ _ Hcs E).
  - intros p s cs m Hcs E. cbn [run] in E. destruct s as [|c [|c' s]].
    + exact (Hk _ _ _ _ Hcs E).
    + destruct (Ascii.eqb c newline); [|discriminate]. exact (Hk _ _ _ _ Hcs E).
    + discriminate.
  - intros p s cs m Hcs E. cbn [run] in E.
    destruct (xorb (word_at p) (word_at (first_char s))); [|discriminate].
    exact (Hk _ _ _ _ Hcs E).
Qed.

(** *** Success does not depend on the captures, nor, without anchors,
    on the character before *)

Fixpoint anchor_free (r : re) : bool :=
  match r with
  | Bol | WordB => false
  | Cat a b | Alt a b => anchor_free a && anchor_free b
  | Star a | Grp _ a => anchor_free a
  | _ => true
  end.

Definition ok (o : option caps) : bool :=
  match o with Some _ => true | None => false end.

(** Two continuations that succeed on the same strings. *)
Definition alike (k1 k2 : cont) : Prop :=
  forall p1 p2 s c1 c2, ok (k1 p1 s c1) = ok (k2 p2 s c2).

Lemma ok_or (o1 o2 : option caps) :
  ok (match o1 with Some c => Some c | None => o2 end) = ok o1 || ok o2.
Proof. destruct o1; reflexivity. Qed.

Lemma run_alike (r : re) :
  anchor_free r = true -> forall k1 k2, alike k1 k2 ->
  alike (fun p s cs => run r p s cs k1) (fun p s cs => run r p s cs k2).
Proof.
  induction r as [|q|a IHa b IHb|a IHa b IHb|a IHa|g a IHa| | |]; cbn [anchor_free];
    intros Hf k1 k2 Hk; try discriminate Hf.
  - exact Hk.
  - intros p1 p2 s c1 c2. cbn [run]. destruct s as [|c s]; [reflexivity|].
    destruct (q c); [apply Hk | reflexivity].
  - apply andb_true_iff in Hf as [Ha Hb].
    exact (IHa Ha _ _ (IHb Hb _ _ Hk)).
  - apply andb_true_iff in Hf as [Ha Hb].
    intros p1 p2 s c1 c2. cbn [run]. rewrite !ok_or.
    rewrite (IHa Ha _ _ Hk p1 p2 s c1 c2), (IHb Hb _ _ Hk p1 p2 s c1 c2). reflexivity.
  - assert (Hloop : forall fuel, alike (star_loop a k1 fuel) (star_loop a k2 fuel)).
    { induction fuel as [|fuel IHf]; [exact Hk|].
      intros p1 p2 s c1 c2. rewrite !star_loop_S, !ok_or.
      f_equal; [|apply Hk].
      apply (IHa Hf). intros q1 q2 s' d1 d2.
      destruct (Nat.ltb (length s') (length s)); [apply IHf | reflexivity]. }
    intros p1 p2 s c1 c2. rewrite !run_star. apply Hloop.
  - intros p1 p2 s c1 c2. cbn [run]. apply (IHa Hf).
    intros q1 q2 s' d1 d2. apply Hk.
  - intros p1 p2 s c1 c2. cbn [run]. destruct s as [|c [|c' s]].
    + apply Hk.
    + destruct (Ascii.eqb c newline); [apply Hk | reflexivity].
    + reflexivity.
Qed.

(** *** What a successful match consumes *)

(** Every character class of the pattern lies within [P]. *)
Fixpoint chars_within (P : ascii -> bool) (r : re) : Prop :=
  match r with
  | Chr q => forall c, q c = true -> P c = true
  | Cat a b | Alt a b => chars_within P a /\ chars_within P b
  | Star a | Grp _ a => chars_within P a
  | _ => True
  end.

Lemma all_chars_app (P : ascii -> bool) (a b : string) :
  all_chars P (a ++ b) = all_chars P a && all_chars P b.
Proof.
  induction a as [|c a IH]; [reflexivity|].
  cbn [append all_chars]. rewrite IH, andb_assoc. reflexivity.
Qed.

(** When a match succeeds, the continuation succeeded on what is left
    after a prefix made of characters of [P]. *)
Lemma run_consumes (P : ascii -> bool) (r : re) :
  chars_within P r ->
  forall p s cs k m, run r p s cs k = Some m ->
  exists w t p' cs', s = w ++ t /\ all_chars P w = true /\ k p' t cs' = Some m.
Proof.
  induction r as [|q|a IHa b IHb|a IHa b IHb|a IHa|g a IHa| | |]; cbn [chars_within];
    intros Hw p s cs k m E.
  - exists EmptyString, s, p, cs. repeat split; assumption.
  - cbn [run] in E. destruct s as [|c s]; [discriminate|].
    destruct (q c) eqn:Eq; [|discriminate].
    exists (String c EmptyString), s, (Some c), cs.
    split; [reflexivity|]. split; [|exact E].
    cbn [all_chars]. rewrite (Hw c Eq). reflexivity.
  - destruct Hw as [Ha Hb]. cbn [run] in E.
    destruct (IHa Ha _ _ _ _ _ E) as (w1 & t1 & p1 & cs1 & -> & H1 & E1).
    destruct (IHb Hb _ _ _ _ _ E1) as (w2 & t2 & p2 & cs2 & -> & H2 & E2).
    exists (w1 ++ w2), t2, p2, cs2.
    split; [symmetry; apply SplitFacts.append_assoc|].
    split; [rewrite all_chars_app, H1, H2; reflexivity | exact E2].
  - destruct Hw as [Ha Hb]. cbn [run] in E.
    destruct (run a p s cs k) as [m'|] eqn:Ea.
    + injection E as <-. exact (IHa Ha _ _ _ _ _ Ea).
    + exact (IHb Hb _ _ _ _ _ E).
  - rewrite run_star in E.
    assert (Hloop : forall fuel p0 s0 cs0, star_loop a k fuel p0 s0 cs0 = Some m ->
              exists w t p' cs',
                s0 = w ++ t /\ all_chars P w = true /\ k p' t cs' = Some m).
    { clear p s cs E. induction fuel as [|fuel IHf]; intros p s cs E.
      - exists EmptyString, s, p, cs. repeat split; assumption.
      - rewrite star_loop_S in E.
        match type of E with
        | match run a p s cs ?k' with _ => _ end = _ =>
            destruct (run a p s cs k') as [m'|] eqn:Ea
        end.
        + injection E as <-.
          destruct (IHa Hw _ _ _ _ _ Ea) as (w1 & t1 & p1 & cs1 & -> & H1 & E1).
          destruct (Nat.ltb (length t1) (length (w1 ++ t1))); [|discriminate].
          destruct (IHf _ _ _ E1) as (w2 & t2 & p2 & cs2 & -> & H2 & E2).
          exists (w1 ++ w2), t2, p2, cs2.
          split; [symmetry; apply SplitFacts.append_assoc|].
          split; [rewrite all_chars_app, H1, H2; reflexivity | exact E2].
        + exists EmptyString, s, p, cs. repeat split; assumption. }
    exact (Hloop _ _ _ _ E).
  - cbn [run] in E.
    destruct (IHa Hw _ _ _ _ _ E) as (w & t & p' & cs' & -> & H1 & E1).
    exists w, t, p', ((g, substring 0 (length (w ++ t) - length t) (w ++ t)) :: cs').
    repeat split; assumption.
  - cbn [run] in E. destruct p; [discriminate|].
    exists EmptyString, s, None, cs. repeat split; assumption.
  - exists EmptyString, s, p, cs. split; [reflexivity|]. split; [reflexivity|].
    cbn [run] in E. destruct s as [|c [|c' s]].
    + exact E.
    + destruct (Ascii.eqb c newline); [exact E | discriminate].
    + discriminate.
  - cbn [run] in E.
    destruct (xorb (word_at p) (word_at (first_char s))); [|discriminate].
    exists EmptyString, s, p, cs. repeat split; assumption.
Qed.

Lemma length_append (a b : string) : length (a ++ b) = length a + length b.
Proof. induction a as [|c a IH]; simpl; [reflexivity | rewrite IH; reflexivity]. Qed.

Lemma substring_prefix (w t : string) : substring 0 (length w) (w ++ t) = w.
Proof.
  induction w as [|c w IH]; simpl.
  - destruct t; reflexivity.
  - rewrite IH. reflexivity.
Qed.

(** A group captures the prefix that its pattern consumed. *)
Lemma run_grp_consumes (P : ascii -> bool) (g : nat) (r : re) :
  chars_within P r ->
  forall p s cs k m, run (Grp g r) p s cs k = Some m ->
  exists w t p' cs', s = w ++ t /\ all_chars P w = true /\ k p' t ((g, w) :: cs') = Some m.
Proof.
  intros Hw p s cs k m E. cbn [run] in E.
  destruct (run_consumes P r Hw _ _ _ _ _ E) as (w & t & p' & cs' & -> & H1 & E1).
  exists w, t, p', cs'. split; [reflexivity|]. split; [exact H1|].
  rewrite length_append in E1.
  replace (length w + length t - length t) with (length w) in E1 by lia.
  rewrite substring_prefix in E1. exact E1.
Qed.

(** *** The repetition of one character class *)

(** As many characters of the class as can be, then fewer. *)
Fixpoint star_chr (q : ascii -> bool) (k : cont) (prev : option ascii) (s : string)
    (cs : caps) : option caps :=
  match s with
  | String c s' =>
      if q c then
        match star_chr q k (Some c) s' cs with
        | Some m => Some m
        | None => k prev s cs
        end
      else k prev s cs
  | EmptyString => k prev s cs
  end.

Lemma star_loop_chr (q : ascii -> bool) (k : cont) :
  forall n prev s cs, length s <= n -> star_loop (Chr q) k n prev s cs = star_chr q k prev s cs.
Proof.
  induction n as [|n IH]; intros prev s cs Hlen.
  - destruct s; [reflexivity | simpl in Hlen; lia].
  - rewrite star_loop_S. cbn [run]. destruct s as [|c s]; [reflexivity|].
    cbn [star_chr]. destruct (q c); [|reflexivity].
    assert (Hlt : Nat.ltb (length s) (length (String c s)) = true)
      by (apply Nat.ltb_lt; simpl; lia).
    rewrite Hlt, IH by (simpl in Hlen; lia). reflexivity.
Qed.

Lemma run_star_chr (q : ascii -> bool) (k : cont) (prev : option ascii) (s : string)
    (cs : caps) :
  run (Star (Chr q)) prev s cs k = star_chr q k prev s cs.
Proof. rewrite run_star. apply star_loop_chr. lia. Qed.

(** The repetition succeeds wherever the continuation would, after any
    run of characters of the class. *)
Lemma star_chr_reaches (q : ascii -> bool) (k : cont) (w : string) :
  forall t prev cs,
    all_chars q w = true -> (forall p, ok (k p t cs) = true) ->
    ok (star_chr q k prev (w ++ t) cs) = true.
Proof.
  induction w as [|c w IH]; intros t prev cs Hw Hk.
  - cbn [append]. destruct t as [|c t]; cbn [star_chr]; [apply Hk|].
    destruct (q c); [|apply Hk].
    destruct (star_chr q k (Some c) t cs); [reflexivity | apply Hk].
  - cbn [all_chars] in Hw. apply andb_true_iff in Hw as [Hc Hw].
    cbn [append star_chr]. rewrite Hc.
    specialize (IH t (Some c) cs Hw Hk).
    destruct (star_chr q k (Some c) (w ++ t) cs); [reflexivity | discriminate IH].
Qed.

(** Greedy: when the continuation succeeds right after the longest run,
    that is the match. *)
Lemma star_chr_longest (q : ascii -> bool) (k : cont) (w : string) :
  forall t prev cs,
    all_chars q w = true ->
    match t with String c _ => q c = false | EmptyString => True end ->
    (forall p, ok (k p t cs) = true) ->
    exists p, star_chr q k prev (w ++ t) cs = k p t cs.
Proof.
  induction w as [|c w IH]; intros t prev cs Hw Ht Hk.
  - cbn [append]. exists prev. destruct t as [|c t]; [reflexivity|].
    cbn [star_chr]. rewrite Ht. reflexivity.
  - cbn [all_chars] in Hw. apply andb_true_iff in Hw as [Hc Hw].
    cbn [append star_chr]. rewrite Hc.
    destruct (IH t (Some c) cs Hw Ht Hk) as (p & E).
    exists p. rewrite E. specialize (Hk p). destruct (k p t cs); [reflexivity | discriminate Hk].
Qed.

(** The character before the position that follows [w]. *)
Fixpoint prev_after (p : option ascii) (w : string) : option ascii :=
  match w with
  | EmptyString => p
  | String c w' => prev_after (Some c) w'
  end.

(** A literal matches the strings it is a prefix of. *)
Lemma run_lit (w : string) : forall p s cs k,
  run (lit w) p s cs k
  = if prefix w s then k (prev_after p w) (drop (length w) s) cs else None.
Proof.
  induction w as [|c w IH]; intros p s cs k.
  - rewrite CommaFacts.prefix_empty. reflexivity.
  - assert (Hstep : run (lit (String c w)) p s cs k
                    = run (chr c) p s cs (fun p' s' cs' => run (lit w) p' s' cs' k)).
    { destruct w; reflexivity. }
    rewrite Hstep. cbn [run chr]. destruct s as [|x s]; [reflexivity|].
    cbn [prefix prev_after length drop].
    destruct (ascii_dec c x) as [<-|Hne].
    + rewrite Ascii.eqb_refl. rewrite IH. reflexivity.
    + assert (E : Ascii.eqb c x = false) by (apply Ascii.eqb_neq; exact Hne).
      rewrite E. reflexivity.
Qed.

(** *** What a group captures *)

(** Every group [g] of the pattern holds a pattern within [P]. *)
Fixpoint groups_within (P : ascii -> bool) (g : nat) (r : re) : Prop :=
  match r with
  | Grp n a => (if Nat.eqb n g then chars_within P a else True) /\ groups_within P g a
  | Cat a b | Alt a b => groups_within P g a /\ groups_within P g b
  | Star a => groups_within P g a
  | _ => True
  end.

(** Group [g], when it is bound, holds characters of [P]. *)
Definition captured_within (P : ascii -> bool) (g : nat) (cs : caps) : Prop :=
  forall w, group g cs = Some w -> all_chars P w = true.

Lemma run_captures (P : ascii -> bool) (g : nat) (r : re) :
  groups_within P g r ->
  forall p s cs k m, run r p s cs k = Some m ->
  exists t p' cs',
    k p' t cs' = Some m /\ (captured_within P g cs -> captured_within P g cs').
Proof.
  induction r as [|q|a IHa b IHb|a IHa b IHb|a IHa|n a IHa| | |]; cbn [groups_within];
    intros Hg p s cs k m E.
  - exists s, p, cs. split; [exact E | exact (fun H => H)].
  - cbn [run] in E. destruct s as [|c s]; [discriminate|].
    destruct (q c); [|discriminate].
    exists s, (Some c), cs. split; [exact E | exact (fun H => H)].
  - destruct Hg as [Ha Hb]. cbn [run] in E.
    destruct (IHa Ha _ _ _ _ _ E) as (t1 & p1 & cs1 & E1 & H1).
    destruct (IHb Hb _ _ _ _ _ E1) as (t2 & p2 & cs2 & E2 & H2).
    exists t2, p2, cs2. split; [exact E2 | exact (fun H => H2 (H1 H))].
  - destruct Hg as [Ha Hb]. cbn [run] in E.
    destruct (run a p s cs k) as [m'|] eqn:Ea.
    + injection E as <-. exact (IHa Ha _ _ _ _ _ Ea).
    + exact (IHb Hb _ _ _ _ _ E).
  - rewrite run_star in E.
    assert (Hloop : forall fuel p0 s0 cs0, star_loop a k fuel p0 s0 cs0 = Some m ->
              exists t p' cs',
                k p' t cs' = Some m
                /\ (captured_within P g cs0 -> captured_within P g cs')).
    { clear p s cs E. induction fuel as [|fuel IHf]; intros p s cs E.
      - exists s, p, cs. split; [exact E | exact (fun H => H)].
      - rewrite star_loop_S in E.
        match type of E with
        | match run a p s cs ?k' with _ => _ end = _ =>
            destruct (run a p s cs k') as [m'|] eqn:Ea
        end.
        + injection E as <-.
          destruct (IHa Hg _ _ _ _ _ Ea) as (t1 & p1 & cs1 & E1 & H1).
          destruct (Nat.ltb (length t1) (length s)); [|discriminate].
          destruct (IHf _ _ _ E1) as (t2 & p2 & cs2 & E2 & H2).
          exists t2, p2, cs2. split; [exact E2 | exact (fun H => H2 (H1 H))].
        + exists s, p, cs. split; [exact E | exact (fun H => H)]. }
    exact (Hloop _ _ _ _ E).
  - destruct Hg as [Hn Ha]. destruct (Nat.eqb n g) eqn:En.
    + apply Nat.eqb_eq in En. subst n.
      destruct (run_grp_consumes P g a Hn _ _ _ _ _ E) as (w & t & p' & cs' & _ & Hw & E1).
      exists t, p', ((g, w) :: cs'). split; [exact E1|].
      intros _ w' Hw'. cbn [group] in Hw'. rewrite Nat.eqb_refl in Hw'.
      injection Hw' as <-. exact Hw.
    + cbn [run] in E.
      destruct (IHa Ha _ _ _ _ _ E) as (t & p' & cs' & E1 & H1).
      eexists t, p', (_ :: cs'). split; [exact E1|].
      intros H w' Hw'. cbn [group] in Hw'. rewrite En in Hw'. exact (H1 H w' Hw').
  - cbn [run] in E. destruct p; [discriminate|].
    exists s, None, cs. split; [exact E | exact (fun H => H)].
  - exists s, p, cs. split; [|exact (fun H => H)].
    cbn [run] in E. destruct s as [|c [|c' s]].
    + exact E.
    + destruct (Ascii.eqb c newline); [exact E | discriminate].
    + discriminate.
  - cbn [run] in E.
    destruct (xorb (word_at p) (word_at (first_char s))); [|discriminate].
    exists s, p, cs. split; [exact E | exact (fun H => H)].
Qed.

(** In a match of the whole pattern, group [g] holds characters of [P]. *)
Lemma match_captures (P : ascii -> bool) (g : nat) (r : re) (p : option ascii)
    (s : string) (m : caps) :
  groups_within P g r -> run r p s [] accept = Some m -> captured_within P g m.
Proof.
  intros Hg E.
  destruct (run_captures P g r Hg _ _ _ _ _ E) as (t & p' & cs' & E1 & H1).
  injection E1 as <-. apply H1. intros w Hw. discriminate Hw.
Qed.

Lemma chars_within_any (r : re) : chars_within (fun _ => true) r.
Proof.
  induction r; cbn [chars_within];
    solve [exact I | split; assumption | assumption | intros; reflexivity].
Qed.

(** Whatever a match returns, its continuation returned, on a suffix of
    the string. *)
Lemma run_returns (r : re) (p : option ascii) (s : string) (cs : caps) (k : cont) (m : caps) :
  run r p s cs k = Some m -> exists w t p' cs', s = w ++ t /\ k p' t cs' = Some m.
Proof.
  intros E.
  destruct (run_consumes _ r (chars_within_any r) _ _ _ _ _ E)
    as (w & t & p' & cs' & Hs & _ & E1).
  exists w, t, p', cs'. split; assumption.
Qed.

(** A search that succeeds is a match at some position. *)
Lemma search_from_found (r : re) (s : string) : forall p m,
  search_from r p s = Some m ->
  exists pre t p', s = pre ++ t /\ run r p' t [] accept = Some m.
Proof.
  induction s as [|c s IH]; intros p m E; cbn [search_from] in E.
  - destruct (run r p EmptyString [] accept) as [m'|] eqn:Er; [|discriminate].
    injection E as <-. exists EmptyString, EmptyString, p. split; [reflexivity | exact Er].
  - destruct (run r p (String c s) [] accept) as [m'|] eqn:Er.
    + injection E as <-. exists EmptyString, (String c s), p. split; [reflexivity | exact Er].
    + destruct (IH _ _ E) as (pre & t & p' & -> & Et).
      exists (String c pre), t, p'. split; [reflexivity | exact Et].
Qed.

End RegexFacts.

(* ================================================================= *)
(** ** The syslog, Common Log Format and Extended Log Format parsers *)

Module StructuredFacts.
Import PyStr Re LogParser RegexFacts.

Definition not_space (c : ascii) : bool := negb (isspace c).

(** The syslog pattern after the process name: the bracketed pid, and
    the colon with the message. *)
Definition pid_part : re := Re.seq [chr "["; Grp 4 (plus d); chr "]"].
Definition message_part : re := Re.seq [chr ":"; sp; Grp 5 (Star dot); Eol].

(** What follows the host name. *)
Definition process_on : re := Cat (Grp 3 (plus S_)) (Cat (opt pid_part) message_part).

(** The syslog pattern up to the process name, before a continuation. *)
Definition before_process (k : cont) : cont :=
  fun p s cs =>
    run Bol p s cs (fun p1 s1 cs1 =>
    run (Grp 1 syslog_date) p1 s1 cs1 (fun p2 s2 cs2 =>
    run sp p2 s2 cs2 (fun p3 s3 cs3 =>
    run (Grp 2 (plus S_)) p3 s3 cs3 (fun p4 s4 cs4 =>
    run sp p4 s4 cs4 k)))).

Lemma syslog_match_eq (s : string) :
  re_match syslog_pattern s
  = before_process (fun p t cs => run process_on p t cs accept) None s [].
Proof. reflexivity. Qed.

Definition message_k : cont := fun p s cs => run message_part p s cs accept.

(** The continuation of the process name that began at [s0]. *)
Definition after_process (s0 : string) : cont :=
  fun p t cs =>
    match run pid_part p t ((3, substring 0 (length s0 - length t) s0) :: cs) message_k with
    | Some m => Some m
    | None => message_k p t ((3, substring 0 (length s0 - length t) s0) :: cs)
    end.

Lemma process_on_eq (p : option ascii) (s : string) (cs : caps) :
  run process_on p s cs accept
  = match s with
    | String c s1 =>
        if not_space c then run (Star S_) (Some c) s1 cs (after_process s) else None
    | EmptyString => None
    end.
Proof. destruct s; reflexivity. Qed.

Lemma message_keeps : keeps 4 message_k.
Proof. apply (run_keeps 4 message_part); [reflexivity | apply keeps_accept]. Qed.

Lemma message_alike : alike message_k message_k.
Proof.
  apply (run_alike message_part); [reflexivity|].
  intros p1 p2 s c1 c2. reflexivity.
Qed.

Lemma after_process_ok (s0 t : string) (p' : option ascii) (c' : caps) :
  ok (message_k p' t c') = true -> forall p cs, ok (after_process s0 p t cs) = true.
Proof.
  intros H p cs. unfold after_process. rewrite ok_or.
  rewrite (message_alike p p' t _ c'), H. apply orb_true_r.
Qed.

Lemma bracket_not_space (c : ascii) : Ascii.eqb "]" c = true -> not_space c = true.
Proof. intros H. apply Ascii.eqb_eq in H. subst c. reflexivity. Qed.

Lemma dec_not_space (c : ascii) : is_dec c = true -> not_space c = true.
Proof.
  intros H. unfold not_space. rewrite (TimestampFacts.is_dec_not_space c H). reflexivity.
Qed.

(** A pid can only be read at an opening bracket, and what it reads has
    no whitespace. *)
Lemma pid_consumes (p : option ascii) (t : string) (cs : caps) (m : caps) :
  run pid_part p t cs message_k = Some m ->
  exists w t2 p' cs',
    t = String "[" (w ++ t2) /\ all_chars not_space w = true
    /\ message_k p' t2 cs' = Some m.
Proof.
  intros E.
  assert (Hstep : run pid_part p t cs message_k
                  = match t with
                    | String c t' =>
                        if Ascii.eqb "[" c
                        then run (Cat (Grp 4 (plus d)) (chr "]")) (Some c) t' cs message_k
                        else None
                    | EmptyString => None
                    end) by (destruct t; reflexivity).
  rewrite Hstep in E. destruct t as [|c t']; [discriminate|].
  destruct (Ascii.eqb "[" c) eqn:Ec; [|discriminate].
  apply Ascii.eqb_eq in Ec. subst c.
  assert (Hw : chars_within not_space (Cat (Grp 4 (plus d)) (chr "]"))).
  { cbn. repeat split; first [exact dec_not_space | exact bracket_not_space]. }
  destruct (run_consumes not_space _ Hw _ _ _ _ _ E) as (w & t2 & p' & cs' & -> & H1 & E1).
  exists w, t2, p', cs'. repeat split; assumption.
Qed.

(** Either no pid was read, or the process name could have gone on. *)
Lemma after_process_cases (s0 : string) (p : option ascii) (t : string) (cs m : caps) :
  group 4 cs = None -> after_process s0 p t cs = Some m ->
  group 4 m = None
  \/ exists w t2, t = String "[" (w ++ t2) /\ all_chars not_space w = true
                  /\ forall p' cs', ok (after_process s0 p' t2 cs') = true.
Proof.
  intros Hcs E. unfold after_process in E.
  match type of E with
  | match ?x with _ => _ end = _ => destruct x as [m'|] eqn:Ep
  end.
  - injection E as <-. right.
    destruct (pid_consumes _ _ _ _ Ep) as (w & t2 & p' & cs' & -> & Hw & Em).
    exists w, t2. split; [reflexivity|]. split; [exact Hw|].
    apply (after_process_ok s0 t2 p' cs'). rewrite Em. reflexivity.
  - left. apply (message_keeps _ _ _ _) in E; [exact E|].
    cbn [group Nat.eqb]. exact Hcs.
Qed.

(** The process name is read as far as it can go, so that no match
    leaves a bracketed pid to group 4. *)
Lemma process_name_takes_pid (s0 : string) : forall t prev cs m,
  group 4 cs = None ->
  star_chr not_space (after_process s0) prev t cs = Some m ->
  group 4 m = None.
Proof.
  induction t as [|c t IH]; intros prev cs m Hcs E.
  - cbn [star_chr] in E.
    destruct (after_process_cases _ _ _ _ _ Hcs E) as [H | (w & t2 & Ht & _)];
      [exact H | discriminate Ht].
  - cbn [star_chr] in E. destruct (not_space c) eqn:Ec.
    + destruct (star_chr not_space (after_process s0) (Some c) t cs) as [m'|] eqn:Ed.
      * injection E as <-. exact (IH _ _ _ Hcs Ed).
      * destruct (after_process_cases _ _ _ _ _ Hcs E) as [H | (w & t2 & Ht & Hw & Hk)];
          [exact H|].
        injection Ht as _ ->.
        pose proof (star_chr_reaches not_space (after_process s0) w t2 (Some c) cs Hw
                      (fun p => Hk p cs)) as Hr.
        rewrite Ed in Hr. discriminate Hr.
    + destruct (after_process_cases _ _ _ _ _ Hcs E) as [H | (w & t2 & Ht & _)];
        [exact H|].
      injection Ht as -> _. discriminate Ec.
Qed.

Lemma process_on_keeps : keeps 4 (fun p t cs => run process_on p t cs accept).
Proof.
  intros p s cs m Hcs E. rewrite process_on_eq in E.
  destruct s as [|c s1]; [discriminate|].
  destruct (not_space c); [|discriminate].
  change S_ with (Chr not_space) in E. rewrite run_star_chr in E.
  exact (process_name_takes_pid _ _ _ _ _ Hcs E).
Qed.

Lemma syslog_no_pid (s : string) (m : caps) :
  re_match syslog_pattern s = Some m -> group 4 m = None.
Proof.
  rewrite syslog_match_eq. intros E.
  assert (H : keeps 4 (before_process (fun p t cs => run process_on p t cs accept))).
  { unfold before_process.
    apply (run_keeps 4 Bol eq_refl).
    apply (run_keeps 4 (Grp 1 syslog_date) eq_refl).
    apply (run_keeps 4 sp eq_refl).
    apply (run_keeps 4 (Grp 2 (plus S_)) eq_refl).
    apply (run_keeps 4 sp eq_refl).
    exact process_on_keeps. }
  exact (H None s [] m eq_refl E).
Qed.

(** The rows of the syslog parser: the five columns of [LOG_TYPES], in
    their order, with an empty pid. *)
Definition syslog_row_ok (row : str_row) : Prop :=
  map fst row = Config.get_columns "syslog"
  /\ dict_get "pid" row = Some EmptyString
  /\ all_chars not_space (str_at "hostname" row) = true
  /\ all_chars not_space (str_at "process" row) = true.

Lemma group_or_empty_within (P : ascii -> bool) (g : nat) (m : caps) :
  captured_within P g m -> all_chars P (group_or_empty g m) = true.
Proof.
  intros H. unfold group_or_empty. destruct (group g m) as [w|] eqn:E.
  - exact (H w E).
  - reflexivity.
Qed.

Lemma syslog_groups_within (g : nat) :
  g = 2 \/ g = 3 -> groups_within not_space g syslog_pattern.
Proof.
  intros [-> | ->]; cbn; repeat split; intros c H; exact H.
Qed.

Lemma syslog_data_rows (lines : list string) : Forall syslog_row_ok (syslog_data lines).
Proof.
  induction lines as [|line rest IH]; [constructor|].
  cbn [syslog_data].
  destruct (re_match syslog_pattern (strip line)) as [m|] eqn:E; [|exact IH].
  constructor; [|exact IH].
  split; [reflexivity|]. split.
  - cbn. unfold group_or_empty. rewrite (syslog_no_pid _ _ E). reflexivity.
  - split.
    + change (str_at "hostname" _) with (group_or_empty 2 m).
      apply group_or_empty_within.
      exact (match_captures _ _ _ _ _ _ (syslog_groups_within 2 (or_introl eq_refl)) E).
    + change (str_at "process" _) with (group_or_empty 3 m).
      apply group_or_empty_within.
      exact (match_captures _ _ _ _ _ _ (syslog_groups_within 3 (or_intror eq_refl)) E).
Qed.

Lemma syslog_data_length (lines : list string) :
  List.length (syslog_data lines) <= List.length lines.
Proof.
  induction lines as [|line rest IH]; [apply Nat.le_refl|].
  cbn [syslog_data]. destruct (re_match syslog_pattern (strip line)); simpl; lia.
Qed.

(** The rows of the Common Log Format parser. *)
Definition clf_row_ok (row : str_row) : Prop :=
  map fst row = Config.get_columns "clf"
  /\ dict_get "url" row = dict_get "path" row
  /\ all_chars is_dec (str_at "status" row) = true
  /\ all_chars is_dec (str_at "bytes_sent" row) = true
  /\ all_chars not_space (str_at "host" row) = true.

Lemma clf_groups_digits (g : nat) : g = 6 \/ g = 7 -> groups_within is_dec g clf_pattern.
Proof.
  intros [-> | ->]; cbn; repeat split; intros c H; exact H.
Qed.

Lemma clf_group_host : groups_within not_space 1 clf_pattern.
Proof. cbn; repeat split; intros c H; exact H. Qed.

Lemma clf_data_rows (lines : list string) : Forall clf_row_ok (clf_data lines).
Proof.
  induction lines as [|line rest IH]; [constructor|].
  cbn [clf_data].
  destruct (re_match clf_pattern (strip line)) as [m|] eqn:E; [|exact IH].
  constructor; [|exact IH].
  split; [reflexivity|]. split; [reflexivity|]. split; [|split].
  - change (str_at "status" _) with (group_or_empty 6 m).
    apply group_or_empty_within.
    exact (match_captures _ _ _ _ _ _ (clf_groups_digits 6 (or_introl eq_refl)) E).
  - change (str_at "bytes_sent" _) with (group_or_empty 7 m).
    apply group_or_empty_within.
    exact (match_captures _ _ _ _ _ _ (clf_groups_digits 7 (or_intror eq_refl)) E).
  - change (str_at "host" _) with (group_or_empty 1 m).
    apply group_or_empty_within.
    exact (match_captures _ _ _ _ _ _ clf_group_host E).
Qed.

Lemma clf_data_length (lines : list string) :
  List.length (clf_data lines) <= List.length lines.
Proof.
  induction lines as [|line rest IH]; [apply Nat.le_refl|].
  cbn [clf_data]. destruct (re_match clf_pattern (strip line)); simpl; lia.
Qed.

(** A line that is no [#Fields:] directive, once stripped. *)
Definition no_fields_directive (line : string) : bool :=
  negb (startswith "#Fields:" (strip line)).

(** Without field names, the lines before the first directive give no
    row. *)
Lemma elf_data_before_fields (before rest : list string) :
  forallb no_fields_directive before = true ->
  elf_data [] (before ++ rest) = elf_data [] rest.
Proof.
  induction before as [|l before IH]; intros H; [reflexivity|].
  cbn [forallb] in H. apply andb_true_iff in H as [Hl Hb].
  unfold no_fields_directive in Hl. apply negb_true_iff in Hl.
  cbn [app elf_data]. rewrite Hl.
  destruct (is_empty (strip l)); [exact (IH Hb)|].
  destruct (startswith "#" (strip l)); exact (IH Hb).
Qed.

Section WithRuntime.

Context {R : Runtime}.

(** X1.  The syslog parser never reads a pid.  It returns a table for
    every list of lines, with at most one row per line; each row has
    the columns timestamp, hostname, process, pid and message, and its
    pid is the empty string: the process name is matched by a run of
    characters that are not spaces, as many as possible, and it takes
    the bracketed pid with it, so that the optional group of the pid
    stays unmatched, as on the line of the example.  Host and process
    hold no white space. *)
Theorem syslog_pid_is_never_read (lines : list string) :
  (exists data,
     _parse_syslog_format lines = Ok (frame_of_rows data)
     /\ List.length data <= List.length lines
     /\ Forall syslog_row_ok data)
  /\ _parse_syslog_format ["Jan  1 00:00:00 host sshd[1234]: started"]
     = Ok (frame_of_rows
             [[("timestamp", "Jan  1 00:00:00"); ("hostname", "host");
               ("process", "sshd[1234]"); ("pid", EmptyString);
               ("message", "started")]]).
Proof.
  split.
  - exists (syslog_data lines). split; [reflexivity|].
    split; [apply syslog_data_length | apply syslog_data_rows].
  - unfold _parse_syslog_format. do 2 apply f_equal. vm_compute. reflexivity.
Qed.

(** X2.  The Common Log Format parser returns a table for every list of
    lines, with at most one row per line.  Each row has the ten columns
    of the source in their order; its url is its path; status and
    bytes_sent are made of decimal digits only, and the host holds no
    white space. *)
Theorem clf_records (lines : list string) :
  exists data,
    _parse_common_log_format lines = Ok (frame_of_rows data)
    /\ List.length data <= List.length lines
    /\ Forall clf_row_ok data.
Proof.
  exists (clf_data lines). split; [reflexivity|].
  split; [apply clf_data_length | apply clf_data_rows].
Qed.

(** X3.  The Extended Log Format parser reads no row before the first
    [#Fields:] directive: lines that come before it change nothing in
    the table of the lines that follow, and lines without any directive
    give the table without rows. *)
Theorem elf_needs_fields_directive (before rest : list string) :
  forallb no_fields_directive before = true ->
  _parse_extended_log_format (before ++ rest) = _parse_extended_log_format rest
  /\ _parse_extended_log_format before = Ok (frame_of_rows []).
Proof.
  intros H. unfold _parse_extended_log_format. split.
  - rewrite (elf_data_before_fields before rest H). reflexivity.
  - pose proof (elf_data_before_fields before [] H) as E.
    rewrite app_nil_r in E. rewrite E. reflexivity.
Qed.

End WithRuntime.

(** Two data lines and a remark in front of the directive. *)
Lemma elf_needs_fields_directive_witness :
  forallb no_fields_directive ["10.0.0.1 GET /index.html"; "#Version: 1.0"] = true
  /\ _parse_extended_log_format (R := Reference.runtime)
       (["10.0.0.1 GET /index.html"; "#Version: 1.0"]
        ++ ["#Fields: c-ip cs-method"; "10.0.0.2 GET"])
     = _parse_extended_log_format (R := Reference.runtime)
         ["#Fields: c-ip cs-method"; "10.0.0.2 GET"]
  /\ _parse_extended_log_format (R := Reference.runtime)
       ["10.0.0.1 GET /index.html"; "#Version: 1.0"]
     = Ok (frame_of_rows []).
Proof.
  split; [reflexivity|].
  exact (elf_needs_fields_directive (R := Reference.runtime)
           ["10.0.0.1 GET /index.html"; "#Version: 1.0"]
           ["#Fields: c-ip cs-method"; "10.0.0.2 GET"] eq_refl).
Defined.

End StructuredFacts.

(* ================================================================= *)
(** ** The generic parser and the rows built by position *)

Module GenericFacts.
Import PyStr LogParser.

(** *** Dictionaries with distinct keys *)

Lemma dict_set_fresh {V : Type} (k : string) (v : V) (d : list (string * V)) :
  ~ In k (map fst d) -> dict_set k v d = (d ++ [(k, v)])%list.
Proof.
  induction d as [|[k0 v0] d IH]; intros H; [reflexivity|].
  cbn [dict_set app]. cbn [map fst In] in H.
  destruct (String.eqb k0 k) eqn:E.
  - apply String.eqb_eq in E. exfalso. apply H. left. exact E.
  - rewrite IH; [reflexivity|]. intros Hin. apply H. right. exact Hin.
Qed.

Lemma dict_set_app_fresh {V : Type} (k : string) (v : V) (d d' : list (string * V)) :
  ~ In k (map fst d) -> dict_set k v (d ++ d')%list = (d ++ dict_set k v d')%list.
Proof.
  induction d as [|[k0 v0] d IH]; intros H; [reflexivity|].
  cbn [dict_set app]. cbn [map fst In] in H.
  destruct (String.eqb k0 k) eqn:E.
  - apply String.eqb_eq in E. exfalso. apply H. left. exact E.
  - rewrite IH; [reflexivity|]. intros Hin. apply H. right. exact Hin.
Qed.

Lemma dict_get_app_fresh {V : Type} (k : string) (d d' : list (string * V)) :
  ~ In k (map fst d) -> dict_get k (d ++ d')%list = dict_get k d'.
Proof.
  induction d as [|[k0 v0] d IH]; intros H; [reflexivity|].
  cbn [dict_get app]. cbn [map fst In] in H.
  destruct (String.eqb k0 k) eqn:E.
  - apply String.eqb_eq in E. exfalso. apply H. left. exact E.
  - apply IH. intros Hin. apply H. right. exact Hin.
Qed.

Lemma dict_set_not_nil {V : Type} (k : string) (v : V) (d : list (string * V)) :
  dict_set k v d <> [].
Proof.
  destruct d as [|[k0 v0] d]; cbn [dict_set]; [discriminate|].
  destruct (String.eqb k0 k); discriminate.
Qed.

Lemma keys_of_combine {V : Type} (ks : list string) (vs : list V) (k : string) :
  In k (map fst (combine ks vs)) -> In k ks.
Proof.
  revert vs; induction ks as [|k0 ks IH]; intros vs H; [contradiction|].
  destruct vs as [|v vs]; [contradiction|].
  cbn [combine map fst In] in H. destruct H as [<- | H]; [left; reflexivity|].
  right. exact (IH _ H).
Qed.

Lemma combine_snoc {V : Type} (ks : list string) (vs : list V) (k : string) (v : V) :
  List.length ks = List.length vs ->
  combine (ks ++ [k]) (vs ++ [v]) = (combine ks vs ++ [(k, v)])%list.
Proof.
  revert vs; induction ks as [|k0 ks IH]; intros vs H.
  - destruct vs; [reflexivity | discriminate H].
  - destruct vs as [|v0 vs]; [discriminate H|].
    cbn [app combine]. rewrite IH by (simpl in H; lia). reflexivity.
Qed.

Lemma firstn_snoc {A : Type} (l : list A) (i : nat) (x : A) :
  nth_error l i = Some x -> firstn (S i) l = (firstn i l ++ [x])%list.
Proof.
  revert i; induction l as [|y l IH]; intros i H.
  - destruct i; discriminate H.
  - destruct i as [|i].
    + injection H as ->. reflexivity.
    + cbn [nth_error] in H. cbn [firstn app]. rewrite <- (IH i H). reflexivity.
Qed.

Lemma nodup_nth_fresh (cols : list string) (i : nat) (col : string) :
  NoDup cols -> nth_error cols i = Some col -> ~ In col (firstn i cols).
Proof.
  intros Hnd; revert i; induction Hnd as [|c cols Hc Hnd IH]; intros i H.
  - destruct i; discriminate H.
  - destruct i as [|i]; [intros []|].
    cbn [nth_error] in H. cbn [firstn]. intros [-> | Hin].
    + apply Hc. exact (nth_error_In _ _ H).
    + exact (IH i H Hin).
Qed.

(** *** The loop over the parts of a line *)

(** The parts at the positions of the columns: each goes under its
    column name. *)
Lemma fold_parts_within (cols : list string) : NoDup cols ->
  forall parts i vals,
    List.length vals = i -> i + List.length parts <= List.length cols ->
    fold_parts cols i parts (combine (firstn i cols) vals)
    = combine (firstn (i + List.length parts) cols) (vals ++ parts).
Proof.
  intros Hnd. induction parts as [|part rest IH]; intros i vals Hvals Hlen.
  - cbn [fold_parts List.length]. rewrite Nat.add_0_r, app_nil_r. reflexivity.
  - cbn [List.length] in Hlen. cbn [fold_parts].
    destruct (nth_error cols i) as [col|] eqn:Ecol.
    2:{ apply nth_error_None in Ecol. lia. }
    rewrite dict_set_fresh.
    2:{ intros Hin. apply keys_of_combine in Hin.
        exact (nodup_nth_fresh cols i col Hnd Ecol Hin). }
    assert (Hfirst : List.length (firstn i cols) = List.length vals).
    { rewrite length_firstn. lia. }
    rewrite <- (combine_snoc _ _ _ _ Hfirst), <- (firstn_snoc _ _ _ Ecol).
    rewrite IH by (rewrite ?length_app; simpl; lia).
    cbn [List.length]. rewrite <- app_assoc. cbn [app].
    f_equal. f_equal. lia.
Qed.

Lemma fold_parts_from_start (cols parts : list string) :
  NoDup cols -> List.length parts <= List.length cols ->
  fold_parts cols 0 parts [] = combine (firstn (List.length parts) cols) parts.
Proof. intros Hnd H. exact (fold_parts_within cols Hnd parts 0 [] eq_refl H). Qed.

(** [row.get(last, "") + " " + part] *)
Definition append_part (acc part : string) : string := acc ++ " " ++ part.

Lemma fold_parts_step_beyond (cols : list string) (i : nat) (part : string)
    (rest : list string) (row : str_row) :
  nth_error cols i = None -> cols <> [] ->
  fold_parts cols i (part :: rest) row
  = fold_parts cols (S i) rest
      (dict_set (last cols EmptyString)
         (append_part
            match dict_get (last cols EmptyString) row with
            | Some v => v
            | None => EmptyString
            end part) row).
Proof.
  intros Hnth Hne. cbn [fold_parts]. rewrite Hnth.
  destruct cols; [contradiction | reflexivity].
Qed.

(** The parts beyond the last column: each is appended to the value of
    the last column, after a space. *)
Lemma fold_parts_beyond (init : list string) (lc : string) (vals : list string) :
  NoDup (init ++ [lc]) -> List.length init = List.length vals ->
  forall extra i v,
    List.length (init ++ [lc]) <= i ->
    fold_parts (init ++ [lc]) i extra (combine init vals ++ [(lc, v)])%list
    = (combine init vals
       ++ [(lc, fold_left append_part extra v)])%list.
Proof.
  intros Hnd Hlen.
  assert (Hfresh : ~ In lc (map fst (combine init vals))).
  { intros Hin. apply keys_of_combine in Hin.
    apply NoDup_remove_2 in Hnd. rewrite app_nil_r in Hnd. exact (Hnd Hin). }
  induction extra as [|part rest IH]; intros i v Hi; [reflexivity|].
  assert (Enth : nth_error (init ++ [lc]) i = None) by (apply nth_error_None; exact Hi).
  assert (Hne : (init ++ [lc])%list <> []) by (destruct init; discriminate).
  rewrite (fold_parts_step_beyond _ _ _ _ _ Enth Hne), last_last.
  rewrite (dict_get_app_fresh _ _ _ Hfresh). cbn [dict_get]. rewrite String.eqb_refl.
  rewrite (dict_set_app_fresh _ _ _ _ Hfresh). cbn [dict_set]. rewrite String.eqb_refl.
  cbn [fold_left]. apply IH. lia.
Qed.

Lemma fold_parts_app (cols : list string) (a b : list string) :
  forall i row,
    fold_parts cols i (a ++ b) row
    = fold_parts cols (i + List.length a) b (fold_parts cols i a row).
Proof.
  induction a as [|x a IH]; intros i row.
  - cbn [app fold_parts List.length]. rewrite Nat.add_0_r. reflexivity.
  - cbn [app fold_parts List.length]. rewrite IH. f_equal. lia.
Qed.

Lemma join_fold (extra : list string) : forall v,
  fold_left append_part extra v = join " " (v :: extra).
Proof.
  induction extra as [|x extra IH]; intros v; [reflexivity|].
  cbn [fold_left]. rewrite IH. unfold append_part.
  destruct extra as [|y extra].
  - reflexivity.
  - cbn [join]. rewrite !SplitFacts.append_assoc. reflexivity.
Qed.

(** The values of a row: the parts, the ones from the last column on
    joined by spaces when there are more parts than columns. *)
Definition values_for (cols parts : list string) : list string :=
  if Nat.leb (List.length parts) (List.length cols) then parts
  else (firstn (List.length cols - 1) parts
        ++ [join " " (skipn (List.length cols - 1) parts)])%list.

(** The row built from the parts of a line, for distinct column names. *)
Lemma fold_parts_row (cols parts : list string) :
  NoDup cols -> cols <> [] ->
  fold_parts cols 0 parts [] = combine cols (values_for cols parts).
Proof.
  intros Hnd Hne. unfold values_for.
  destruct (Nat.leb (List.length parts) (List.length cols)) eqn:E.
  - apply Nat.leb_le in E.
    rewrite (fold_parts_from_start cols parts Hnd E).
    rewrite <- combine_firstn_r. reflexivity.
  - apply Nat.leb_gt in E.
    destruct (exists_last Hne) as (init & lc & ->).
    rewrite length_app in E |- *. cbn [List.length] in E |- *.
    replace (List.length init + 1 - 1) with (List.length init) by lia.
    set (n := List.length init) in *.
    assert (Hsplit : parts = (firstn n parts ++ skipn n parts)%list)
      by (symmetry; apply firstn_skipn).
    destruct (skipn n parts) as [|v extra] eqn:Eskip.
    { apply (f_equal (@List.length string)) in Eskip.
      rewrite length_skipn in Eskip. simpl in Eskip. lia. }
    assert (Hfirst : List.length (firstn n parts) = n) by (rewrite length_firstn; lia).
    rewrite Hsplit at 1.
    replace (firstn n parts ++ v :: extra)%list
      with ((firstn n parts ++ [v]) ++ extra)%list by (rewrite <- app_assoc; reflexivity).
    rewrite fold_parts_app.
    rewrite (fold_parts_from_start _ (firstn n parts ++ [v]) Hnd)
      by (rewrite !length_app; simpl; lia).
    cbn [plus]. rewrite !length_app. cbn [List.length].
    rewrite Hfirst.
    replace (firstn (n + 1) (init ++ [lc])) with (init ++ [lc])%list
      by (symmetry; apply firstn_all2; rewrite length_app; simpl; lia).
    rewrite (combine_snoc init (firstn n parts) lc v) by (symmetry; exact Hfirst).
    rewrite (fold_parts_beyond init lc (firstn n parts) Hnd (eq_sym Hfirst))
      by (rewrite length_app; simpl; lia).
    rewrite join_fold.
    rewrite (combine_snoc init (firstn n parts) lc) by (symmetry; exact Hfirst).
    reflexivity.
Qed.

Lemma fold_parts_keeps (cols : list string) (parts : list string) :
  forall i row, row <> [] -> fold_parts cols i parts row <> [].
Proof.
  induction parts as [|part rest IH]; intros i row H; [exact H|].
  cbn [fold_parts]. apply IH.
  destruct (nth_error cols i); [apply dict_set_not_nil|].
  destruct cols; [exact H | apply dict_set_not_nil].
Qed.

(** Without columns there is no row. *)
Lemma fold_parts_no_columns (parts : list string) : forall i,
  fold_parts [] i parts [] = [].
Proof.
  induction parts as [|part rest IH]; intros i; [reflexivity|].
  cbn [fold_parts]. destruct i; apply IH.
Qed.

Lemma split_on_not_nil (fuel : nat) (sep : string) : forall cur s,
  split_on fuel sep cur s <> [].
Proof.
  induction fuel as [|fuel IH]; intros cur s; cbn [split_on]; [discriminate|].
  destruct s as [|c s]; [discriminate|].
  destruct (prefix sep (String c s)); [discriminate | apply IH].
Qed.

(** The parts of a line: [line.strip().split(sep)]. *)
Definition parts_of (sep line : string) : list string :=
  split_on (S (length (strip line))) sep EmptyString (strip line).

Lemma split_sep_parts (sep line : string) :
  sep <> EmptyString -> split_sep sep (strip line) = Some (parts_of sep line).
Proof. intros H. unfold split_sep. destruct sep; [contradiction | reflexivity]. Qed.

Section WithRuntime.

Context {R : Runtime}.

(** With columns, the generic parser builds a row from every line. *)
Lemma generic_data_rows (self : parser) (lines : list string) :
  separator self <> EmptyString -> columns self <> [] ->
  generic_data self lines
  = Ok (map (fun line => fold_parts (columns self) 0 (parts_of (separator self) line) [])
          lines).
Proof.
  intros Hsep Hcols. induction lines as [|line rest IH]; [reflexivity|].
  cbn [generic_data map]. rewrite (split_sep_parts _ line Hsep), IH. cbn [bind].
  assert (Hrow : fold_parts (columns self) 0 (parts_of (separator self) line) [] <> []).
  { unfold parts_of.
    pose proof (split_on_not_nil (S (length (strip line))) (separator self)
                  EmptyString (strip line)) as Hne.
    destruct (split_on _ _ _ _) as [|part parts]; [contradiction|].
    cbn [fold_parts]. apply fold_parts_keeps.
    destruct (columns self) as [|c cols]; [contradiction|].
    cbn [nth_error]. apply dict_set_not_nil. }
  destruct (fold_parts _ _ _ _); [contradiction | reflexivity].
Qed.

Lemma generic_data_no_columns (self : parser) (lines : list string) :
  separator self <> EmptyString -> columns self = [] -> generic_data self lines = Ok [].
Proof.
  intros Hsep Hcols. induction lines as [|line rest IH]; [reflexivity|].
  cbn [generic_data]. rewrite (split_sep_parts _ line Hsep), IH, Hcols. cbn [bind].
  rewrite fold_parts_no_columns. reflexivity.
Qed.

Lemma generic_table (self : parser) (lines : list string) :
  separator self <> EmptyString -> columns self <> [] -> NoDup (columns self) ->
  _parse_generic_logs self lines
  = Ok (frame_of_rows
          (map (fun line =>
                  combine (columns self)
                    (values_for (columns self) (parts_of (separator self) line)))
             lines)).
Proof.
  intros Hsep Hcols Hnd. unfold _parse_generic_logs.
  rewrite (generic_data_rows self lines Hsep Hcols). cbn [bind].
  f_equal. f_equal. apply map_ext. intros line.
  apply fold_parts_row; assumption.
Qed.

(** X4.  The generic parser drops no line when the parser has columns.
    With a separator that is not empty and column names that are
    distinct, the table has one row per line, in the order of the lines:
    the parts of the stripped line under the column names, a line with
    fewer parts than columns giving a shorter row, and the parts from
    the last column on put together again with single spaces (whatever
    the separator is) when there are more parts than columns. *)
Theorem generic_parser_rows (self : parser) (lines : list string) :
  separator self <> EmptyString -> columns self <> [] -> NoDup (columns self) ->
  _parse_generic_logs self lines
  = Ok (frame_of_rows
          (map (fun line =>
                  combine (columns self)
                    (values_for (columns self) (parts_of (separator self) line)))
             lines))
  /\ exists df, _parse_generic_logs self lines = Ok df
                /\ frame_len df = List.length lines.
Proof.
  intros Hsep Hcols Hnd. rewrite (generic_table self lines Hsep Hcols Hnd).
  split; [reflexivity|].
  eexists. split; [reflexivity|].
  unfold frame_len, frame_of_rows, DataFrame_of. cbn [frame_data].
  rewrite !length_map. reflexivity.
Qed.

End WithRuntime.

Lemma nodup_application : NoDup (Config.get_columns "application").
Proof.
  repeat (constructor; [cbn; intuition discriminate|]). constructor.
Qed.

(** The parser of the application logs on a line of two words and on a
    line of nine. *)
Lemma generic_parser_rows_witness :
  separator (configure "application") <> EmptyString
  /\ columns (configure "application") <> []
  /\ exists df,
       _parse_generic_logs (R := Reference.runtime) (configure "application")
         ["one two"; "1 app ERROR 42 main.py 7 disk is full"] = Ok df
       /\ frame_len df = 2.
Proof.
  split; [discriminate|]. split; [discriminate|].
  exact (proj2 (generic_parser_rows (R := Reference.runtime) (configure "application")
                  ["one two"; "1 app ERROR 42 main.py 7 disk is full"]
                  ltac:(discriminate) ltac:(discriminate) nodup_application)).
Defined.

End GenericFacts.

(* ================================================================= *)
(** ** Which parser a declared type reaches *)

Module DispatchFacts.
Import PyStr LogParser GenericFacts.

(** A name that [LOG_TYPES] does not have differs from each of its keys. *)
Lemma lookup_none (t : string) (table : list (string * Config.LogTypeSpec)) :
  Config.lookup t table = None ->
  forall k, mem k (map fst table) = true -> String.eqb t k = false.
Proof.
  induction table as [|[k0 v0] table IH]; intros H k Hk; [discriminate Hk|].
  cbn [Config.lookup] in H. cbn [map fst mem existsb] in Hk.
  destruct (String.eqb k0 t) eqn:E; [discriminate H|].
  apply orb_true_iff in Hk as [Hk | Hk].
  - apply String.eqb_eq in Hk. subst k0. rewrite String.eqb_sym. exact E.
  - exact (IH H k Hk).
Qed.

Section WithRuntime.

Context {R : Runtime}.

(** The lines [parse_file] reads from a path. *)
Definition lines_at (fs : Utils.FileSystem) (file_path : string) : list string :=
  _read_file_by_format fs file_path (_detect_file_format fs file_path).

Lemma parse_file_declared (self : parser) (fs : Utils.FileSystem) (file_path : string) :
  is_type self Config.DEFAULT_LOG_TYPE = false ->
  parse_file self fs file_path
  = (try_except (dispatch_file self (lines_at fs file_path))
       (fun _ => DataFrame_columns (columns self)), self).
Proof.
  intros H. rewrite EntryPointFacts.parse_file_eq.
  rewrite (EntryPointFacts.settled_declared self fs file_path H). reflexivity.
Qed.

(** X5.  A parser declared with a log type that [LOG_TYPES] does not
    have reads no row from any file.  [parse_file] does no detection for
    it and hands the lines to the generic parser; the parser has no
    columns (and the separator of one space), so that no part of any
    line is kept: the table has no rows, whatever the file holds, and
    the parser object is left as it was. *)
Theorem unknown_type_parses_nothing (t : string) (fs : Utils.FileSystem)
    (file_path : string) :
  t <> EmptyString -> Config.lookup t Config.LOG_TYPES = None ->
  parse_file (__init__ (Some t)) fs file_path = (frame_of_rows [], __init__ (Some t))
  /\ columns (__init__ (Some t)) = []
  /\ separator (__init__ (Some t)) = " ".
Proof.
  intros Hne Hnone.
  assert (Hinit : __init__ (Some t) = configure t).
  { unfold __init__. destruct t; [contradiction | reflexivity]. }
  assert (Hneq : forall k, mem k (map fst Config.LOG_TYPES) = true -> is_type (configure t) k = false).
  { intros k Hk. exact (lookup_none t _ Hnone k Hk). }
  assert (Hcols : columns (configure t) = []).
  { cbn [configure columns]. unfold Config.get_columns. rewrite Hnone. reflexivity. }
  assert (Hsep : separator (configure t) = " ").
  { cbn [configure separator]. unfold Config.get_separator. rewrite Hnone. reflexivity. }
  rewrite Hinit. split; [|split; assumption].
  rewrite parse_file_declared by (apply Hneq; reflexivity).
  unfold dispatch_file.
  rewrite !Hneq by reflexivity.
  unfold _parse_generic_logs.
  rewrite generic_data_no_columns; [reflexivity | rewrite Hsep; discriminate | exact Hcols].
Qed.

(** X6.  [parse_file] has no branch for the log type [application]: a
    parser declared with it goes through the generic parser, which keeps
    every line of the file (one row per line, short lines included),
    while [parse_uploaded_file] calls [_parse_application_logs], which
    drops the lines of fewer than seven words.  On the line of two words
    the first gives one row and the second none. *)
Theorem application_file_is_parsed_generically (fs : Utils.FileSystem) (file_path : string) :
  parse_file (__init__ (Some "application")) fs file_path
  = (frame_of_rows
       (map (fun line =>
               combine (Config.get_columns "application")
                 (values_for (Config.get_columns "application") (parts_of " " line)))
          (lines_at fs file_path)),
     __init__ (Some "application"))
  /\ frame_len (fst (parse_file (__init__ (Some "application")) fs file_path))
     = List.length (lines_at fs file_path)
  /\ (forall lines,
        dispatch_upload (__init__ (Some "application")) lines = _parse_application_logs lines)
  /\ _parse_application_logs ["one two"] = Ok (frame_of_rows [])
  /\ _parse_generic_logs (__init__ (Some "application")) ["one two"]
     = Ok (frame_of_rows [[("timestamp", "one"); ("app_name", "two")]]).
Proof.
  assert (E : parse_file (__init__ (Some "application")) fs file_path
              = (frame_of_rows
                   (map (fun line =>
                           combine (Config.get_columns "application")
                             (values_for (Config.get_columns "application")
                                (parts_of " " line)))
                      (lines_at fs file_path)),
                 __init__ (Some "application"))).
  { rewrite parse_file_declared by reflexivity.
    change (dispatch_file (__init__ (Some "application")) (lines_at fs file_path))
      with (_parse_generic_logs (configure "application") (lines_at fs file_path)).
    rewrite (generic_table (configure "application") (lines_at fs file_path));
      [reflexivity | discriminate | discriminate | exact nodup_application]. }
  split; [exact E|]. split.
  - rewrite E. cbn [fst]. unfold frame_len, frame_of_rows, DataFrame_of. cbn [frame_data].
    rewrite !length_map. reflexivity.
  - split; [reflexivity|]. split; vm_compute; reflexivity.
Qed.

End WithRuntime.

(** A parser declared for proxy logs, a type without an entry. *)
Lemma unknown_type_parses_nothing_witness :
  "proxy" <> EmptyString
  /\ Config.lookup "proxy" Config.LOG_TYPES = None
  /\ parse_file (R := Reference.runtime) (__init__ (Some "proxy"))
       (Reference.one_file "proxy.log" "1704067200 10.0.0.1 GET /") "proxy.log"
     = (frame_of_rows [], __init__ (Some "proxy")).
Proof.
  split; [discriminate|]. split; [reflexivity|].
  exact (proj1 (unknown_type_parses_nothing (R := Reference.runtime) "proxy"
                  (Reference.one_file "proxy.log" "1704067200 10.0.0.1 GET /") "proxy.log"
                  ltac:(discriminate) eq_refl)).
Defined.

End DispatchFacts.

(* ================================================================= *)
(** ** Detection of the log type from the content *)

Module DetectionFacts.
Import PyStr LogParser.

(** The answer of [detect_log_type] is one of three names. *)
Lemma detect_in_range (sample_lines : list string) :
  In (Utils.detect_in sample_lines) ["browsing"; "virus"; "mail"].
Proof.
  induction sample_lines as [|line rest IH]; cbn [Utils.detect_in].
  - left. reflexivity.
  - destruct (Utils.is_browsing line); [left; reflexivity|].
    destruct (Re.found Utils.virus_re line); [right; left; reflexivity|].
    destruct (Re.found Utils.mail_re line); [right; right; left; reflexivity|].
    exact IH.
Qed.

Section WithRuntime.

Context {R : Runtime}.

Lemma detect_log_type_range (fs : Utils.FileSystem) (file_path : string) :
  In (Utils.detect_log_type fs file_path) ["browsing"; "virus"; "mail"].
Proof.
  unfold Utils.detect_log_type.
  destruct (fs file_path) as [content|]; [|left; reflexivity].
  destruct (readlines_strict content 5); [apply detect_in_range | left; reflexivity].
Qed.

(** X7.  [detect_log_type] answers browsing, virus or mail, and
    browsing for a file that cannot be read.  When its answer is not
    browsing, [parse_file] on a parser of the default type takes it as
    the log type and does not consult the classifier of the content:
    the parser is left configured for that type, whatever the first
    line looks like. *)
Theorem keywords_of_the_head_decide (fs : Utils.FileSystem) (file_path : string) :
  In (Utils.detect_log_type fs file_path) ["browsing"; "virus"; "mail"]
  /\ (fs file_path = None -> Utils.detect_log_type fs file_path = "browsing")
  /\ (Utils.detect_log_type fs file_path <> "browsing" ->
      snd (parse_file (__init__ None) fs file_path)
      = configure (Utils.detect_log_type fs file_path)).
Proof.
  split; [apply detect_log_type_range|]. split.
  - intros H. unfold Utils.detect_log_type. rewrite H. reflexivity.
  - intros Hne. rewrite EntryPointFacts.parse_file_eq. cbn [snd].
    apply (EntryPointFacts.settled_detected (__init__ None) fs file_path); [reflexivity|].
    apply String.eqb_neq. exact Hne.
Qed.

(** X8.  [_detect_log_type_from_content] leaves the parser configured
    from [LOG_TYPES] for the type it ends with, also when no keyword is
    found, and a second run over the same sample changes nothing.  It
    gives the parser that [_detect_log_format_from_content] gives when
    the sample is empty or its first line passes none of the four
    structured checks; when the first line is a JSON object, the latter
    sets the type only and keeps the columns the parser had. *)
Theorem type_detection_configures (self : parser) (sample : list string) :
  _detect_log_type_from_content self sample
  = configure (log_type (_detect_log_type_from_content self sample))
  /\ _detect_log_type_from_content (_detect_log_type_from_content self sample) sample
     = _detect_log_type_from_content self sample
  /\ _detect_log_format_from_content self [] = _detect_log_type_from_content self []
  /\ (forall first rest,
        ClassifierFacts.looks_json first = false ->
        ClassifierFacts.looks_clf first = false ->
        ClassifierFacts.looks_elf first = false ->
        ClassifierFacts.looks_syslog first = false ->
        _detect_log_format_from_content self (first :: rest)
        = _detect_log_type_from_content self (first :: rest))
  /\ (forall first rest,
        ClassifierFacts.looks_json first = true ->
        _detect_log_format_from_content self (first :: rest) = set_log_type self "json"
        /\ columns (_detect_log_format_from_content self (first :: rest)) = columns self).
Proof.
  split; [reflexivity|]. split.
  - unfold _detect_log_type_from_content.
    destruct (scan_keywords sample); reflexivity.
  - split; [reflexivity|]. split.
    + intros first rest Hj Hc He Hs.
      rewrite ClassifierFacts.detect_unfold, Hj, Hc, He, Hs. reflexivity.
    + intros first rest Hj.
      rewrite ClassifierFacts.detect_unfold, Hj. split; reflexivity.
Qed.

End WithRuntime.

End DetectionFacts.

(* ================================================================= *)
(** ** Parsing a file in pieces *)

Module ChunkFacts.
Import PyStr LogParser.

Lemma syslog_data_app (l1 l2 : list string) :
  syslog_data (l1 ++ l2)%list = (syslog_data l1 ++ syslog_data l2)%list.
Proof.
  induction l1 as [|line rest IH]; [reflexivity|].
  cbn [app syslog_data].
  destruct (Re.re_match syslog_pattern (strip line)); rewrite IH; reflexivity.
Qed.

Lemma clf_data_app (l1 l2 : list string) :
  clf_data (l1 ++ l2)%list = (clf_data l1 ++ clf_data l2)%list.
Proof.
  induction l1 as [|line rest IH]; [reflexivity|].
  cbn [app clf_data].
  destruct (Re.re_match clf_pattern (strip line)); rewrite IH; reflexivity.
Qed.

Section WithRuntime.

Context {R : Runtime}.

(** A parser that reads each line on its own: the table of two lists of
    lines put end to end holds the rows of the first, then the rows of
    the second. *)
Definition line_by_line (parse : list string -> result DataFrame) : Prop :=
  forall l1 l2, exists d1 d2,
    parse l1 = Ok (DataFrame_of d1) /\ parse l2 = Ok (DataFrame_of d2)
    /\ parse (l1 ++ l2)%list = Ok (DataFrame_of (d1 ++ d2)%list).

Lemma line_by_line_rows (parse : list string -> result DataFrame)
    (rows : string -> list str_row) :
  (forall lines, parse lines = Ok (frame_of_rows (flat_map rows lines))) ->
  line_by_line parse.
Proof.
  intros H l1 l2.
  exists (map row_of (flat_map rows l1)), (map row_of (flat_map rows l2)).
  rewrite !H. split; [reflexivity|]. split; [reflexivity|].
  unfold frame_of_rows. rewrite flat_map_app, map_app. reflexivity.
Qed.

Lemma fixed_table (data : list string -> result (list str_row)) (t : string) :
  (forall lines, data lines = Ok (flat_map (FixedFieldFacts.rows_for t) lines)) ->
  forall lines,
    (rows <- data lines ;; Ok (frame_of_rows rows))
    = Ok (frame_of_rows (flat_map (FixedFieldFacts.rows_for t) lines)).
Proof. intros H lines. rewrite H. reflexivity. Qed.

(** The parsers that keep a variable from one line to the next. *)
Definition fields_line : string := "#Fields: a".

(** X9.  Ten parsers read each line on its own, so that a file can be
    parsed in pieces: for the virus, mail, firewall, auth, system,
    application, ids and vpn parsers and for the syslog and Common Log
    Format parsers, the table of two lists of lines put end to end holds
    the rows of the first list followed by the rows of the second.  The
    Extended Log Format parser and the CSV parser do not: the rows of a
    piece depend on the [#Fields:] directive or on the header line of
    the piece before. *)
Theorem parsers_that_read_line_by_line :
  Forall line_by_line
    [ _parse_virus_logs; _parse_mail_logs; _parse_firewall_logs; _parse_auth_logs;
      _parse_system_logs; _parse_application_logs; _parse_ids_logs; _parse_vpn_logs;
      _parse_syslog_format; _parse_common_log_format ]
  /\ ~ line_by_line _parse_extended_log_format
  /\ ~ line_by_line _parse_csv_format.
Proof.
  split.
  - repeat constructor.
    + apply (line_by_line_rows _ (FixedFieldFacts.rows_for "virus")).
      apply fixed_table, FixedFieldFacts.virus_data_spec.
    + apply (line_by_line_rows _ (FixedFieldFacts.rows_for "mail")).
      apply fixed_table, FixedFieldFacts.mail_data_spec.
    + apply (line_by_line_rows _ (FixedFieldFacts.rows_for "firewall")).
      apply fixed_table, FixedFieldFacts.firewall_data_spec.
    + apply (line_by_line_rows _ (FixedFieldFacts.rows_for "auth")).
      apply fixed_table, FixedFieldFacts.auth_data_spec.
    + apply (line_by_line_rows _ (FixedFieldFacts.rows_for "system")).
      apply fixed_table, FixedFieldFacts.system_data_spec.
    + apply (line_by_line_rows _ (FixedFieldFacts.rows_for "application")).
      apply fixed_table, FixedFieldFacts.application_data_spec.
    + apply (line_by_line_rows _ (FixedFieldFacts.rows_for "ids")).
      apply fixed_table, FixedFieldFacts.ids_data_spec.
    + apply (line_by_line_rows _ (FixedFieldFacts.rows_for "vpn")).
      apply fixed_table, FixedFieldFacts.vpn_data_spec.
    + intros l1 l2.
      exists (map row_of (syslog_data l1)), (map row_of (syslog_data l2)).
      split; [reflexivity|]. split; [reflexivity|].
      unfold _parse_syslog_format, frame_of_rows. rewrite syslog_data_app, map_app.
      reflexivity.
    + intros l1 l2.
      exists (map row_of (clf_data l1)), (map row_of (clf_data l2)).
      split; [reflexivity|]. split; [reflexivity|].
      unfold _parse_common_log_format, frame_of_rows. rewrite clf_data_app, map_app.
      reflexivity.
  - split.
    + intros H. destruct (H [fields_line] ["x"]) as (d1 & d2 & H1 & H2 & H12).
      vm_compute in H1, H2, H12.
      injection H1 as <-. injection H2 as <-. discriminate H12.
    + intros H. destruct (H ["a"] ["x"]) as (d1 & d2 & H1 & H2 & H12).
      vm_compute in H1, H2, H12.
      injection H1 as <-. injection H2 as <-. discriminate H12.
Qed.

End WithRuntime.

End ChunkFacts.

(* ================================================================= *)
(** ** The two sniffers and the two readers *)

Module ReaderFacts.
Import PyStr PyCsv LogParser CommaFacts.

(** *** Lower case and the extension of a name *)

Lemma lower_char_keeps (x c : ascii) :
  (c = "/" \/ c = ".")%char -> Ascii.eqb (lower_char x) c = Ascii.eqb x c.
Proof.
  intros [-> | ->]; destruct x as [[] [] [] [] [] [] [] []]; reflexivity.
Qed.

Lemma lower_char_idem (x : ascii) : lower_char (lower_char x) = lower_char x.
Proof. destruct x as [[] [] [] [] [] [] [] []]; reflexivity. Qed.

Lemma lower_idem (s : string) : lower (lower s) = lower s.
Proof.
  induction s as [|x s IH]; [reflexivity|].
  cbn [lower]. rewrite lower_char_idem, IH. reflexivity.
Qed.

Lemma length_lower (s : string) : length (lower s) = length s.
Proof. induction s as [|x s IH]; [reflexivity|]. cbn [lower length]. rewrite IH. reflexivity. Qed.

Lemma substring_lower (s : string) : forall n m,
  substring n m (lower s) = lower (substring n m s).
Proof.
  induction s as [|x s IH]; intros n m.
  - destruct n, m; reflexivity.
  - destruct n as [|n]; destruct m as [|m]; cbn [lower substring]; try reflexivity.
    + rewrite IH. reflexivity.
    + apply IH.
    + apply IH.
Qed.

Lemma after_last_lower (c : ascii) (s : string) :
  (c = "/" \/ c = ".")%char ->
  after_last c (lower s) = option_map lower (after_last c s).
Proof.
  intros Hc. induction s as [|x s IH]; [reflexivity|].
  cbn [lower after_last]. rewrite IH, (lower_char_keeps x c Hc).
  destruct (after_last c s); [reflexivity|].
  destruct (Ascii.eqb x c); reflexivity.
Qed.

Lemma all_dots_lower (s : string) :
  all_chars (Ascii.eqb ".") (lower s) = all_chars (Ascii.eqb ".") s.
Proof.
  induction s as [|x s IH]; [reflexivity|].
  cbn [lower all_chars]. rewrite IH.
  rewrite (Ascii.eqb_sym "." (lower_char x)), (Ascii.eqb_sym "." x).
  rewrite (lower_char_keeps x "." (or_intror eq_refl)). reflexivity.
Qed.

(** The extension of the lowered name is the lowered extension. *)
Lemma splitext_lower (p : string) : splitext_ext (lower p) = lower (splitext_ext p).
Proof.
  unfold splitext_ext.
  rewrite (after_last_lower "/" p (or_introl eq_refl)).
  assert (Hbase : match option_map lower (after_last "/" p) with
                  | Some b => b
                  | None => lower p
                  end
                  = lower match after_last "/" p with Some b => b | None => p end).
  { destruct (after_last "/" p); reflexivity. }
  rewrite Hbase.
  set (base := match after_last "/" p with Some b => b | None => p end).
  rewrite (after_last_lower "." base (or_intror eq_refl)).
  destruct (after_last "." base) as [e|]; [|reflexivity].
  cbn [option_map]. rewrite !length_lower, substring_lower, all_dots_lower.
  destruct (all_chars _ _); reflexivity.
Qed.

Lemma format_of_extension_range (e f : string) :
  format_of_extension e = Some f -> In f ["gzip"; "bz2"; "zip"; "json"; "xml"; "csv"].
Proof.
  unfold format_of_extension.
  repeat match goal with
         | |- context [if ?b then _ else _] => destruct b
         end; intros H; try discriminate H; injection H as <-; cbn; tauto.
Qed.

Lemma format_of_magic_range (h : list byte) (f : string) :
  format_of_magic h = Some f -> In f ["gzip"; "bz2"; "zip"].
Proof.
  unfold format_of_magic.
  repeat match goal with
         | |- context [if ?b then _ else _] => destruct b
         end; intros H; try discriminate H; injection H as <-; cbn; tauto.
Qed.

Section WithRuntime.

Context {R : Runtime}.

Lemma format_of_first_line_range (l : string) :
  In (format_of_first_line l) ["json"; "xml"; "csv"; "plain"].
Proof.
  unfold format_of_first_line.
  repeat match goal with
         | |- context [if ?b then _ else _] => destruct b
         end; cbn; tauto.
Qed.

(** X10.  The sniffer of uploaded files and the sniffer of paths give
    the same format for the same name and bytes, except where the path
    sniffer reads a first line: with an extension that is not known, no
    magic number and no binary byte in the header, the upload is always
    plain while the path may be json, xml or csv.  The upload is left at
    the position it was in, its start, and the answer of the path sniffer
    is one of eight formats. *)
Theorem sniffers_agree (fs : Utils.FileSystem) (file_path : string) (content : list byte) :
  fs file_path = Some content ->
  (fst (_detect_uploaded_file_format (mk_upload file_path content 0))
   = _detect_file_format fs file_path
   \/ (fst (_detect_uploaded_file_format (mk_upload file_path content 0)) = "plain"
       /\ In (_detect_file_format fs file_path) ["json"; "xml"; "csv"]
       /\ format_of_extension (lower (splitext_ext file_path)) = None))
  /\ snd (_detect_uploaded_file_format (mk_upload file_path content 0))
     = mk_upload file_path content 0
  /\ In (_detect_file_format fs file_path)
       ["gzip"; "bz2"; "zip"; "json"; "xml"; "csv"; "binary"; "plain"].
Proof.
  intros Hfs.
  unfold _detect_uploaded_file_format, _detect_file_format.
  cbn [name]. rewrite splitext_lower, lower_idem, Hfs.
  destruct (format_of_extension (lower (splitext_ext file_path))) as [f|] eqn:Eext.
  { split; [left; reflexivity|]. split; [reflexivity|].
    pose proof (format_of_extension_range _ _ Eext) as Hr. cbn in Hr |- *. tauto. }
  unfold read_n, seek0. cbn [pos data name skipn fst snd].
  destruct (format_of_magic (firstn 8 content)) as [f|] eqn:Emagic.
  { split; [left; reflexivity|]. split; [reflexivity|].
    pose proof (format_of_magic_range _ _ Emagic) as Hr. cbn in Hr |- *. tauto. }
  destruct (is_binary (firstn 8 content)).
  { split; [left; reflexivity|]. split; [reflexivity|]. cbn. tauto. }
  cbn [fst snd].
  pose proof (format_of_first_line_range
                (strip (PyIO.readline (decode_locale content)))) as Hr.
  split; [|split; [reflexivity | cbn in Hr |- *; tauto]].
  destruct Hr as [Hr | [Hr | [Hr | [Hr | []]]]]; rewrite <- Hr.
  - right. split; [reflexivity|]. split; [cbn; tauto | reflexivity].
  - right. split; [reflexivity|]. split; [cbn; tauto | reflexivity].
  - right. split; [reflexivity|]. split; [cbn; tauto | reflexivity].
  - left. reflexivity.
Qed.

End WithRuntime.

(** A file of one line with a comma, under a name with the extension
    [.log]: the hypothesis, and the upload afterwards. *)
Lemma sniffers_agree_witness :
  Reference.one_file "events.log" "a,b" "events.log" = Some (Reference.bytes_of "a,b")
  /\ snd (_detect_uploaded_file_format
            (mk_upload "events.log" (Reference.bytes_of "a,b") 0))
     = mk_upload "events.log" (Reference.bytes_of "a,b") 0.
Proof.
  split; [reflexivity|].
  exact (proj1 (proj2 (sniffers_agree (R := Reference.runtime)
                         (Reference.one_file "events.log" "a,b") "events.log"
                         (Reference.bytes_of "a,b") eq_refl))).
Defined.

(** *** Rows joined again *)

Definition LF_end : string := String PyIO.LF EmptyString.

Lemma join_cut (s : string) : forall cur, join "," (cut cur s) = cur ++ s.
Proof.
  induction s as [|c s IH]; intros cur.
  - cbn [cut join]. symmetry. apply SplitFacts.append_empty.
  - cbn [cut]. destruct (Ascii.eqb c delimiter) eqn:E.
    + apply Ascii.eqb_eq in E. subst c.
      pose proof (cut_not_nil EmptyString s) as Hne.
      specialize (IH EmptyString).
      destruct (cut EmptyString s) as [|p ps]; [contradiction|].
      cbn [join] in IH |- *. rewrite IH. reflexivity.
    + rewrite IH, SplitFacts.append_assoc. reflexivity.
Qed.

(** A line without quotes, with its line end, of a length the reader
    accepts. *)
Definition plain_line (body e : string) : Prop :=
  all_chars CsvFacts.plain_char body = true /\ CsvFacts.line_end e
  /\ (N.of_nat (length body) <= field_limit)%N.

Lemma csv_rows_plain (lines : list (string * string)) :
  Forall (fun be => plain_line (fst be) (snd be)) lines ->
  exists rows,
    to_list (csv_reader (map (fun be => fst be ++ snd be) lines)) = Ok rows
    /\ map (join ",") rows = map fst lines.
Proof.
  induction 1 as [|[body e] lines (Hall & He & Hlen) _ (rows & Hrows & Hjoin)].
  - exists []. split; reflexivity.
  - cbn [map fst snd].
    destruct body as [|c body].
    + exists ([] :: rows). cbn [append].
      rewrite (CsvFacts.csv_reader_empty_line e _ He). cbn [to_list]. rewrite Hrows. cbn [bind].
      split; [reflexivity|]. cbn [map join]. rewrite Hjoin. reflexivity.
    + exists (cut EmptyString (String c body) :: rows).
      rewrite (CsvFacts.csv_reader_plain_line (String c body) e _ Hall
                 ltac:(discriminate) He Hlen).
      cbn [to_list]. rewrite Hrows. cbn [bind].
      split; [reflexivity|]. cbn [map]. rewrite Hjoin, join_cut. reflexivity.
Qed.

(** X11.  Reading lines as CSV and joining the fields of each row with
    commas, as the csv branch of both readers does, gives back every
    line that holds no double quote and no line break but a final line
    feed, without that line feed; an empty line is kept as an empty
    line.  (The lines are
    within the field limit of the csv reader.) *)
Theorem csv_lines_round_trip (lines : list (string * string)) :
  Forall (fun be => plain_line (fst be) (snd be)) lines ->
  csv_lines (map (fun be => fst be ++ snd be) lines) = Some (map fst lines).
Proof.
  intros H. destruct (csv_rows_plain lines H) as (rows & Hrows & Hjoin).
  unfold csv_lines. rewrite Hrows, Hjoin. reflexivity.
Qed.

(** Two lines with commas and an empty line between them. *)
Lemma csv_lines_round_trip_witness :
  csv_lines ["a,b" ++ LF_end; LF_end; "1,2"] = Some ["a,b"; EmptyString; "1,2"].
Proof.
  apply (csv_lines_round_trip [("a,b", LF_end); (EmptyString, LF_end); ("1,2", EmptyString)]).
  repeat apply Forall_cons; try apply Forall_nil;
    (split; [reflexivity | split; [| unfold field_limit; cbn; lia]]).
  - right. reflexivity.
  - right. reflexivity.
  - left. reflexivity.
Defined.

End ReaderFacts.

(* ================================================================= *)
(** ** The domain of a URL *)

Module DomainFacts.
Import PyStr Re Utils RegexFacts.

Definition not_slash (c : ascii) : bool := negb (Ascii.eqb c "/").

(** Group 1 of the pattern, and the match from there on. *)
Definition host_part : re := Grp 1 (plus (Chr not_slash)).
Definition host_k : cont := fun p s cs => run host_part p s cs accept.

(** The match from the optional [www.] on. *)
Definition www_k : cont := fun p s cs => run (opt (lit "www.")) p s cs host_k.

Lemma domain_run_eq (p : option ascii) (s : string) (cs : caps) :
  run domain_re p s cs accept
  = run (lit "http") p s cs (fun p1 s1 cs1 =>
    run (opt (chr "s")) p1 s1 cs1 (fun p2 s2 cs2 =>
    run (lit "://") p2 s2 cs2 www_k)).
Proof. reflexivity. Qed.

Lemma substring_consumed (c : ascii) (w t : string) :
  substring 0 (length (String c (w ++ t)) - length t) (String c (w ++ t)) = String c w.
Proof.
  cbn [length]. rewrite length_append.
  replace (S (length w + length t) - length t) with (S (length w)) by lia.
  cbn [substring]. rewrite substring_prefix. reflexivity.
Qed.

(** What group 1 holds after a match: at least one character, and no
    slash. *)
Definition host_found (m : caps) : Prop :=
  exists c w, group 1 m = Some (String c w) /\ all_chars not_slash (String c w) = true.

Lemma host_k_found (p : option ascii) (s : string) (cs m : caps) :
  host_k p s cs = Some m -> host_found m.
Proof.
  unfold host_k. intros E.
  assert (Hstep : run host_part p s cs accept
                  = match s with
                    | String c s1 =>
                        if not_slash c then
                          run (Star (Chr not_slash)) (Some c) s1 cs
                            (fun p' s' cs' =>
                               accept p' s'
                                 ((1, substring 0 (length s - length s') s) :: cs'))
                        else None
                    | EmptyString => None
                    end) by (destruct s; reflexivity).
  rewrite Hstep in E. destruct s as [|c s1]; [discriminate|].
  destruct (not_slash c) eqn:Ec; [|discriminate].
  destruct (run_consumes not_slash (Star (Chr not_slash)) (fun c H => H) _ _ _ _ _ E)
    as (w & t & p' & cs' & -> & Hw & E1).
  unfold accept in E1. rewrite substring_consumed in E1.
  injection E1 as <-. exists c, w. split; [reflexivity|].
  cbn [all_chars]. rewrite Ec, Hw. reflexivity.
Qed.

Lemma www_k_found (p : option ascii) (s : string) (cs m : caps) :
  www_k p s cs = Some m -> host_found m.
Proof.
  unfold www_k. intros E.
  destruct (run_returns _ _ _ _ _ _ E) as (w & t & p' & cs' & _ & E1).
  exact (host_k_found _ _ _ _ E1).
Qed.

Lemma domain_match_found (p : option ascii) (s : string) (m : caps) :
  run domain_re p s [] accept = Some m -> host_found m.
Proof.
  rewrite domain_run_eq. intros E.
  destruct (run_returns _ _ _ _ _ _ E) as (w1 & t1 & p1 & cs1 & _ & E1).
  destruct (run_returns _ _ _ _ _ _ E1) as (w2 & t2 & p2 & cs2 & _ & E2).
  destruct (run_returns _ _ _ _ _ _ E2) as (w3 & t3 & p3 & cs3 & _ & E3).
  exact (www_k_found _ _ _ _ E3).
Qed.

(** *** Where the scheme must be *)

Lemma prefix_drop (w : string) : forall s, prefix w s = true -> s = w ++ drop (length w) s.
Proof.
  induction w as [|c w IH]; intros s H; [reflexivity|].
  destruct s as [|x s]; [discriminate H|].
  cbn [prefix] in H. destruct (ascii_dec c x) as [<-|]; [|discriminate H].
  cbn [length drop append]. f_equal. exact (IH s H).
Qed.

Lemma prefix_append (w : string) : forall t, prefix w (w ++ t) = true.
Proof.
  induction w as [|c w IH]; intros t; [apply CommaFacts.prefix_empty|].
  cbn [append prefix]. destruct (ascii_dec c c) as [_|Hne]; [apply IH | contradiction].
Qed.

Lemma prefix_append_more (w : string) : forall a t, prefix a t = true -> prefix (w ++ a) (w ++ t) = true.
Proof.
  induction w as [|c w IH]; intros a t H; [exact H|].
  cbn [append prefix]. destruct (ascii_dec c c) as [_|Hne]; [apply IH; exact H | contradiction].
Qed.

Lemma contains_prefix (w s : string) : prefix w s = true -> contains w s = true.
Proof. intros H. destruct s; cbn [contains]; rewrite H; reflexivity. Qed.

Lemma contains_after (w pre : string) : forall t, contains w t = true -> contains w (pre ++ t) = true.
Proof.
  induction pre as [|c pre IH]; intros t H; [exact H|].
  cbn [append contains]. rewrite (IH t H). apply orb_true_r.
Qed.

(** A match begins with [http://] or [https://]. *)
Lemma domain_match_scheme (p : option ascii) (s : string) (m : caps) :
  run domain_re p s [] accept = Some m ->
  prefix "http://" s = true \/ prefix "https://" s = true.
Proof.
  rewrite domain_run_eq, run_lit. intros E.
  destruct (prefix "http" s) eqn:Eh; [|discriminate].
  rewrite (prefix_drop "http" s Eh).
  set (s1 := drop (length "http") s) in *.
  assert (Hopt : forall k p0 cs0,
             run (opt (chr "s")) p0 s1 cs0 k
             = match match s1 with
                     | String c s2 => if Ascii.eqb "s" c then k (Some c) s2 cs0 else None
                     | EmptyString => None
                     end with
               | Some r => Some r
               | None => k p0 s1 cs0
               end) by (intros; destruct s1; reflexivity).
  rewrite Hopt in E.
  match type of E with
  | match ?x with _ => _ end = _ => destruct x as [m'|] eqn:Es
  end.
  - right. destruct s1 as [|c s2]; [discriminate|].
    destruct (Ascii.eqb "s" c) eqn:Ec; [|discriminate].
    apply Ascii.eqb_eq in Ec. subst c.
    rewrite run_lit in Es. destruct (prefix "://" s2) eqn:E3; [|discriminate].
    exact (prefix_append_more "https" "://" s2 E3).
  - left. rewrite run_lit in E. destruct (prefix "://" s1) eqn:E3; [|discriminate].
    exact (prefix_append_more "http" "://" s1 E3).
Qed.

(** *** The host of a URL that begins with the scheme *)

(** The end of the host: the end of the URL, or a slash. *)
Definition host_ends (rest : string) : Prop :=
  rest = EmptyString \/ prefix "/" rest = true.

Lemma host_ends_first (rest : string) :
  host_ends rest -> match rest with String c _ => not_slash c = false | EmptyString => True end.
Proof.
  intros [-> | H]; [exact I|]. destruct rest as [|c rest]; [exact I|].
  cbn [prefix] in H. destruct (ascii_dec "/" c) as [<-|]; [reflexivity | discriminate H].
Qed.

Lemma host_k_value (c : ascii) (w rest : string) (p : option ascii) (cs : caps) :
  all_chars not_slash (String c w) = true -> host_ends rest ->
  host_k p (String c w ++ rest) cs = Some ((1, String c w) :: cs).
Proof.
  intros Hall Hend. cbn [all_chars] in Hall. apply andb_true_iff in Hall as [Hc Hw].
  unfold host_k.
  assert (Hstep : run host_part p (String c w ++ rest) cs accept
                  = if not_slash c then
                      run (Star (Chr not_slash)) (Some c) (w ++ rest) cs
                        (fun p' s' cs' =>
                           accept p' s'
                             ((1, substring 0 (length (String c w ++ rest) - length s')
                                    (String c w ++ rest)) :: cs'))
                    else None) by reflexivity.
  rewrite Hstep, Hc, run_star_chr.
  destruct (star_chr_longest not_slash
              (fun p' s' cs' =>
                 accept p' s'
                   ((1, substring 0 (length (String c w ++ rest) - length s')
                          (String c w ++ rest)) :: cs'))
              w rest (Some c) cs Hw (host_ends_first rest Hend) (fun _ => eq_refl))
    as (p' & ->).
  unfold accept. cbn [append]. rewrite substring_consumed. reflexivity.
Qed.

Lemma host_k_nothing (rest : string) (p : option ascii) (cs : caps) :
  host_ends rest -> host_k p rest cs = None.
Proof.
  intros H. pose proof (host_ends_first rest H) as Hf.
  unfold host_k. destruct rest as [|c rest]; [reflexivity|].
  assert (Hstep : run host_part p (String c rest) cs accept
                  = if not_slash c then
                      run (Star (Chr not_slash)) (Some c) rest cs
                        (fun p' s' cs' =>
                           accept p' s'
                             ((1, substring 0 (length (String c rest) - length s')
                                    (String c rest)) :: cs'))
                    else None) by reflexivity.
  rewrite Hstep, Hf. reflexivity.
Qed.

(** A literal that is no prefix of the host is no prefix of the URL from
    the host on, when the host ends before a character that the literal
    does not have. *)
Lemma prefix_host (w : string) : forall host rest,
  prefix w host = false ->
  match rest with String c _ => all_chars (fun x => negb (Ascii.eqb x c)) w = true
                | EmptyString => True end ->
  prefix w (host ++ rest) = false.
Proof.
  induction w as [|x w IH]; intros host rest Hp Hr.
  - rewrite CommaFacts.prefix_empty in Hp. discriminate Hp.
  - destruct host as [|y host].
    + cbn [append]. destruct rest as [|c rest]; [reflexivity|].
      cbn [all_chars] in Hr. apply andb_true_iff in Hr as [Hx _].
      cbn [prefix]. destruct (ascii_dec x c) as [->|]; [|reflexivity].
      rewrite Ascii.eqb_refl in Hx. discriminate Hx.
    + cbn [append prefix] in Hp |- *. destruct (ascii_dec x y); [|reflexivity].
      apply IH; [exact Hp|].
      destruct rest as [|c rest]; [exact I|].
      cbn [all_chars] in Hr. apply andb_true_iff in Hr as [_ Hr]. exact Hr.
Qed.

Lemma www_not_prefix (host rest : string) :
  prefix "www." host = false -> host_ends rest -> prefix "www." (host ++ rest) = false.
Proof.
  intros Hp Hend. apply prefix_host; [exact Hp|].
  pose proof (host_ends_first rest Hend) as Hf.
  destruct rest as [|c rest]; [exact I|].
  unfold not_slash in Hf. apply negb_false_iff, Ascii.eqb_eq in Hf. subst c. reflexivity.
Qed.

(** The host without a leading [www.], unless nothing would be left. *)
Definition without_www (host : string) : string :=
  if prefix "www." host && negb (is_empty (drop 4 host)) then drop 4 host else host.

Lemma drop_append (w : string) : forall t, drop (length w) (w ++ t) = t.
Proof. induction w as [|c w IH]; intros t; [reflexivity | apply IH]. Qed.

Lemma www_k_eq (s : string) (p : option ascii) (cs : caps) :
  www_k p s cs
  = match (if prefix "www." s then host_k (Some "."%char) (drop 4 s) cs else None) with
    | Some m => Some m
    | None => host_k p s cs
    end.
Proof. unfold www_k, opt. cbn [run]. rewrite run_lit. reflexivity. Qed.

Lemma www_k_value (host rest : string) (p : option ascii) (cs : caps) :
  host <> EmptyString -> all_chars not_slash host = true -> host_ends rest ->
  www_k p (host ++ rest) cs = Some ((1, without_www host) :: cs).
Proof.
  intros Hne Hall Hend. rewrite www_k_eq. unfold without_www.
  destruct (prefix "www." host) eqn:Ew.
  - pose proof (prefix_drop "www." host Ew) as Hh.
    set (h := drop (length "www.") host) in Hh. clearbody h. subst host.
    rewrite SplitFacts.append_assoc, (prefix_append "www.").
    change (drop 4 ("www." ++ h ++ rest)) with (h ++ rest).
    change (drop 4 ("www." ++ h)) with h.
    rewrite all_chars_app in Hall. apply andb_true_iff in Hall as [_ Hh].
    destruct h as [|c w].
    + cbn [append is_empty negb andb]. rewrite (host_k_nothing rest _ _ Hend).
      apply (host_k_value "w" "ww." rest); [reflexivity | exact Hend].
    + cbn [is_empty negb andb]. rewrite (host_k_value c w rest _ _ Hh Hend). reflexivity.
  - rewrite (www_not_prefix host rest Ew Hend). cbn [andb].
    destruct host as [|c w]; [contradiction|].
    apply host_k_value; assumption.
Qed.

Lemma opt_s_skip (c : ascii) (t : string) (p : option ascii) (cs : caps) (k : cont) :
  Ascii.eqb "s" c = false -> run (opt (chr "s")) p (String c t) cs k = k p (String c t) cs.
Proof. intros H. cbn [run opt chr]. rewrite H. reflexivity. Qed.

Lemma opt_s_take (t : string) (p : option ascii) (cs : caps) (k : cont) (r : caps) :
  k (Some "s"%char) t cs = Some r -> run (opt (chr "s")) p (String "s" t) cs k = Some r.
Proof. intros H. cbn [run opt chr]. rewrite Ascii.eqb_refl, H. reflexivity. Qed.

Lemma scheme_rest_value (host rest : string) (p : option ascii) :
  host <> EmptyString -> all_chars not_slash host = true -> host_ends rest ->
  run (lit "://") p ("://" ++ host ++ rest) [] www_k = Some [(1, without_www host)].
Proof.
  intros Hne Hall Hend.
  rewrite run_lit, (prefix_append "://"), (drop_append "://").
  apply www_k_value; assumption.
Qed.

(** X12.  For a URL that begins with [http://] or [https://],
    [extract_domain_from_url] returns the host: the characters after the
    scheme up to the first slash or the end of the URL, a port or user
    name included, without a leading [www.]; the [www.] stays when
    nothing follows it. *)
Theorem domain_of_scheme_url (scheme host rest : string) :
  scheme = "http" \/ scheme = "https" ->
  host <> EmptyString -> all_chars not_slash host = true -> host_ends rest ->
  extract_domain_from_url (scheme ++ "://" ++ host ++ rest) = without_www host.
Proof.
  intros Hs Hne Hall Hend. unfold extract_domain_from_url, re_search.
  assert (E : run domain_re None (scheme ++ "://" ++ host ++ rest) [] accept
              = Some [(1, without_www host)]).
  { rewrite domain_run_eq, run_lit.
    destruct Hs as [-> | ->].
    - rewrite (prefix_append "http"), (drop_append "http").
      change ("://" ++ host ++ rest) with (String ":" ("//" ++ host ++ rest)) at 1.
      rewrite opt_s_skip by reflexivity.
      apply scheme_rest_value; assumption.
    - change ("https" ++ "://" ++ host ++ rest)
        with ("http" ++ String "s" ("://" ++ host ++ rest)).
      rewrite (prefix_append "http"), (drop_append "http").
      apply opt_s_take. apply scheme_rest_value; assumption. }
  assert (Hsearch : search_from domain_re None (scheme ++ "://" ++ host ++ rest)
                    = Some [(1, without_www host)]).
  { destruct (scheme ++ "://" ++ host ++ rest); cbn [search_from]; rewrite E; reflexivity. }
  rewrite Hsearch. reflexivity.
Qed.

(** X13.  The answer of [extract_domain_from_url] is never the empty
    string and never holds a slash, for any argument. *)
Theorem domain_shape (url : string) :
  extract_domain_from_url url <> EmptyString
  /\ all_chars not_slash (extract_domain_from_url url) = true.
Proof.
  unfold extract_domain_from_url, re_search.
  destruct (search_from domain_re None url) as [m|] eqn:E.
  - destruct (search_from_found _ _ _ _ E) as (pre & t & p' & _ & Et).
    destruct (domain_match_found _ _ _ Et) as (c & w & -> & Hw).
    split; [discriminate | exact Hw].
  - split; [discriminate | reflexivity].
Qed.

(** X14.  A URL that holds neither [http://] nor [https://], such as
    a bare host name or a URL of another scheme, has the domain
    [unknown]. *)
Theorem domain_needs_scheme (url : string) :
  contains "http://" url = false -> contains "https://" url = false ->
  extract_domain_from_url url = "unknown".
Proof.
  intros H1 H2. unfold extract_domain_from_url, re_search.
  destruct (search_from domain_re None url) as [m|] eqn:E; [|reflexivity].
  destruct (search_from_found _ _ _ _ E) as (pre & t & p' & -> & Et).
  destruct (domain_match_scheme _ _ _ Et) as [Hp | Hp];
    apply contains_prefix in Hp; apply (contains_after _ pre) in Hp; congruence.
Qed.

(** A secure URL with [www.], a port and a path. *)
Lemma domain_of_scheme_url_witness :
  extract_domain_from_url "https://www.example.com:8080/a/b?c=1" = "example.com:8080".
Proof.
  apply (domain_of_scheme_url "https" "www.example.com:8080" "/a/b?c=1").
  - right. reflexivity.
  - discriminate.
  - reflexivity.
  - right. reflexivity.
Defined.

(** A URL of another scheme. *)
Lemma domain_needs_scheme_witness :
  extract_domain_from_url "ftp://example.com/file" = "unknown".
Proof.
  apply (domain_needs_scheme "ftp://example.com/file"); reflexivity.
Defined.

End DomainFacts.

(* ================================================================= *)
(** ** Sizes for the reader *)

Module SizeFacts.
Import PyNum PyFloat Utils.

Local Open Scope Z_scope.

(** *** Integers that a float holds exactly *)







(** *** The digits that are shown *)







(** *** The loop over the units *)







(** *** Sizes that no float holds *)








(** *** The function on its argument *)










End SizeFacts.

(* ================================================================= *)
(** ** An epoch as a number and as a text *)

Module EpochFacts.
Import PyStr PyNum Utils.

Local Open Scope Z_scope.

Lemma digit_char_dec (d : Z) :
  0 <= d < 10 -> is_dec (digit_char d) = true /\ digit_val (digit_char d) = d.
Proof.
  intros H.
  assert (Hd : d = 0 \/ d = 1 \/ d = 2 \/ d = 3 \/ d = 4 \/ d = 5 \/ d = 6 \/ d = 7
               \/ d = 8 \/ d = 9) by lia.
  repeat (destruct Hd as [-> | Hd]; [split; reflexivity|]).
  subst d. split; reflexivity.
Qed.

Lemma decimal_app (x y : string) : forall a,
  TimestampFacts.decimal a (x ++ y) = TimestampFacts.decimal (TimestampFacts.decimal a x) y.
Proof.
  induction x as [|c x IH]; intros a; [reflexivity|].
  cbn [append TimestampFacts.decimal]. apply IH.
Qed.

(** The digits that [pos_digits] puts before [acc]: decimal digits, at
    least one, that denote [n], and no more of them than [n] needs. *)
Definition digits_of (n : Z) (ds : string) : Prop :=
  all_chars is_dec ds = true
  /\ ds <> EmptyString
  /\ (forall a, TimestampFacts.decimal a ds = a * 10 ^ Z.of_nat (length ds) + n)
  /\ (length ds = 1%nat \/ 10 ^ (Z.of_nat (length ds) - 1) <= n).

Lemma one_digit (n : Z) :
  0 <= n -> n / 10 = 0 -> digits_of n (String (digit_char (n mod 10)) EmptyString).
Proof.
  intros Hn Hq.
  assert (Hlt : n < 10).
  { destruct (Z.lt_ge_cases n 10) as [H | H]; [exact H|].
    assert (1 <= n / 10) by (apply Z.div_le_lower_bound; lia). lia. }
  assert (Hmod : n mod 10 = n) by (apply Z.mod_small; lia).
  destruct (digit_char_dec (n mod 10)) as [Hdec Hval]; [lia|].
  split; [cbn [all_chars]; rewrite Hdec; reflexivity|].
  split; [discriminate|]. split; [|left; reflexivity].
  intros a. cbn [TimestampFacts.decimal length]. rewrite Hval, Hmod.
  change (Z.of_nat 1) with 1. rewrite Z.pow_1_r. lia.
Qed.

Lemma more_digits (n : Z) (ds : string) :
  0 <= n -> n / 10 <> 0 -> digits_of (n / 10) ds ->
  digits_of n (ds ++ String (digit_char (n mod 10)) EmptyString).
Proof.
  intros Hn Hq (Hall & Hne & Hval & Hlen).
  destruct (digit_char_dec (n mod 10)) as [Hdec Hdv];
    [apply Z.mod_pos_bound; lia|].
  assert (Hq0 : 0 <= n / 10) by (apply Z.div_pos; lia).
  assert (Hsplit : n = 10 * (n / 10) + n mod 10) by (apply Z.div_mod; lia).
  assert (Hm : 0 <= n mod 10 < 10) by (apply Z.mod_pos_bound; lia).
  assert (Hl : length (ds ++ String (digit_char (n mod 10)) EmptyString) = S (length ds))
    by apply CommaFacts.length_snoc.
  split; [|split; [|split]].
  - rewrite RegexFacts.all_chars_app, Hall. cbn [all_chars]. rewrite Hdec. reflexivity.
  - destruct ds; discriminate.
  - intros a. rewrite decimal_app, Hval. cbn [TimestampFacts.decimal].
    rewrite Hdv, Hl, Nat2Z.inj_succ, Z.pow_succ_r by lia. lia.
  - right. rewrite Hl, Nat2Z.inj_succ.
    replace (Z.succ (Z.of_nat (length ds)) - 1) with (Z.of_nat (length ds)) by lia.
    destruct Hlen as [H1 | Hpow].
    + rewrite H1. change (Z.of_nat 1) with 1. rewrite Z.pow_1_r. lia.
    + assert (Hpos : (0 < length ds)%nat) by (destruct ds; [contradiction | simpl; lia]).
      replace (Z.of_nat (length ds)) with (Z.succ (Z.of_nat (length ds) - 1)) by lia.
      rewrite Z.pow_succ_r by lia. lia.
Qed.

Lemma pos_digits_spec (fuel : nat) : forall n acc,
  0 <= n < 2 ^ Z.of_nat (S fuel) ->
  exists ds, pos_digits (S fuel) n acc = (ds ++ acc)%string /\ digits_of n ds.
Proof.
  induction fuel as [|fuel IH]; intros n acc [Hn Hlt].
  - cbn [pos_digits]. change (2 ^ Z.of_nat 1) with 2 in Hlt.
    assert (Hq : n / 10 = 0) by (apply Z.div_small; lia).
    rewrite Hq. cbn [Z.eqb].
    exists (String (digit_char (n mod 10)) EmptyString).
    split; [reflexivity | apply one_digit; assumption].
  - assert (Hstep : pos_digits (S (S fuel)) n acc
                    = if n / 10 =? 0 then String (digit_char (n mod 10)) acc
                      else pos_digits (S fuel) (n / 10)
                             (String (digit_char (n mod 10)) acc)) by reflexivity.
    rewrite Hstep. destruct (n / 10 =? 0) eqn:Eq.
    + apply Z.eqb_eq in Eq.
      exists (String (digit_char (n mod 10)) EmptyString).
      split; [reflexivity | apply one_digit; assumption].
    + apply Z.eqb_neq in Eq.
      assert (Hq : 0 <= n / 10 < 2 ^ Z.of_nat (S fuel)).
      { split; [apply Z.div_pos; lia|].
        apply Z.div_lt_upper_bound; [lia|].
        rewrite (Nat2Z.inj_succ (S fuel)), Z.pow_succ_r in Hlt by lia. lia. }
      destruct (IH (n / 10) (String (digit_char (n mod 10)) acc) Hq) as (ds & -> & Hds).
      exists (ds ++ String (digit_char (n mod 10)) EmptyString)%string.
      split; [rewrite SplitFacts.append_assoc; reflexivity|].
      apply more_digits; assumption.
Qed.

(** [str(n)] for a natural number: its decimal digits. *)
Lemma str_of_int_digits (n : Z) : 0 <= n -> digits_of n (str_of_int n).
Proof.
  intros Hn. unfold str_of_int.
  assert (E : (n <? 0) = false) by (apply Z.ltb_ge; exact Hn).
  rewrite E.
  assert (Hlt : n < 2 ^ Z.of_nat (S (Z.to_nat (Z.log2 n)))).
  { rewrite Nat2Z.inj_succ, Z2Nat.id by apply Z.log2_nonneg.
    destruct (Z.eq_dec n 0) as [-> | Hne]; [reflexivity|].
    apply Z.log2_spec. lia. }
  destruct (pos_digits_spec (Z.to_nat (Z.log2 n)) n EmptyString (conj Hn Hlt))
    as (ds & Hds & H).
  rewrite Hds, SplitFacts.append_empty. exact H.
Qed.

Lemma digits_length (n : Z) (ds : string) (k : Z) :
  0 < k -> n < 10 ^ k -> digits_of n ds -> Z.of_nat (length ds) <= k.
Proof.
  intros Hk Hn (_ & _ & _ & [H1 | Hpow]); [rewrite H1; change (Z.of_nat 1) with 1; lia|].
  destruct (Z.le_gt_cases (Z.of_nat (length ds)) k) as [H | H]; [exact H|].
  assert (Hmono : 10 ^ k <= 10 ^ (Z.of_nat (length ds) - 1))
    by (apply Z.pow_le_mono_r; lia).
  lia.
Qed.

(** [int(str(n)) == n] *)
Lemma py_int_str (n : Z) :
  0 <= n < 10 ^ 4300 ->
  isdigit (str_of_int n) = true /\ py_int (str_of_int n) = Some n.
Proof.
  intros [Hn Hlt].
  pose proof (str_of_int_digits n Hn) as Hds.
  pose proof (digits_length n _ 4300 eq_refl Hlt Hds) as Hlen.
  destruct Hds as (Hall & Hne & Hval & _). clear Hlt.
  split.
  - unfold isdigit. destruct (str_of_int n); [contradiction|].
    apply TimestampFacts.all_dec_isdigit. exact Hall.
  - rewrite (TimestampFacts.py_int_digits _ Hall Hne).
    + rewrite Hval. reflexivity.
    + unfold max_str_digits. lia.
Qed.

Section WithRuntime.

Context {R : Runtime}.

(** X19.  The decimal text of a natural number (below the limit of
    4300 digits of [int]) passes [isdigit], and [int] reads the number
    back from it; so [format_timestamp] gives the same answer for a
    number of seconds written as text and for the same number given as
    an [int]. *)
Theorem epoch_text (n : Z) (log_type : string) :
  0 <= n < 10 ^ 4300 ->
  isdigit (str_of_int n) = true
  /\ py_int (str_of_int n) = Some n
  /\ format_timestamp (TStr (str_of_int n)) log_type = format_timestamp (TInt n) log_type.
Proof.
  intros H. destruct (py_int_str n H) as [Hd Hi].
  split; [exact Hd|]. split; [exact Hi|].
  cbn [format_timestamp]. rewrite Hd, Hi. reflexivity.
Qed.

End WithRuntime.

(** The first second of 2024. *)
Lemma epoch_text_witness :
  format_timestamp (R := Reference.runtime) (TStr "1704067200") "browsing"
  = format_timestamp (R := Reference.runtime) (TInt 1704067200) "browsing".
Proof.
  apply (epoch_text (R := Reference.runtime) 1704067200 "browsing").
  split; [discriminate|].
  apply (Z.lt_le_trans _ (10 ^ 10)); [reflexivity|].
  apply Z.pow_le_mono_r; [reflexivity | discriminate].
Defined.

End EpochFacts.

(* ================================================================= *)
(** ** The browsing table *)

Module BrowsingFacts.
Import PyStr LogParser.

(** A row whose raw timestamp [astype(int)] accepts. *)
Definition timestamp_fits (row : str_row) : Prop :=
  exists n, astype_int (str_at "raw_timestamp" row) = Ok n.

Section WithRuntime.

Context {R : Runtime}.

Lemma convert_all_ok (data : list str_row) :
  Forall timestamp_fits data ->
  exists rows, convert_all data = Ok rows /\ List.length rows = List.length data.
Proof.
  induction 1 as [|row data [n Hn] _ (rows & Hrows & Hlen)].
  - exists []. split; reflexivity.
  - cbn [convert_all]. unfold browsing_convert. rewrite Hn. cbn [bind].
    rewrite Hrows. cbn [bind]. eexists. split; [reflexivity|].
    cbn [List.length]. rewrite Hlen. reflexivity.
Qed.

Lemma convert_all_fits (data : list str_row) : forall rows,
  convert_all data = Ok rows ->
  Forall timestamp_fits data /\ List.length rows = List.length data.
Proof.
  induction data as [|row data IH]; intros rows H.
  - injection H as <-. split; [constructor | reflexivity].
  - cbn [convert_all] in H. unfold browsing_convert in H.
    destruct (astype_int (str_at "raw_timestamp" row)) as [n|e] eqn:En; [|discriminate H].
    cbn [bind] in H.
    destruct (convert_all data) as [rest|e] eqn:Erest; [|discriminate H].
    cbn [bind] in H. injection H as <-.
    destruct (IH rest eq_refl) as [Hall Hlen].
    split; [constructor; [exists n; exact En | exact Hall]|].
    cbn [List.length]. rewrite Hlen. reflexivity.
Qed.

(** X20.  The browsing parser returns a table exactly when the first
    word of every line of nine words or more is an integer that fits 64
    bits (the value [astype(int)] accepts); it raises otherwise.  The
    table it returns has one row for each of these lines. *)
Theorem browsing_table_needs_epochs (lines : list string) :
  ((exists df, _parse_browsing_logs lines = Ok df)
   <-> Forall timestamp_fits (flat_map (FixedFieldFacts.rows_for "browsing") lines))
  /\ (forall df, _parse_browsing_logs lines = Ok df ->
      frame_len df = List.length (flat_map (FixedFieldFacts.rows_for "browsing") lines)).
Proof.
  unfold _parse_browsing_logs. rewrite FixedFieldFacts.browsing_data_spec. cbn [bind].
  destruct (flat_map (FixedFieldFacts.rows_for "browsing") lines) as [|row data] eqn:E.
  - split; [split; [constructor | intros _; eexists; reflexivity]|].
    intros df H. injection H as <-. reflexivity.
  - split; [split|].
    + intros [df H].
      destruct (convert_all (row :: data)) as [rows|e] eqn:Erows; [|discriminate H].
      exact (proj1 (convert_all_fits _ _ Erows)).
    + intros H. destruct (convert_all_ok _ H) as (rows & -> & _).
      eexists. reflexivity.
    + intros df H.
      destruct (convert_all (row :: data)) as [rows|e] eqn:Erows; [|discriminate H].
      cbn [bind] in H. injection H as <-.
      exact (proj2 (convert_all_fits _ _ Erows)).
Qed.

End WithRuntime.

End BrowsingFacts.

(* ================================================================= *)
(** ** The types that detection can set *)

Module RangeFacts.
Import PyStr LogParser.

(** The log types that the classifier writes into the parser. *)
Definition detected_types : list string :=
  ["json"; "clf"; "elf"; "syslog"; "browsing"; "virus"; "mail"; "firewall"; "auth";
   "system"; "application"; "ids"; "vpn"].

Lemma keyword_type_range (line t : string) :
  keyword_type line = Some t -> In t detected_types.
Proof.
  unfold keyword_type.
  repeat match goal with
         | |- context [if ?b then _ else _] => destruct b
         end; intros H; try discriminate H; injection H as <-; cbn; tauto.
Qed.

Lemma scan_keywords_range (sample : list string) (t : string) :
  scan_keywords sample = Some t -> In t detected_types.
Proof.
  induction sample as [|line rest IH]; [discriminate|].
  cbn [scan_keywords]. destruct (keyword_type line) as [u|] eqn:E.
  - intros H. injection H as <-. exact (keyword_type_range _ _ E).
  - exact IH.
Qed.

Section WithRuntime.

Context {R : Runtime}.

Lemma detect_format_range (self : parser) (sample : list string) :
  In (log_type (_detect_log_format_from_content self sample))
     (log_type self :: detected_types).
Proof.
  unfold _detect_log_format_from_content.
  repeat match goal with
         | |- context [if first_line ?f sample then _ else _] =>
             destruct (first_line f sample); [cbn; tauto|]
         end.
  cbn [configure log_type].
  destruct (scan_keywords sample) as [t|] eqn:E.
  - right. exact (scan_keywords_range _ _ E).
  - left. reflexivity.
Qed.

(** X21.  Detection never chooses the CSV or the XML parser.  After
    [parse_file] on a parser of the default type, the log type is one of
    thirteen names, and after [parse_uploaded_file] it is one of them or
    the type the parser had; [csv] and [xml] are not among them, so that
    the two parsers are reached only by a parser declared with their
    type. *)
Theorem detection_never_chooses_csv_or_xml (self : parser) (fs : Utils.FileSystem)
    (file_path : string) (f : UploadedFile) :
  In (log_type (snd (parse_file (__init__ None) fs file_path))) detected_types
  /\ In (log_type (snd (fst (parse_uploaded_file self f)))) (log_type self :: detected_types)
  /\ ~ In "csv" detected_types
  /\ ~ In "xml" detected_types.
Proof.
  split; [|split; [|split]].
  - rewrite EntryPointFacts.parse_file_eq. cbn [snd].
    destruct (String.eqb (Utils.detect_log_type fs file_path) (log_type (__init__ None)))
      eqn:Hdet.
    + rewrite (EntryPointFacts.settled_default (__init__ None) fs file_path eq_refl Hdet).
      destruct (detect_format_range (__init__ None)
                  (firstn 10 (EntryPointFacts.file_lines fs file_path))) as [<- | H];
        [cbn; tauto | exact H].
    + destruct (EntryPointFacts.settled_detected (__init__ None) fs file_path eq_refl Hdet)
        as [-> _].
      cbn [configure log_type].
      pose proof (DetectionFacts.detect_log_type_range fs file_path) as Hr.
      cbn in Hr |- *. tauto.
  - unfold parse_uploaded_file, parse_uploaded_file_body.
    destruct (_detect_uploaded_file_format f) as [file_format f1].
    destruct (_read_uploaded_file_by_format f1 file_format) as [lines f2].
    cbn [fst snd]. apply detect_format_range.
  - cbn. intuition discriminate.
  - cbn. intuition discriminate.
Qed.

End WithRuntime.

End RangeFacts.

(* ================================================================= *)
(** ** The position of an uploaded file *)

Module UploadFacts.
Import PyStr LogParser.

Lemma read_all_end (f : UploadedFile) :
  pos f <= List.length (data f) ->
  snd (read_all f) = mk_upload (name f) (data f) (List.length (data f)).
Proof.
  intros H. unfold read_all. cbn [snd]. rewrite length_skipn. f_equal. lia.
Qed.

Section WithRuntime.

Context {R : Runtime}.

Lemma sniffed_upload (f : UploadedFile) :
  pos f <= List.length (data f) ->
  name (snd (_detect_uploaded_file_format f)) = name f
  /\ data (snd (_detect_uploaded_file_format f)) = data f
  /\ pos (snd (_detect_uploaded_file_format f)) <= List.length (data f).
Proof.
  intros H. unfold _detect_uploaded_file_format.
  destruct (format_of_extension _); [cbn [snd]; auto|].
  unfold read_n, seek0. cbn [name data pos].
  destruct (format_of_magic _); [cbn; repeat split; lia|].
  destruct (is_binary _); cbn; repeat split; lia.
Qed.

Lemma read_upload_end (f : UploadedFile) (file_format : string) :
  pos f <= List.length (data f) ->
  snd (_read_uploaded_file_by_format f file_format)
  = mk_upload (name f) (data f) (List.length (data f)).
Proof.
  intros H. unfold _read_uploaded_file_by_format.
  pose proof (read_all_end f H) as Hend.
  destruct (read_all f) as [content f1] eqn:E. cbn [snd] in Hend. subst f1.
  destruct (read_upload_as file_format content); [reflexivity|].
  unfold read_all, seek0. cbn [name data pos snd skipn]. reflexivity.
Qed.

(** X22.  [parse_uploaded_file] leaves the uploaded file at its end:
    for an upload whose position is within its bytes, the name and the
    bytes are as they were and the position is the number of bytes,
    whatever the format and whether the read succeeded or fell back to
    plain text.  The file is not rewound for the caller. *)
Theorem upload_is_left_at_its_end (self : parser) (f : UploadedFile) :
  pos f <= List.length (data f) ->
  snd (parse_uploaded_file self f) = mk_upload (name f) (data f) (List.length (data f)).
Proof.
  intros H. unfold parse_uploaded_file, parse_uploaded_file_body.
  destruct (sniffed_upload f H) as (Hn & Hd & Hp).
  destruct (_detect_uploaded_file_format f) as [file_format f1]. cbn [snd] in Hn, Hd, Hp.
  rewrite <- Hd in Hp.
  pose proof (read_upload_end f1 file_format Hp) as Hend.
  destruct (_read_uploaded_file_by_format f1 file_format) as [lines f2].
  cbn [snd] in Hend |- *. rewrite Hend, Hn, Hd. reflexivity.
Qed.

End WithRuntime.

(** An upload of two words, at its start. *)
Lemma upload_is_left_at_its_end_witness :
  pos (mk_upload "access.log" (Reference.bytes_of "plain words") 0)
  <= List.length (data (mk_upload "access.log" (Reference.bytes_of "plain words") 0))
  /\ snd (parse_uploaded_file (R := Reference.runtime) (__init__ None)
            (mk_upload "access.log" (Reference.bytes_of "plain words") 0))
     = mk_upload "access.log" (Reference.bytes_of "plain words") 11.
Proof.
  split; [apply Nat.le_0_l|].
  apply (upload_is_left_at_its_end (R := Reference.runtime) (__init__ None)
           (mk_upload "access.log" (Reference.bytes_of "plain words") 0)).
  apply Nat.le_0_l.
Defined.

End UploadFacts.
